(** * Build recipes of misc-macos-deps: a shallow embedding

    The recipes of [target/library.py] and [target/tool.py] are Python
    classes that override the hooks of a host framework ([aedi]).  This
    development embeds

    - the Python string operations the recipes use ([str.startswith],
      [str.replace]) and the line-rewrite functions built from them;
    - the class table (bases, method resolution);
    - the hooks themselves, as computations in a small state-and-error
      monad over the target object and the host's build state;
    - [targets()] of [target/__init__.py].
*)

From Stdlib Require Import ZArith Lia Ascii.
From stdpp Require Import base strings list gmap.

(** ** Python strings *)

Module Str.

(** Characters that cannot be written inside a literal here. *)
Definition nl : string := String (ascii_of_nat 10) "".
Definition dq : string := String (ascii_of_nat 34) "".

Fixpoint drop (n : nat) (s : string) : string :=
  match n, s with
  | O, _ => s
  | S k, String _ s' => drop k s'
  | S _, EmptyString => EmptyString
  end.

Fixpoint take (n : nat) (s : string) : string :=
  match n, s with
  | S k, String c s' => String c (take k s')
  | _, _ => EmptyString
  end.

(** [s.startswith(p)] *)
Fixpoint startswith (s p : string) {struct p} : bool :=
  match p, s with
  | EmptyString, _ => true
  | String a p', String b s' => Ascii.eqb a b && startswith s' p'
  | String _ _, EmptyString => false
  end.

(** [s.endswith(p)] *)
Definition endswith (s p : string) : bool :=
  String.eqb (drop (String.length s - String.length p) s) p
  && (String.length p <=? String.length s)%nat.

(** [p in s] *)
Fixpoint occurs (s p : string) : bool :=
  match s with
  | EmptyString => startswith s p
  | String _ s' => startswith s p || occurs s' p
  end.

(** The scan of [s.replace(old, new)] for a non-empty [old]: left to
    right, taking the leftmost match and resuming after it.  [skip]
    counts the characters of a match still to be passed over. *)
Fixpoint replace_scan (old new : string) (skip : nat) (s : string) : string :=
  match s with
  | EmptyString => EmptyString
  | String c s' =>
      match skip with
      | S k => replace_scan old new k s'
      | O =>
          if startswith s old
          then new +:+ replace_scan old new (String.length old - 1) s'
          else String c (replace_scan old new 0 s')
      end
  end.

(** With an empty [old], Python inserts [new] before every character
    and at the end. *)
Fixpoint interleave (new s : string) : string :=
  match s with
  | EmptyString => new
  | String c s' => new +:+ String c (interleave new s')
  end.

(** [s.replace(old, new)] *)
Definition replace (s old new : string) : string :=
  match old with
  | EmptyString => interleave new s
  | String _ _ => replace_scan old new 0 s
  end.

(** [s.count(p)] for a non-empty [p]: the matches the scan of [replace]
    takes. *)
Fixpoint count_scan (p : string) (skip : nat) (s : string) : nat :=
  match s with
  | EmptyString => 0
  | String _ s' =>
      match skip with
      | S k => count_scan p k s'
      | O =>
          if startswith s p
          then S (count_scan p (String.length p - 1) s')
          else count_scan p 0 s'
      end
  end.

Definition count (s p : string) : nat :=
  match p with
  | EmptyString => S (String.length s)
  | String _ _ => count_scan p 0 s
  end.

(** [s.removesuffix(p)] *)
Definition removesuffix (s p : string) : string :=
  if endswith s p then take (String.length s - String.length p) s else s.

End Str.

(** ** Paths *)

(** [pathlib.Path], by its string form. *)
Abbreviation Path := string.

(** [a / b] on paths: an absolute right operand replaces the left one,
    an empty one leaves it unchanged.  (pathlib also collapses repeated
    separators; no recipe passes such operands.) *)
Definition joinpath (a b : Path) : Path :=
  if Str.startswith b "/" then b
  else if String.eqb b "" then a
  else if Str.endswith a "/" then a +:+ b
  else a +:+ "/" +:+ b.

(** ** Classes *)

(** The base classes of [aedi.target.base] the recipes derive from.
    They belong to the host. *)
Inductive BaseClass :=
  | CMakeTarget
  | CMakeStaticDependencyTarget
  | ConfigureMakeDependencyTarget
  | ConfigureMakeStaticDependencyTarget
  | MakeTarget
  | MesonTarget
  | SingleExeCTarget.

(** The classes defined in [library.py] and [tool.py]. *)
Module Cls.
Inductive t :=
    (* library.py *)
    | BrotliTarget | Bzip2Target | ExpatTarget | FfiTarget | FreeImageTarget
    | GettextTarget | HighwayTarget | IconvTarget | IntlTarget
    | JpegTurboTarget | TiffTarget | WxWidgetsTarget
    (* tool.py *)
    | AutoconfTarget | AutomakeTarget | Bzip3Target | FFmpegTarget
    | LuaTarget | M4Target | P7ZipTarget | PbzxTarget | Radare2Target
    | RizinTarget | SevenZipTarget | UnrarTarget | XdeltaTarget
    | XzTarget | ZipTarget.

Definition all : list t :=
    [ BrotliTarget; Bzip2Target; ExpatTarget; FfiTarget; FreeImageTarget;
      GettextTarget; HighwayTarget; IconvTarget; IntlTarget;
      JpegTurboTarget; TiffTarget; WxWidgetsTarget;
      AutoconfTarget; AutomakeTarget; Bzip3Target; FFmpegTarget;
      LuaTarget; M4Target; P7ZipTarget; PbzxTarget; Radare2Target;
      RizinTarget; SevenZipTarget; UnrarTarget; XdeltaTarget;
      XzTarget; ZipTarget ].
End Cls.

#[global] Instance Cls_eq_dec : EqDecision Cls.t.
Proof. solve_decision. Defined.

#[global] Instance BaseClass_eq_dec : EqDecision BaseClass.
Proof. solve_decision. Defined.

(** The hooks of the host's contract. *)
Module Method.
Inductive t :=
    | prepare_source | detect | configure | build | post_build.

Definition all : list t :=
    [prepare_source; detect; configure; build; post_build].
End Method.

#[global] Instance Method_eq_dec : EqDecision Method.t.
Proof. solve_decision. Defined.

(** What a class statement names between its parentheses. *)
Inductive Parent :=
  | InHost (b : BaseClass)
  | InRepo (c : Cls.t).

#[global] Instance Parent_eq_dec : EqDecision Parent.
Proof. solve_decision. Defined.

Definition parent (c : Cls.t) : Parent :=
  match c with
  | Cls.BrotliTarget => InHost CMakeStaticDependencyTarget
  | Cls.Bzip2Target => InHost CMakeStaticDependencyTarget
  | Cls.ExpatTarget => InHost CMakeStaticDependencyTarget
  | Cls.FfiTarget => InHost ConfigureMakeStaticDependencyTarget
  | Cls.FreeImageTarget => InHost MakeTarget
  | Cls.GettextTarget => InHost ConfigureMakeStaticDependencyTarget
  | Cls.HighwayTarget => InHost CMakeStaticDependencyTarget
  | Cls.IconvTarget => InHost ConfigureMakeStaticDependencyTarget
  | Cls.IntlTarget => InRepo Cls.GettextTarget
  | Cls.JpegTurboTarget => InHost CMakeStaticDependencyTarget
  | Cls.TiffTarget => InHost CMakeStaticDependencyTarget
  | Cls.WxWidgetsTarget => InHost CMakeStaticDependencyTarget
  | Cls.AutoconfTarget => InHost ConfigureMakeDependencyTarget
  | Cls.AutomakeTarget => InHost ConfigureMakeDependencyTarget
  | Cls.Bzip3Target => InHost CMakeStaticDependencyTarget
  | Cls.FFmpegTarget => InHost ConfigureMakeDependencyTarget
  | Cls.LuaTarget => InHost MakeTarget
  | Cls.M4Target => InHost ConfigureMakeDependencyTarget
  | Cls.P7ZipTarget => InHost CMakeTarget
  | Cls.PbzxTarget => InHost SingleExeCTarget
  | Cls.Radare2Target => InHost MesonTarget
  | Cls.RizinTarget => InHost MesonTarget
  | Cls.SevenZipTarget => InHost MakeTarget
  | Cls.UnrarTarget => InHost MakeTarget
  | Cls.XdeltaTarget => InHost ConfigureMakeDependencyTarget
  | Cls.XzTarget => InHost CMakeStaticDependencyTarget
  | Cls.ZipTarget => InHost SingleExeCTarget
  end.

(** The [name=...] default of each [__init__]. *)
Definition default_name (c : Cls.t) : string :=
  match c with
  | Cls.BrotliTarget => "brotli"
  | Cls.Bzip2Target => "bzip2"
  | Cls.ExpatTarget => "expat"
  | Cls.FfiTarget => "ffi"
  | Cls.FreeImageTarget => "freeimage"
  | Cls.GettextTarget => "gettext"
  | Cls.HighwayTarget => "highway"
  | Cls.IconvTarget => "iconv"
  | Cls.IntlTarget => "intl"
  | Cls.JpegTurboTarget => "jpeg-turbo"
  | Cls.TiffTarget => "tiff"
  | Cls.WxWidgetsTarget => "wxwidgets"
  | Cls.AutoconfTarget => "autoconf"
  | Cls.AutomakeTarget => "automake"
  | Cls.Bzip3Target => "bzip3"
  | Cls.FFmpegTarget => "ffmpeg"
  | Cls.LuaTarget => "lua"
  | Cls.M4Target => "m4"
  | Cls.P7ZipTarget => "p7zip"
  | Cls.PbzxTarget => "pbzx"
  | Cls.Radare2Target => "radare2"
  | Cls.RizinTarget => "rizin"
  | Cls.SevenZipTarget => "7zip"
  | Cls.UnrarTarget => "unrar"
  | Cls.XdeltaTarget => "xdelta"
  | Cls.XzTarget => "xz"
  | Cls.ZipTarget => "zip"
  end.

(** ** Values, the target object, the build state *)

(** What the recipes store under a key of [state.options]. *)
Inductive optval :=
  | VStr (s : string)
  | VNone
  | VPath (p : Path).

(** What a hook or a host call returns. *)
Inductive retval :=
  | RNone
  | RBool (b : bool).

Inductive exn :=
  | KeyError (key : string)
  | TypeError
  | NameError (name : string)
  | CalledProcessError (returncode : Z) (cmd : list string)
  | OSError (what : string)
  | HostError (what : string).

Inductive Res (A : Type) :=
  | Ok (a : A)
  | Raise (e : exn).
Arguments Ok {A} a.
Arguments Raise {A} e.

(** The instance attributes the recipes read or assign. *)
Module Target.
Record t := mk {
    cls : Cls.t;
    name : string;
    src_root : string;
    multi_platform : bool;
    configure_prefix : bool;
    options : list string;
  }.

Definition set_src_root (v : string) (o : t) : t :=
    mk (cls o) (name o) v (multi_platform o) (configure_prefix o) (options o).
Definition set_multi_platform (v : bool) (o : t) : t :=
    mk (cls o) (name o) (src_root o) v (configure_prefix o) (options o).
Definition set_configure_prefix (v : bool) (o : t) : t :=
    mk (cls o) (name o) (src_root o) (multi_platform o) v (options o).
Definition set_options (v : list string) (o : t) : t :=
    mk (cls o) (name o) (src_root o) (multi_platform o) (configure_prefix o) v.
End Target.

(** The host's [BuildState], by the members the recipes touch.
    [has_source_file] and [architecture] are methods of the host: they
    are taken as queries that return, and are not recorded among the
    calls.  A Python [dict] keeps insertion order; the maps here do
    not, and nothing below depends on it. *)
Module BuildState.
Record t := mk {
    options : gmap string optval;
    environment : gmap string string;
    build_path : Path;
    install_path : Path;
    has_source_file : string → bool;
    architecture : string;
  }.

Definition set_options (v : gmap string optval) (s : t) : t :=
    mk v (environment s) (build_path s) (install_path s)
       (has_source_file s) (architecture s).
Definition set_environment (v : gmap string string) (s : t) : t :=
    mk (options s) v (build_path s) (install_path s)
       (has_source_file s) (architecture s).
Definition set_build_path (v : Path) (s : t) : t :=
    mk (options s) (environment s) v (install_path s)
       (has_source_file s) (architecture s).
End BuildState.

(** ** Calls that leave the recipe *)

(** Calls into the host framework ([state.download_source], the hooks
    of the base classes, helper methods of the base classes) and into
    the operating system ([os], [shutil], [subprocess]). *)
Inductive Call :=
  | download_source (url checksum : string) (patches : option string)
  | base_method (b : BaseClass) (m : Method.t)
  | install (opts : gmap string optval)
  | make_platform_header (header : string)
  | write_pc_file (version libs : string)
  | copy_to_bin (args : list string)
  | update_text_file (path : Path) (fn : string → string)
  | os_unlink (path : Path)
  | os_rename (src dst : Path)
  | os_makedirs (path : Path) (exist_ok : bool)
  | shutil_copy (src dst : Path)
  | subprocess_run (args : list string) (cwd : Path) (env : gmap string string).

(** The calls that are made on the target object ([super().m(state)],
    [base.C.m(self, state)], [self.install(...)] and the like), which
    can therefore assign to its attributes.  [state.download_source] is
    a method of the state. *)
Definition receives_self (c : Call) : bool :=
  match c with
  | base_method _ _ | install _ | make_platform_header _ | write_pc_file _ _
  | copy_to_bin _ | update_text_file _ _ => true
  | _ => false
  end.

(** Everything outside the repository: how the host and the operating
    system answer.  A host call returns or raises ([reply]) and may
    change the build state; one made on the target object leaves it as
    [touch] says; a call of [os] or [shutil] succeeds or raises; a
    child process ends with a status, unless it could not be started,
    when [subprocess] raises an [OSError]. *)
Record Host := {
  new_target : BaseClass → Cls.t → string → Target.t;
  reply : Call → Target.t → BuildState.t → Res retval * BuildState.t;
  touch : Call → Target.t → BuildState.t → Target.t;
  os_error : Call → option exn;
  run_process : list string → Path → gmap string string → Res Z;
  iglob : string → list string;
}.

(** One call performed, with the exception it raised, if any. *)
Definition Event : Type := Call * option exn.

Record World := mkWorld {
  self : Target.t;
  state : BuildState.t;
  trace : list Event;
}.

(** ** The monad of hook bodies *)

(** A hook body runs against the outside and a world; it returns a
    value or raises, and leaves a world behind in both cases. *)
Definition M (A : Type) : Type := Host → World → Res A * World.

#[global] Instance M_ret : MRet M := λ A a _ w, (Ok a, w).

#[global] Instance M_bind : MBind M := λ A B f m h w,
  match m h w with
  | (Ok a, w') => f a h w'
  | (Raise e, w') => (Raise e, w')
  end.

Definition raise {A} (e : exn) : M A := λ _ w, (Raise e, w).

Definition get_self : M Target.t := λ _ w, (Ok (self w), w).
Definition get_state : M BuildState.t := λ _ w, (Ok (state w), w).
Definition put_self (o : Target.t) : M unit :=
  λ _ w, (Ok (), mkWorld o (state w) (trace w)).
Definition put_state (s : BuildState.t) : M unit :=
  λ _ w, (Ok (), mkWorld (self w) s (trace w)).

(** A call to the host or the operating system. *)
Definition call (c : Call) : M retval := λ h w,
  let '(r, s) := reply h c (self w) (state w) in
  let o := match r with Ok _ => None | Raise e => Some e end in
  let self' :=
    if receives_self c then touch h c (self w) (state w) else self w in
  (r, mkWorld self' s (trace w ++ [(c, o)])).

(** A call of [os] or [shutil]. *)
Definition syscall (c : Call) : M unit := λ h w,
  let o := os_error h c in
  (match o with None => Ok () | Some e => Raise e end,
   mkWorld (self w) (state w) (trace w ++ [(c, o)])).

(** [subprocess.run(args, check=True, cwd=cwd, env=env)]: the error of
    a child that could not be started is raised as it is; a child that
    ran raises [CalledProcessError] unless its status is zero. *)
Definition subprocess_run_check (args : list string) (cwd : Path)
    (env : gmap string string) : M unit := λ h w,
  let c := subprocess_run args cwd env in
  let after o := mkWorld (self w) (state w) (trace w ++ [(c, o)]) in
  match run_process h args cwd env with
  | Raise e => (Raise e, after (Some e))
  | Ok code =>
      if (code =? 0)%Z then (Ok (), after None)
      else let e := CalledProcessError code args in (Raise e, after (Some e))
  end.

(** [glob.iglob(pattern)] *)
Definition glob_iglob (pattern : string) : M (list string) :=
  λ h w, (Ok (iglob h pattern), w).

(** [for x in l: body(x)] *)
Fixpoint for_ {A} (l : list A) (body : A → M unit) : M unit :=
  match l with
  | [] => mret ()
  | x :: l' => mbind (M := M) (λ _, for_ l' body) (body x)
  end.

(** [state.options[k] = v] *)
Definition set_option (k : string) (v : optval) : M unit :=
  s ← get_state;
  put_state (BuildState.set_options (<[k := v]> (BuildState.options s)) s).

(** [state.options[k]] *)
Definition get_option (k : string) : M optval :=
  s ← get_state;
  match BuildState.options s !! k with
  | Some v => mret v
  | None => raise (KeyError k)
  end.

(** [x + v] for a [str] [v] *)
Definition add_str (x : optval) (v : string) : M optval :=
  match x with
  | VStr a => mret (VStr (a +:+ v))
  | VNone | VPath _ => raise TypeError
  end.

(** [state.options[k] += v] *)
Definition iadd_option (k v : string) : M unit :=
  x ← get_option k;
  y ← add_str x v;
  set_option k y.

(** [state.environment[k]] *)
Definition get_env (k : string) : M string :=
  s ← get_state;
  match BuildState.environment s !! k with
  | Some v => mret v
  | None => raise (KeyError k)
  end.

Definition set_env (k v : string) : M unit :=
  s ← get_state;
  put_state (BuildState.set_environment (<[k := v]> (BuildState.environment s)) s).

(** [state.environment[k] += v] *)
Definition iadd_env (k v : string) : M unit :=
  x ← get_env k;
  set_env k (x +:+ v).

(** [state.has_source_file(f)] *)
Definition state_has_source_file (f : string) : M bool :=
  s ← get_state; mret (BuildState.has_source_file s f).

(** [e1 and e2] on booleans: [e2] runs only when [e1] is true. *)
Definition and_ (e1 e2 : M bool) : M bool :=
  b ← e1; match b with true => e2 | false => mret false end.

(** A hook that ends without [return] returns [None]. *)
Definition returns_none (m : M unit) : M retval := m ;; mret RNone.
Definition returns_bool (m : M bool) : M retval := b ← m; mret (RBool b).

(** [super().m(state)] where the next class in the method resolution
    order is the host's [b]. *)
Definition super_ (b : BaseClass) (m : Method.t) : M unit :=
  call (base_method b m) ;; mret ().

(** [state.download_source(url, checksum, patches=...)] *)
Definition state_download_source (url checksum : string)
    (patches : option string) : M unit :=
  call (download_source url checksum patches) ;; mret ().

(** [self.src_root = v] *)
Definition set_src_root (v : string) : M unit :=
  o ← get_self; put_self (Target.set_src_root v o).

(** ** library.py *)

Module BrotliTarget.
Definition __init__ (h : Host) (c : Cls.t) (name : string) : Target.t :=
    new_target h CMakeStaticDependencyTarget c name.

Definition prepare_source : M retval := returns_none (
    state_download_source
      "https://github.com/google/brotli/archive/refs/tags/v1.0.9.tar.gz"
      "f9e8d81d0405ba66d181529af42a3354f838c939095ff99930da6aa9cdf6fe46"
      None).

Definition archive_suffix : string := "-static.a".

  (** The second argument of [os.rename] in [post_build]. *)
Definition no_suffix_name (archive : string) : string :=
    Str.replace archive archive_suffix ".a".

Definition post_build : M retval := returns_none (
    super_ CMakeStaticDependencyTarget Method.post_build ;;
    s ← get_state;
    let dylib_pattern := joinpath (BuildState.install_path s) "lib/*.dylib" in
    dylibs ← glob_iglob dylib_pattern;
    for_ dylibs (λ dylib, syscall (os_unlink dylib)) ;;
    let archive_pattern :=
      joinpath (BuildState.install_path s) ("lib/*" +:+ archive_suffix) in
    archives ← glob_iglob archive_pattern;
    for_ archives (λ archive,
      syscall (os_rename archive (no_suffix_name archive)))).

Definition _process_pkg_config (pcfile : Path) (line : string) : string :=
    if Str.startswith line "Libs:"
    then Str.replace line "-R${libdir} " ""
    else line.
End BrotliTarget.

Module Bzip2Target.
Definition __init__ (h : Host) (c : Cls.t) (name : string) : Target.t :=
    new_target h CMakeStaticDependencyTarget c name.

Definition prepare_source : M retval := returns_none (
    state_download_source
      "https://sourceware.org/pub/bzip2/bzip2-1.0.8.tar.gz"
      "ab5a03176ee106d3f0fa90e381da478ddae405918153cca248e682cd0c4a2269"
      (Some "bzip2-add-cmake")).

Definition detect : M retval :=
    returns_bool (state_has_source_file "bzlib.h").

Definition configure : M retval := returns_none (
    set_option "ENABLE_APP" (VStr "NO") ;;
    set_option "ENABLE_SHARED_LIB" (VStr "NO") ;;
    set_option "ENABLE_STATIC_LIB" (VStr "YES") ;;
    set_option "ENABLE_TESTS" (VStr "NO") ;;
    super_ CMakeStaticDependencyTarget Method.configure).

Definition post_build : M retval := returns_none (
    super_ CMakeStaticDependencyTarget Method.post_build ;;
    s ← get_state;
    let lib_path := joinpath (BuildState.install_path s) "lib" in
    syscall (os_rename (joinpath lib_path "libbz2_static.a")
                       (joinpath lib_path "libbz2.a"))).

Definition _process_pkg_config (pcfile : Path) (line : string) : string :=
    if Str.startswith line "bindir=" then "" else line.
End Bzip2Target.

Module ExpatTarget.
Definition __init__ (h : Host) (c : Cls.t) (name : string) : Target.t :=
    new_target h CMakeStaticDependencyTarget c name.

Definition prepare_source : M retval := returns_none (
    state_download_source
      "https://github.com/libexpat/libexpat/releases/download/R_2_4_1/expat-2.4.1.tar.xz"
      "cf032d0dba9b928636548e32b327a2d66b1aab63c4f4a13dd132c2d1d2f2fb6a"
      None).

Definition configure : M retval := returns_none (
    set_option "EXPAT_BUILD_EXAMPLES" (VStr "NO") ;;
    set_option "EXPAT_BUILD_TESTS" (VStr "NO") ;;
    set_option "EXPAT_BUILD_TOOLS" (VStr "NO") ;;
    super_ CMakeStaticDependencyTarget Method.configure).
End ExpatTarget.

Module FfiTarget.
Definition __init__ (h : Host) (c : Cls.t) (name : string) : Target.t :=
    new_target h ConfigureMakeStaticDependencyTarget c name.

Definition prepare_source : M retval := returns_none (
    state_download_source
      "https://github.com/libffi/libffi/releases/download/v3.4.6/libffi-3.4.6.tar.gz"
      "b0dea9df23c863a7a50e825440f3ebffabd65df1497108e5d437747843895a4e"
      None).

Definition detect : M retval :=
    returns_bool (state_has_source_file "libffi.pc.in").

Definition post_build : M retval := returns_none (
    super_ ConfigureMakeStaticDependencyTarget Method.post_build ;;
    for_ ["ffi.h"; "ffitarget.h"] (λ header,
      call (make_platform_header header) ;; mret ())).
End FfiTarget.

Module FreeImageTarget.
Definition __init__ (h : Host) (c : Cls.t) (name : string) : Target.t :=
    new_target h MakeTarget c name.

Definition prepare_source : M retval := returns_none (
    state_download_source
      "https://downloads.sourceforge.net/project/freeimage/Source%20Distribution/3.18.0/FreeImage3180.zip"
      "f41379682f9ada94ea7b34fe86bf9ee00935a3147be41b6569c9605a53e438fd"
      (Some "freeimage-fix-arm64")).

Definition HEADER_FILE : string := "Source/FreeImage.h".

Definition detect : M retval :=
    returns_bool (state_has_source_file HEADER_FILE).

Definition configure : M retval := returns_none (
    super_ MakeTarget Method.configure ;;
    let common_flags := " -O3 -fPIC -fexceptions -fvisibility=hidden" in
    iadd_env "CFLAGS"
      (common_flags +:+ " -std=gnu89 -Wno-implicit-function-declaration") ;;
    iadd_env "CXXFLAGS" (common_flags +:+ " -Wno-ctor-dtor-privacy") ;;
    for_ ["-f"; "Makefile.gnu"; "libfreeimage.a"] (λ option,
      set_option option VNone)).

Definition post_build : M retval := returns_none (
    s ← get_state;
    let include_path := joinpath (BuildState.install_path s) "include" in
    syscall (os_makedirs include_path true) ;;
    syscall (shutil_copy (joinpath (BuildState.build_path s) HEADER_FILE)
                         include_path) ;;
    let lib_path := joinpath (BuildState.install_path s) "lib" in
    syscall (os_makedirs lib_path true) ;;
    syscall (shutil_copy (joinpath (BuildState.build_path s) "libfreeimage.a")
                         lib_path) ;;
    call (write_pc_file "3.18.0" "-lfreeimage -lc++") ;;
    mret ()).
End FreeImageTarget.

Module GettextTarget.
Definition __init__ (h : Host) (c : Cls.t) (name : string) : Target.t :=
    new_target h ConfigureMakeStaticDependencyTarget c name.

Definition prepare_source : M retval := returns_none (
    state_download_source
      "https://ftp.gnu.org/gnu/gettext/gettext-0.21.tar.xz"
      "d20fcbb537e02dcf1383197ba05bd0734ef7bf5db06bdb241eb69b7d16b73192"
      None).

Definition detect : M retval :=
    returns_bool (state_has_source_file "gettext-runtime").

Definition configure : M retval := returns_none (
    set_option "--enable-csharp" (VStr "no") ;;
    set_option "--enable-java" (VStr "no") ;;
    set_option "--enable-libasprintf" (VStr "no") ;;
    super_ ConfigureMakeStaticDependencyTarget Method.configure).
End GettextTarget.

Module HighwayTarget.
Definition __init__ (h : Host) (c : Cls.t) (name : string) : Target.t :=
    new_target h CMakeStaticDependencyTarget c name.

Definition prepare_source : M retval := returns_none (
    state_download_source
      "https://github.com/google/highway/archive/refs/tags/1.0.6.tar.gz"
      "d89664a045a41d822146e787bceeefbf648cc228ce354f347b18f2b419e57207"
      None).

Definition configure : M retval := returns_none (
    set_option "HWY_ENABLE_CONTRIB" (VStr "NO") ;;
    set_option "HWY_ENABLE_EXAMPLES" (VStr "NO") ;;
    set_option "HWY_ENABLE_TESTS" (VStr "NO") ;;
    super_ CMakeStaticDependencyTarget Method.configure).
End HighwayTarget.

Module IconvTarget.
Definition __init__ (h : Host) (c : Cls.t) (name : string) : Target.t :=
    new_target h ConfigureMakeStaticDependencyTarget c name.

Definition prepare_source : M retval := returns_none (
    state_download_source
      "https://ftp.gnu.org/gnu/libiconv/libiconv-1.17.tar.gz"
      "8f74213b56238c85a50a5329f77e06198771e70dd9a739779f4c02f65d971313"
      None).

Definition detect : M retval :=
    returns_bool (state_has_source_file "include/iconv.h.in").

Definition configure : M retval := returns_none (
    set_option "--enable-extra-encodings" (VStr "yes") ;;
    super_ ConfigureMakeStaticDependencyTarget Method.configure).
End IconvTarget.

(** [class IntlTarget(GettextTarget)]: [super()] resolves to
    [GettextTarget] where that class defines the method, and to the
    host's base class of [GettextTarget] otherwise. *)
Module IntlTarget.
Definition __init__ (h : Host) (c : Cls.t) (name : string) : Target.t :=
    GettextTarget.__init__ h c name.

Definition configure : M retval := returns_none (
    set_option "--localedir" (VStr "/usr/local/share/locale") ;;
    set_src_root "gettext-runtime" ;;
    GettextTarget.configure ;; mret ()).

Definition build : M retval := returns_none (
    o ← get_self;
    set_src_root (Target.src_root o +:+ "/intl") ;;
    super_ ConfigureMakeStaticDependencyTarget Method.build).

Definition post_build : M retval := returns_none (
    set_option "install-exec-am" VNone ;;
    set_option "install-nodist_includeHEADERS" VNone ;;
    s ← get_state;
    o ← get_self;
    put_state (BuildState.set_build_path
                 (joinpath (BuildState.build_path s) (Target.src_root o)) s) ;;
    s' ← get_state;
    call (install (BuildState.options s')) ;;
    mret ()).
End IntlTarget.

Module JpegTurboTarget.
Definition __init__ (h : Host) (c : Cls.t) (name : string) : Target.t :=
    new_target h CMakeStaticDependencyTarget c name.

Definition prepare_source : M retval := returns_none (
    state_download_source
      "https://github.com/libjpeg-turbo/libjpeg-turbo/releases/download/3.1.0/libjpeg-turbo-3.1.0.tar.gz"
      "9564c72b1dfd1d6fe6274c5f95a8d989b59854575d4bbee44ade7bc17aa9bc93"
      None).

Definition configure : M retval := returns_none (
    set_option "ENABLE_SHARED" (VStr "NO") ;;
    super_ CMakeStaticDependencyTarget Method.configure).
End JpegTurboTarget.

Module TiffTarget.
Definition __init__ (h : Host) (c : Cls.t) (name : string) : Target.t :=
    new_target h CMakeStaticDependencyTarget c name.

Definition prepare_source : M retval := returns_none (
    state_download_source
      "https://download.osgeo.org/libtiff/tiff-4.3.0.tar.gz"
      "0e46e5acb087ce7d1ac53cf4f56a09b221537fc86dfc5daaad1c2e89e1b37ac8"
      (Some "tiff-remove-useless")).

Definition configure : M retval := returns_none (
    set_option "cxx" (VStr "NO") ;;
    set_option "lzma" (VStr "YES") ;;
    super_ CMakeStaticDependencyTarget Method.configure).

Definition _process_pkg_config (pcfile : Path) (line : string) : string :=
    let version := "Version:" in
    let cflags := "Cflags:" in
    let libs := "Libs:" in
    if Str.startswith line version then
      version +:+ " 4.3.0" +:+ Str.nl
    else if Str.startswith line cflags then
      cflags +:+ " -I${includedir}" +:+ Str.nl
        +:+ "Requires.private: libjpeg liblzma libwebp libzstd zlib" +:+ Str.nl
    else if Str.startswith line libs then
      libs +:+ " -L${libdir} -ltiff" +:+ Str.nl
    else line.
End TiffTarget.

Module WxWidgetsTarget.
Definition __init__ (h : Host) (c : Cls.t) (name : string) : Target.t :=
    new_target h CMakeStaticDependencyTarget c name.

Definition prepare_source : M retval := returns_none (
    state_download_source
      "https://github.com/wxWidgets/wxWidgets/releases/download/v3.1.5/wxWidgets-3.1.5.tar.bz2"
      "d7b3666de33aa5c10ea41bb9405c40326e1aeb74ee725bb88f90f1d50270a224"
      (Some "wxwidgets-library-suffix")).

Definition configure : M retval := returns_none (
    set_option "wxBUILD_SHARED" (VStr "NO") ;;
    set_option "wxUSE_LIBLZMA" (VStr "YES") ;;
    set_option "wxUSE_LIBSDL" (VStr "NO") ;;
    set_option "wxUSE_LIBJPEG" (VStr "sys") ;;
    set_option "wxUSE_LIBPNG" (VStr "sys") ;;
    set_option "wxUSE_LIBTIFF" (VStr "sys") ;;
    super_ CMakeStaticDependencyTarget Method.configure).

  (** The two closures of [post_build]; neither mentions [self] or
      [state]. *)
Definition patch_setup_h (line : string) : string :=
    let prefix := "#define wxINSTALL_PREFIX " in
    if Str.startswith line prefix
    then prefix +:+ Str.dq +:+ "/usr/local" +:+ Str.dq +:+ Str.nl
    else line.

Definition patch_wx_config (line : string) : string :=
    let prefix := "prefix=${input_option_prefix-${this_prefix:-" in
    let is_cross_func := "is_cross() " in
    let is_cross_test := "is_cross && target=" in
    let output_option_cc := "[ -z " +:+ Str.dq +:+ "$output_option_cc" +:+ Str.dq +:+ " " in
    let output_option_cxx := "[ -z " +:+ Str.dq +:+ "$output_option_cxx" +:+ Str.dq +:+ " " in
    let output_option_ld := "[ -z " +:+ Str.dq +:+ "$output_option_ld" +:+ Str.dq +:+ " " in
    let ldlibs_gl := "ldlibs_gl=" in
    if Str.startswith line prefix then
      prefix +:+ "$(cd " +:+ Str.dq +:+ "${0%/*}/.." +:+ Str.dq +:+ "; pwd)}}" +:+ Str.nl
    else if Str.startswith line is_cross_func then
      is_cross_func +:+ "{ false; }" +:+ Str.nl
    else if Str.startswith line is_cross_test then
      is_cross_test +:+ Str.dq +:+ Str.dq +:+ Str.nl
    else if Str.startswith line output_option_cc then
      output_option_cc +:+ "] || echo " +:+ Str.dq +:+ "gcc" +:+ Str.dq +:+ Str.nl
    else if Str.startswith line output_option_cxx then
      output_option_cxx +:+ "] || echo " +:+ Str.dq +:+ "g++" +:+ Str.dq +:+ Str.nl
    else if Str.startswith line output_option_ld then
      output_option_ld +:+ "] || echo " +:+ Str.dq +:+ "g++ -o" +:+ Str.dq +:+ Str.nl
    else if Str.startswith line ldlibs_gl then
      ldlibs_gl +:+ Str.dq
        +:+ "-lwx_baseu-3.1 -lwx_osx_cocoau_core-3.1 -framework OpenGL"
        +:+ Str.dq +:+ Str.nl
    else line.

Definition post_build : M retval := returns_none (
    super_ CMakeStaticDependencyTarget Method.post_build ;;
    s ← get_state;
    let setup_h_path :=
      joinpath (BuildState.install_path s)
        "lib/wx/include/osx_cocoa-unicode-static-3.1/wx/setup.h" in
    call (update_text_file setup_h_path patch_setup_h) ;;
    s ← get_state;
    let wx_config_path := joinpath (BuildState.install_path s) "bin/wx-config" in
    call (update_text_file wx_config_path patch_wx_config) ;;
    mret ()).
End WxWidgetsTarget.

(** ** tool.py *)

Module AutoconfTarget.
Definition __init__ (h : Host) (c : Cls.t) (name : string) : Target.t :=
    Target.set_multi_platform false
      (new_target h ConfigureMakeDependencyTarget c name).

Definition prepare_source : M retval := returns_none (
    state_download_source
      "https://ftp.gnu.org/gnu/autoconf/autoconf-2.72.tar.xz"
      "ba885c1319578d6c94d46e9b0dceb4014caafe2490e437a0dbca3f270a223f5a"
      None).
End AutoconfTarget.

Module AutomakeTarget.
Definition __init__ (h : Host) (c : Cls.t) (name : string) : Target.t :=
    Target.set_multi_platform false
      (new_target h ConfigureMakeDependencyTarget c name).

Definition prepare_source : M retval := returns_none (
    state_download_source
      "https://ftp.gnu.org/gnu/automake/automake-1.16.5.tar.xz"
      "f01d58cd6d9d77fbdca9eb4bbd5ead1988228fdb73d6f7a201f5f8d6b118b469"
      None).
End AutomakeTarget.

Module Bzip3Target.
Definition __init__ (h : Host) (c : Cls.t) (name : string) : Target.t :=
    new_target h CMakeStaticDependencyTarget c name.

Definition prepare_source : M retval := returns_none (
    state_download_source
      "https://github.com/kspalaiologos/bzip3/releases/download/1.5.1/bzip3-1.5.1.tar.xz"
      "53b844f9d9fb1d75faa4d3a9d9026017caaf50bb200b320d1685c6506b8f3b37"
      None).

Definition configure : M retval := returns_none (
    set_option "CMAKE_SKIP_INSTALL_RPATH" (VStr "YES") ;;
    super_ CMakeStaticDependencyTarget Method.configure).

Definition _process_pkg_config (pcfile : Path) (line : string) : string :=
    if Str.startswith line "bindir=" then "" else line.
End Bzip3Target.

Module FFmpegTarget.
Definition __init__ (h : Host) (c : Cls.t) (name : string) : Target.t :=
    new_target h ConfigureMakeDependencyTarget c name.

Definition prepare_source : M retval := returns_none (
    state_download_source
      "https://ffmpeg.org/releases/ffmpeg-7.1.tar.xz"
      "40973d44970dbc83ef302b0609f2e74982be2d85916dd2ee7472d30678a7abe6"
      None).

Definition detect : M retval :=
    returns_bool (state_has_source_file "doc/ffmpeg.txt").

Definition configure : M retval := returns_none (
    s ← get_state;
    set_option "--arch" (VStr (BuildState.architecture s)) ;;
    super_ ConfigureMakeDependencyTarget Method.configure).
End FFmpegTarget.

Module LuaTarget.
Definition __init__ (h : Host) (c : Cls.t) (name : string) : Target.t :=
    new_target h MakeTarget c name.

Definition prepare_source : M retval := returns_none (
    state_download_source
      "https://www.lua.org/ftp/lua-5.4.8.tar.gz"
      "4f18ddae154e793e46eeab727c59ef1c0c0c2b744e7b94219710d76f530629ae"
      None).

Definition detect : M retval :=
    returns_bool (state_has_source_file "src/lua.h").

Definition post_build : M retval := returns_none (
    set_option "install" VNone ;;
    s ← get_state;
    set_option "INSTALL_TOP" (VPath (BuildState.install_path s)) ;;
    s' ← get_state;
    call (install (BuildState.options s')) ;;
    mret ()).
End LuaTarget.

Module M4Target.
Definition __init__ (h : Host) (c : Cls.t) (name : string) : Target.t :=
    new_target h ConfigureMakeDependencyTarget c name.

Definition prepare_source : M retval := returns_none (
    state_download_source
      "https://ftp.gnu.org/gnu/m4/m4-1.4.19.tar.xz"
      "63aede5c6d33b6d9b13511cd0be2cac046f2e70fd0a07aa9573a04a82783af96"
      None).
End M4Target.

Module P7ZipTarget.
Definition __init__ (h : Host) (c : Cls.t) (name : string) : Target.t :=
    Target.set_src_root "CPP/7zip/CMAKE/7za" (new_target h CMakeTarget c name).

Definition prepare_source : M retval := returns_none (
    state_download_source
      "https://github.com/p7zip-project/p7zip/archive/refs/tags/v17.04.tar.gz"
      "ea029a2e21d2d6ad0a156f6679bd66836204aa78148a4c5e498fe682e77127ef"
      None).

Definition detect : M retval :=
    returns_bool (
      and_ (state_has_source_file "CPP/7zip/CMAKE/CMakeLists.txt")
           (state_has_source_file "C/fast-lzma2/fast-lzma2.h")).

Definition post_build : M retval := returns_none (
    call (copy_to_bin ["7za"]) ;; mret ()).
End P7ZipTarget.

Module PbzxTarget.
Definition __init__ (h : Host) (c : Cls.t) (name : string) : Target.t :=
    Target.set_options ["pbzx.c"; "-lxar"; "-llzma"]
      (new_target h SingleExeCTarget c name).

  (** The patch set is the third positional argument here. *)
Definition prepare_source : M retval := returns_none (
    state_download_source
      "https://github.com/nrosenstein-stuff/pbzx/archive/refs/tags/v1.0.2.tar.gz"
      "33db3cf9dc70ae704e1bbfba52c984f4c6dbfd0cc4449fa16408910e22b4fd90"
      (Some "pbzx-xar-content")).

Definition detect : M retval :=
    returns_bool (state_has_source_file "pbzx.c").
End PbzxTarget.

Module Radare2Target.
Definition __init__ (h : Host) (c : Cls.t) (name : string) : Target.t :=
    Target.set_configure_prefix false (new_target h MesonTarget c name).

Definition prepare_source : M retval := returns_none (
    state_download_source
      "https://github.com/radareorg/radare2/releases/download/5.9.8/radare2-5.9.8.tar.xz"
      "de061db6089cc1321ba9062b8aa9a0adaaa7a4d25128aab37a2a44e71a939829"
      None).

Definition detect : M retval :=
    returns_bool (state_has_source_file "man/radare2.1").

Definition configure : M retval := returns_none (
    set_option "blob" (VStr "true") ;;
    set_option "enable_tests" (VStr "false") ;;
    set_option "enable_r2r" (VStr "false") ;;
    set_option "local" (VStr "true") ;;
    set_option "r2_gittip" (VStr "ea7f0356519884715cf1d5fba16042bac72b2df5") ;;
    set_option "r2_version_commit" (VStr "1") ;;
    set_option "static_runtime" (VStr "true") ;;
    super_ MesonTarget Method.configure).

Definition post_build : M retval := returns_none (
    super_ MesonTarget Method.post_build ;;
    s ← get_state;
    let bin_path := joinpath (BuildState.install_path s) "bin" in
    syscall (os_unlink (joinpath bin_path "r2blob.static")) ;;
    syscall (os_rename (joinpath bin_path "r2blob")
                       (joinpath bin_path "radare2"))).
End Radare2Target.

Module RizinTarget.
Definition __init__ (h : Host) (c : Cls.t) (name : string) : Target.t :=
    new_target h MesonTarget c name.

Definition prepare_source : M retval := returns_none (
    state_download_source
      "https://github.com/rizinorg/rizin/releases/download/v0.8.1/rizin-src-v0.8.1.tar.xz"
      "ef2b1e6525d7dc36ac43525b956749c1cca07bf17c1fed8b66402d82010a4ec2"
      None).

Definition detect : M retval :=
    returns_bool (state_has_source_file "binrz/man/rizin.1").

Definition configure : M retval := returns_none (
    set_option "blob" (VStr "true") ;;
    set_option "enable_tests" (VStr "false") ;;
    set_option "enable_rz_test" (VStr "false") ;;
    set_option "local" (VStr "enabled") ;;
    set_option "portable" (VStr "true") ;;
    super_ MesonTarget Method.configure).
End RizinTarget.

Module SevenZipTarget.
Definition __init__ (h : Host) (c : Cls.t) (name : string) : Target.t :=
    Target.set_src_root "CPP/7zip/Bundles/Alone2" (new_target h MakeTarget c name).

Definition prepare_source : M retval := returns_none (
    state_download_source
      "https://7-zip.org/a/7z2409-src.tar.xz"
      "49c05169f49572c1128453579af1632a952409ced028259381dac30726b6133a"
      None).

Definition detect : M retval :=
    returns_bool (state_has_source_file "CPP/7zip/cmpl_mac_arm64.mak").

Definition _arch_suffix : M string :=
    s ← get_state;
    let arch := BuildState.architecture s in
    mret (if String.eqb arch "x86_64" then "x64" else arch).

Definition build : M retval := returns_none (
    mak_suffix ← _arch_suffix;
    set_option "-f" VNone ;;
    set_option ("../../cmpl_mac_" +:+ mak_suffix +:+ ".mak") VNone ;;
    cflags ← get_env "CFLAGS";
    set_option "CFLAGS_BASE_LIST" (VStr (cflags +:+ " -Wno-switch-default -c")) ;;
    ldflags ← get_env "LDFLAGS";
    set_option "LDFLAGS_STATIC_2" (VStr ldflags) ;;
    super_ MakeTarget Method.build).

Definition post_build : M retval := returns_none (
    build_suffix ← _arch_suffix;
    o ← get_self;
    call (copy_to_bin
            [Target.src_root o +:+ "/b/m_" +:+ build_suffix +:+ "/7zz"; "7zz"]) ;;
    mret ()).
End SevenZipTarget.

Module UnrarTarget.
Definition __init__ (h : Host) (c : Cls.t) (name : string) : Target.t :=
    new_target h MakeTarget c name.

Definition prepare_source : M retval := returns_none (
    state_download_source
      "https://www.rarlab.com/rar/unrarsrc-6.2.12.tar.gz"
      "a008b5f949bca9bb4ffa1bebbfc8b3c14b89df10a10354809b845232d5f582e5"
      None).

Definition configure : M retval := returns_none (
    set_option "CXXFLAGS"
      (VStr "-std=c++11 -O2 -Wno-logical-op-parentheses -Wno-switch -Wno-dangling-else") ;;
    super_ MakeTarget Method.configure).

Definition post_build : M retval := returns_none (
    call (copy_to_bin []) ;; mret ()).

Definition detect : M retval :=
    returns_bool (state_has_source_file "rar.hpp").
End UnrarTarget.

Module XdeltaTarget.
Definition __init__ (h : Host) (c : Cls.t) (name : string) : Target.t :=
    Target.set_src_root "xdelta3" (new_target h ConfigureMakeDependencyTarget c name).

Definition prepare_source : M retval := returns_none (
    state_download_source
      "https://github.com/jmacd/xdelta/archive/refs/tags/v3.1.0.tar.gz"
      "7515cf5378fca287a57f4e2fee1094aabc79569cfe60d91e06021a8fd7bae29d"
      None).

Definition detect : M retval :=
    returns_bool (state_has_source_file "xdelta3/xdelta3.h").

Definition autoreconf : list string := ["autoreconf"; "--install"].

Definition configure : M retval := returns_none (
    call (base_method MakeTarget Method.configure) ;;
    s ← get_state;
    o ← get_self;
    let work_path := joinpath (BuildState.build_path s) (Target.src_root o) in
    subprocess_run_check autoreconf work_path (BuildState.environment s) ;;
    super_ ConfigureMakeDependencyTarget Method.configure).
End XdeltaTarget.

Module XzTarget.
Definition __init__ (h : Host) (c : Cls.t) (name : string) : Target.t :=
    new_target h CMakeStaticDependencyTarget c name.

Definition prepare_source : M retval := returns_none (
    state_download_source
      "https://github.com/tukaani-project/xz/releases/download/v5.6.3/xz-5.6.3.tar.xz"
      "db0590629b6f0fa36e74aea5f9731dc6f8df068ce7b7bafa45301832a5eebc3a"
      None).

Definition configure : M retval := returns_none (
    iadd_option "BUILD_TESTING" "NO" ;;
    iadd_option "CMAKE_EXE_LINKER_FLAGS" "-framework CoreFoundation -liconv" ;;
    super_ CMakeStaticDependencyTarget Method.configure).
End XzTarget.

Module ZipTarget.
Definition __init__ (h : Host) (c : Cls.t) (name : string) : Target.t :=
    Target.set_options
      [ "-I."; "-DUNIX"; "-DBZIP2_SUPPORT"; "-DLARGE_FILE_SUPPORT";
        "-DUNICODE_SUPPORT"; "-DHAVE_DIRENT_H"; "-DHAVE_TERMIOS_H"; "-lbz2";
        "crc32.c"; "crypt.c"; "deflate.c"; "fileio.c"; "globals.c"; "trees.c";
        "ttyio.c"; "unix/unix.c"; "util.c"; "zip.c"; "zipfile.c"; "zipup.c" ]
      (new_target h SingleExeCTarget c name).

Definition prepare_source : M retval := returns_none (
    state_download_source
      "https://downloads.sourceforge.net/project/infozip/Zip%203.x%20%28latest%29/3.0/zip30.tar.gz"
      "f0e8bb1f9b7eb0b01285495a2699df3a4b766784c1765a8f1aeedf63c0806369"
      (Some "zip-fix-misc")).

Definition detect : M retval :=
    returns_bool (state_has_source_file "zip.h").
End ZipTarget.

(** ** The class table *)

(** The hooks a class statement defines itself. *)
Definition own (c : Cls.t) (m : Method.t) : option (M retval) :=
  match c, m with
  | Cls.BrotliTarget, Method.prepare_source => Some BrotliTarget.prepare_source
  | Cls.BrotliTarget, Method.post_build => Some BrotliTarget.post_build
  | Cls.Bzip2Target, Method.prepare_source => Some Bzip2Target.prepare_source
  | Cls.Bzip2Target, Method.detect => Some Bzip2Target.detect
  | Cls.Bzip2Target, Method.configure => Some Bzip2Target.configure
  | Cls.Bzip2Target, Method.post_build => Some Bzip2Target.post_build
  | Cls.ExpatTarget, Method.prepare_source => Some ExpatTarget.prepare_source
  | Cls.ExpatTarget, Method.configure => Some ExpatTarget.configure
  | Cls.FfiTarget, Method.prepare_source => Some FfiTarget.prepare_source
  | Cls.FfiTarget, Method.detect => Some FfiTarget.detect
  | Cls.FfiTarget, Method.post_build => Some FfiTarget.post_build
  | Cls.FreeImageTarget, Method.prepare_source => Some FreeImageTarget.prepare_source
  | Cls.FreeImageTarget, Method.detect => Some FreeImageTarget.detect
  | Cls.FreeImageTarget, Method.configure => Some FreeImageTarget.configure
  | Cls.FreeImageTarget, Method.post_build => Some FreeImageTarget.post_build
  | Cls.GettextTarget, Method.prepare_source => Some GettextTarget.prepare_source
  | Cls.GettextTarget, Method.detect => Some GettextTarget.detect
  | Cls.GettextTarget, Method.configure => Some GettextTarget.configure
  | Cls.HighwayTarget, Method.prepare_source => Some HighwayTarget.prepare_source
  | Cls.HighwayTarget, Method.configure => Some HighwayTarget.configure
  | Cls.IconvTarget, Method.prepare_source => Some IconvTarget.prepare_source
  | Cls.IconvTarget, Method.detect => Some IconvTarget.detect
  | Cls.IconvTarget, Method.configure => Some IconvTarget.configure
  | Cls.IntlTarget, Method.configure => Some IntlTarget.configure
  | Cls.IntlTarget, Method.build => Some IntlTarget.build
  | Cls.IntlTarget, Method.post_build => Some IntlTarget.post_build
  | Cls.JpegTurboTarget, Method.prepare_source => Some JpegTurboTarget.prepare_source
  | Cls.JpegTurboTarget, Method.configure => Some JpegTurboTarget.configure
  | Cls.TiffTarget, Method.prepare_source => Some TiffTarget.prepare_source
  | Cls.TiffTarget, Method.configure => Some TiffTarget.configure
  | Cls.WxWidgetsTarget, Method.prepare_source => Some WxWidgetsTarget.prepare_source
  | Cls.WxWidgetsTarget, Method.configure => Some WxWidgetsTarget.configure
  | Cls.WxWidgetsTarget, Method.post_build => Some WxWidgetsTarget.post_build
  | Cls.AutoconfTarget, Method.prepare_source => Some AutoconfTarget.prepare_source
  | Cls.AutomakeTarget, Method.prepare_source => Some AutomakeTarget.prepare_source
  | Cls.Bzip3Target, Method.prepare_source => Some Bzip3Target.prepare_source
  | Cls.Bzip3Target, Method.configure => Some Bzip3Target.configure
  | Cls.FFmpegTarget, Method.prepare_source => Some FFmpegTarget.prepare_source
  | Cls.FFmpegTarget, Method.detect => Some FFmpegTarget.detect
  | Cls.FFmpegTarget, Method.configure => Some FFmpegTarget.configure
  | Cls.LuaTarget, Method.prepare_source => Some LuaTarget.prepare_source
  | Cls.LuaTarget, Method.detect => Some LuaTarget.detect
  | Cls.LuaTarget, Method.post_build => Some LuaTarget.post_build
  | Cls.M4Target, Method.prepare_source => Some M4Target.prepare_source
  | Cls.P7ZipTarget, Method.prepare_source => Some P7ZipTarget.prepare_source
  | Cls.P7ZipTarget, Method.detect => Some P7ZipTarget.detect
  | Cls.P7ZipTarget, Method.post_build => Some P7ZipTarget.post_build
  | Cls.PbzxTarget, Method.prepare_source => Some PbzxTarget.prepare_source
  | Cls.PbzxTarget, Method.detect => Some PbzxTarget.detect
  | Cls.Radare2Target, Method.prepare_source => Some Radare2Target.prepare_source
  | Cls.Radare2Target, Method.detect => Some Radare2Target.detect
  | Cls.Radare2Target, Method.configure => Some Radare2Target.configure
  | Cls.Radare2Target, Method.post_build => Some Radare2Target.post_build
  | Cls.RizinTarget, Method.prepare_source => Some RizinTarget.prepare_source
  | Cls.RizinTarget, Method.detect => Some RizinTarget.detect
  | Cls.RizinTarget, Method.configure => Some RizinTarget.configure
  | Cls.SevenZipTarget, Method.prepare_source => Some SevenZipTarget.prepare_source
  | Cls.SevenZipTarget, Method.detect => Some SevenZipTarget.detect
  | Cls.SevenZipTarget, Method.build => Some SevenZipTarget.build
  | Cls.SevenZipTarget, Method.post_build => Some SevenZipTarget.post_build
  | Cls.UnrarTarget, Method.prepare_source => Some UnrarTarget.prepare_source
  | Cls.UnrarTarget, Method.detect => Some UnrarTarget.detect
  | Cls.UnrarTarget, Method.configure => Some UnrarTarget.configure
  | Cls.UnrarTarget, Method.post_build => Some UnrarTarget.post_build
  | Cls.XdeltaTarget, Method.prepare_source => Some XdeltaTarget.prepare_source
  | Cls.XdeltaTarget, Method.detect => Some XdeltaTarget.detect
  | Cls.XdeltaTarget, Method.configure => Some XdeltaTarget.configure
  | Cls.XzTarget, Method.prepare_source => Some XzTarget.prepare_source
  | Cls.XzTarget, Method.configure => Some XzTarget.configure
  | Cls.ZipTarget, Method.prepare_source => Some ZipTarget.prepare_source
  | Cls.ZipTarget, Method.detect => Some ZipTarget.detect
  | _, _ => None
  end.

(** The [__init__] of each class, which every class defines. *)
Definition class_init (c : Cls.t) : Host → Cls.t → string → Target.t :=
  match c with
  | Cls.BrotliTarget => BrotliTarget.__init__
  | Cls.Bzip2Target => Bzip2Target.__init__
  | Cls.ExpatTarget => ExpatTarget.__init__
  | Cls.FfiTarget => FfiTarget.__init__
  | Cls.FreeImageTarget => FreeImageTarget.__init__
  | Cls.GettextTarget => GettextTarget.__init__
  | Cls.HighwayTarget => HighwayTarget.__init__
  | Cls.IconvTarget => IconvTarget.__init__
  | Cls.IntlTarget => IntlTarget.__init__
  | Cls.JpegTurboTarget => JpegTurboTarget.__init__
  | Cls.TiffTarget => TiffTarget.__init__
  | Cls.WxWidgetsTarget => WxWidgetsTarget.__init__
  | Cls.AutoconfTarget => AutoconfTarget.__init__
  | Cls.AutomakeTarget => AutomakeTarget.__init__
  | Cls.Bzip3Target => Bzip3Target.__init__
  | Cls.FFmpegTarget => FFmpegTarget.__init__
  | Cls.LuaTarget => LuaTarget.__init__
  | Cls.M4Target => M4Target.__init__
  | Cls.P7ZipTarget => P7ZipTarget.__init__
  | Cls.PbzxTarget => PbzxTarget.__init__
  | Cls.Radare2Target => Radare2Target.__init__
  | Cls.RizinTarget => RizinTarget.__init__
  | Cls.SevenZipTarget => SevenZipTarget.__init__
  | Cls.UnrarTarget => UnrarTarget.__init__
  | Cls.XdeltaTarget => XdeltaTarget.__init__
  | Cls.XzTarget => XzTarget.__init__
  | Cls.ZipTarget => ZipTarget.__init__
  end.

(** A method by name: the constructor or a hook. *)
Inductive MethodName :=
  | Init
  | Hook (m : Method.t).

#[global] Instance MethodName_eq_dec : EqDecision MethodName.
Proof. solve_decision. Defined.

Definition defines (c : Cls.t) (n : MethodName) : bool :=
  match n with
  | Init => true
  | Hook m => bool_decide (is_Some (own c m))
  end.


(** The classes of this repository above [c], nearest first. *)
Fixpoint ancestors_from (fuel : nat) (c : Cls.t) : list Cls.t :=
  match fuel with
  | O => []
  | S k =>
      match parent c with
      | InRepo d => d :: ancestors_from k d
      | InHost _ => []
      end
  end.

Definition ancestors (c : Cls.t) : list Cls.t :=
  ancestors_from (length Cls.all) c.

(** The method resolution order, up to the first class of the host. *)
Definition mro (c : Cls.t) : list Cls.t := c :: ancestors c.

Definition host_base (c : Cls.t) : option BaseClass :=
  match parent (List.last (mro c) c) with
  | InHost b => Some b
  | InRepo _ => None
  end.

(** The first class among [l] that defines [n]. *)
Definition first_defining (l : list Cls.t) (n : MethodName) : option Cls.t :=
  List.find (λ d, defines d n) l.

(** The method [n] of an object of class [c] is taken from the first
    class of its resolution order that defines it, and from the host
    when none does. *)
Definition provider (c : Cls.t) (n : MethodName) : option Parent :=
  match first_defining (mro c) n with
  | Some d => Some (InRepo d)
  | None => InHost <$> host_base c
  end.





(** The hook [m] as it runs on an object of class [c]. *)
Definition hook (c : Cls.t) (m : Method.t) : M retval :=
  match provider c (Hook m) with
  | Some (InRepo d) =>
      match own d m with
      | Some body => body
      | None => raise (HostError "unreachable")
      end
  | Some (InHost b) => call (base_method b m)
  | None => raise (HostError "no base class")
  end.

(** ** target/__init__.py *)

(** The classes each module binds, by name. *)
Definition library_classes : list (string * Cls.t) :=
  [ ("BrotliTarget", Cls.BrotliTarget);
    ("Bzip2Target", Cls.Bzip2Target);
    ("ExpatTarget", Cls.ExpatTarget);
    ("FfiTarget", Cls.FfiTarget);
    ("FreeImageTarget", Cls.FreeImageTarget);
    ("GettextTarget", Cls.GettextTarget);
    ("HighwayTarget", Cls.HighwayTarget);
    ("IconvTarget", Cls.IconvTarget);
    ("IntlTarget", Cls.IntlTarget);
    ("JpegTurboTarget", Cls.JpegTurboTarget);
    ("TiffTarget", Cls.TiffTarget);
    ("WxWidgetsTarget", Cls.WxWidgetsTarget) ].

Definition tool_classes : list (string * Cls.t) :=
  [ ("AutoconfTarget", Cls.AutoconfTarget);
    ("AutomakeTarget", Cls.AutomakeTarget);
    ("Bzip3Target", Cls.Bzip3Target);
    ("FFmpegTarget", Cls.FFmpegTarget);
    ("LuaTarget", Cls.LuaTarget);
    ("M4Target", Cls.M4Target);
    ("P7ZipTarget", Cls.P7ZipTarget);
    ("PbzxTarget", Cls.PbzxTarget);
    ("Radare2Target", Cls.Radare2Target);
    ("RizinTarget", Cls.RizinTarget);
    ("SevenZipTarget", Cls.SevenZipTarget);
    ("UnrarTarget", Cls.UnrarTarget);
    ("XdeltaTarget", Cls.XdeltaTarget);
    ("XzTarget", Cls.XzTarget);
    ("ZipTarget", Cls.ZipTarget) ].

Fixpoint assoc (l : list (string * Cls.t)) (n : string) : option Cls.t :=
  match l with
  | [] => None
  | (k, c) :: l' => if String.eqb k n then Some c else assoc l' n
  end.

(** The class a name is bound to after [from .library import *] and
    [from .tool import *]; the second import wins. *)
Definition lookup_global (n : string) : option Cls.t :=
  match assoc tool_classes n with
  | Some c => Some c
  | None => assoc library_classes n
  end.

(** [Name()]: looks the name up, then constructs with the default
    [name] argument. *)
Definition instantiate (h : Host) (n : string) : Res Target.t :=
  match lookup_global n with
  | Some c => Ok (class_init c h c (default_name c))
  | None => Raise (NameError n)
  end.

(** A tuple display evaluates its elements from left to right. *)
Fixpoint eval_tuple (h : Host) (names : list string) : Res (list Target.t) :=
  match names with
  | [] => Ok []
  | n :: names' =>
      match instantiate h n with
      | Raise e => Raise e
      | Ok o =>
          match eval_tuple h names' with
          | Raise e => Raise e
          | Ok l => Ok (o :: l)
          end
      end
  end.

(** The names called in the body of [targets()], under its two
    comments. *)
Definition targets_libraries : list string :=
  [ "BrotliTarget"; "Bzip2Target"; "ExpatTarget"; "FfiTarget";
    "FreeImageTarget"; "GettextTarget"; "HighwayTarget"; "IconvTarget";
    "IntlTarget"; "JpegTurboTarget"; "OpusFileTarget"; "TiffTarget";
    "WxWidgetsTarget" ].

Definition targets_tools : list string :=
  [ "AutoconfTarget"; "AutomakeTarget"; "BisonTarget"; "Bzip3Target";
    "FFmpegTarget"; "GraphvizTarget"; "LuaTarget"; "M4Target";
    "P7ZipTarget"; "PbzxTarget"; "Radare2Target"; "RizinTarget";
    "SevenZipTarget"; "TimemoryTarget"; "UnrarTarget"; "XdeltaTarget";
    "XzTarget"; "ZipTarget" ].

Definition targets (h : Host) : Res (list Target.t) :=
  eval_tuple h (targets_libraries ++ targets_tools).

(** ** The line-rewrite functions, together *)

Inductive LineRewriter :=
  | RwBrotli | RwBzip2 | RwTiff | RwBzip3 | RwWxSetupH | RwWxConfig.

(** The host passes the four [_process_pkg_config] functions the path
    of the pkg-config file and the line, and the two closures of
    wxWidgets the line alone. *)
Definition rewrite_line (r : LineRewriter) (pcfile : Path) (line : string) : string :=
  match r with
  | RwBrotli => BrotliTarget._process_pkg_config pcfile line
  | RwBzip2 => Bzip2Target._process_pkg_config pcfile line
  | RwTiff => TiffTarget._process_pkg_config pcfile line
  | RwBzip3 => Bzip3Target._process_pkg_config pcfile line
  | RwWxSetupH => WxWidgetsTarget.patch_setup_h line
  | RwWxConfig => WxWidgetsTarget.patch_wx_config line
  end.

(** Whether a rewritten line would be rewritten again: only a [Libs:]
    line of brotli in which the removals have joined a new
    [-R${libdir} ] together. *)
Definition rewritten_again (r : LineRewriter) (out : string) : bool :=
  match r with
  | RwBrotli => Str.startswith out "Libs:" && Str.occurs out "-R${libdir} "
  | _ => false
  end.

(** ** Checksums *)

Definition is_hexdigit (a : ascii) : bool :=
  let n := nat_of_ascii a in
  ((48 <=? n) && (n <=? 57) || (97 <=? n) && (n <=? 102))%nat.

Fixpoint all_chars (f : ascii → bool) (s : string) : bool :=
  match s with
  | EmptyString => true
  | String a s' => f a && all_chars f s'
  end.

(** The form of [hashlib.sha256(...).hexdigest()]. *)
Definition is_sha256_hex (s : string) : bool :=
  (String.length s =? 64)%nat && all_chars is_hexdigit s.

(** ** A host to run the hooks against *)

Definition empty_state : BuildState.t :=
  BuildState.mk ∅ ∅ "/build" "/install" (λ _, false) "arm64".

(** A host on which every call succeeds and changes nothing, no file
    matches any pattern, and child processes end with [status]. *)
Definition quiet_host (status : Z) : Host := {|
  new_target _ c name := Target.mk c name "" true true [];
  reply _ _ s := (Ok RNone, s);
  touch _ o _ := o;
  os_error _ := None;
  run_process _ _ _ := Ok status;
  iglob _ := [];
|}.

(** The same, where no program can be started. *)
Definition no_program_host : Host := {|
  new_target _ c name := Target.mk c name "" true true [];
  reply _ _ s := (Ok RNone, s);
  touch _ o _ := o;
  os_error _ := None;
  run_process args _ _ := Raise (OSError (default "" (head args)));
  iglob _ := [];
|}.

Definition world_of (c : Cls.t) (s : BuildState.t) : World :=
  mkWorld (class_init c (quiet_host 0) c (default_name c)) s [].

(** ** Vocabulary of the statements *)

(** A host none of whose methods changes what [f] reads of the target
    object: an attribute, several, or with [id] the whole object. *)
Definition host_keeps {X} (f : Target.t → X) (h : Host) : Prop :=
  ∀ c o s, f (touch h c o s) = f o.

(** A computation that, against such a host, leaves what [f] reads of
    the target object as it found it. *)
Definition keeps_self {X} (f : Target.t → X) {A} (m : M A) : Prop :=
  ∀ h w, host_keeps f h → f (self (snd (m h w))) = f (self w).

(** A computation that leaves the whole world as it found it and
    cannot raise. *)
Definition reads_only {A} (m : M A) (f : World → A) : Prop :=
  ∀ h w, m h w = (Ok (f w), w).

(** No call of [t] raised. *)
Definition quiet (t : list Event) : Prop := Forall (λ ev, ev.2 = None) t.

(** The exceptions a statement of a recipe raises by itself: a key
    missing from [state.options] or [state.environment], and [+=] on a
    value that is not a string. *)
Definition raised_by_statement (e : exn) : bool :=
  match e with KeyError _ | TypeError => true | _ => false end.

(** How a computation that made the calls [t] ended with [r]: no call
    raised and it returned; or its last call raised, nothing was called
    after it, and the exception of that call is the result; or, where
    [own] allows for it, no call raised and a statement did. *)
Definition unhandled (own : bool) {A} (r : Res A) (t : list Event) : Prop :=
  (quiet t ∧ ∃ a, r = Ok a)
  ∨ (∃ t0 c e, t = t0 ++ [(c, Some e)] ∧ quiet t0 ∧ r = Raise e)
  ∨ (own = true ∧ quiet t ∧ ∃ e, r = Raise e ∧ raised_by_statement e = true).

(** A computation that ends in one of these ways, whatever the host
    answers. *)
Definition propagates (own : bool) {A} (m : M A) : Prop :=
  ∀ h w, ∃ t,
    trace (snd (m h w)) = trace w ++ t ∧ unhandled own (fst (m h w)) t.

(** The hooks with a statement that can raise: the three that read
    [state.options] or [state.environment]. *)
Definition raises_itself (c : Cls.t) (m : Method.t) : bool :=
  match c, m with
  | Cls.FreeImageTarget, Method.configure
  | Cls.SevenZipTarget, Method.build
  | Cls.XzTarget, Method.configure => true
  | _, _ => false
  end.

(** The target object after [IntlTarget.configure] and
    [IntlTarget.build], the two hooks that assign to [self]. *)
Definition self_after (c : Cls.t) (m : Method.t) (o : Target.t) : Target.t :=
  match c, m with
  | Cls.IntlTarget, Method.configure => Target.set_src_root "gettext-runtime" o
  | Cls.IntlTarget, Method.build =>
      Target.set_src_root (Target.src_root o +:+ "/intl") o
  | _, _ => o
  end.

(** A host like [quiet_host] under which the patterns yield
    [listing]. *)
Definition listing_host (listing : string → list string) : Host := {|
  new_target _ c name := Target.mk c name "" true true [];
  reply _ _ s := (Ok RNone, s);
  touch _ o _ := o;
  os_error _ := None;
  run_process _ _ _ := Ok 0%Z;
  iglob := listing;
|}.

Definition brotli_listing (pattern : string) : list string :=
  if String.eqb pattern "/install/lib/*.dylib" then
    ["/install/lib/libbrotlidec.dylib"; "/install/lib/libbrotlidec.1.dylib"]
  else if String.eqb pattern "/install/lib/*-static.a" then
    ["/install/lib/libbrotlicommon-static.a"; "/install/lib/libbrotlidec-static.a"]
  else [].

(** What the first call of a trace downloads. *)
Definition first_download (t : list Event)
    : option (string * string * option string) :=
  match t with
  | (download_source url checksum patches, _) :: _ => Some (url, checksum, patches)
  | _ => None
  end.

(** The source [prepare_source] of a class asks for. *)
Definition source_of (c : Cls.t) : option (string * string * option string) :=
  first_download
    (trace (snd (hook c Method.prepare_source (quiet_host 0)
                   (world_of c empty_state)))).

(** The classes whose [configure] does more than assign options and
    call the base class: it reads what may be missing (freeimage, xz),
    runs a program (xdelta), or asks the host for the architecture
    first (ffmpeg). *)
Definition configure_not_plain : list Cls.t :=
  [Cls.FreeImageTarget; Cls.FFmpegTarget; Cls.XdeltaTarget; Cls.XzTarget].

(** *** What a hook leaves of the build state *)

(** A host whose calls take a state to a state related to it by [R]. *)
Definition host_respects (R : BuildState.t → BuildState.t → Prop) (h : Host) : Prop :=
  ∀ c o s, R s (snd (reply h c o s)).

(** A computation that, against such a host, does the same. *)
Definition respects (R : BuildState.t → BuildState.t → Prop) {A} (m : M A) : Prop :=
  ∀ h w, host_respects R h → R (state w) (state (snd (m h w))).

(** The relations a hook is to keep: they hold of a state and itself,
    compose, and hold across an assignment to [state.options]. *)
Class Frame (R : BuildState.t → BuildState.t → Prop) : Prop := {
  frame_refl : ∀ s, R s s;
  frame_trans : ∀ s1 s2 s3, R s1 s2 → R s2 s3 → R s1 s3;
  frame_set_option : ∀ s k v,
    R s (BuildState.set_options (<[k := v]> (BuildState.options s)) s);
}.

(** Those that also hold across an assignment to [state.environment],
    and to [state.build_path]. *)
Class FrameEnv (R : BuildState.t → BuildState.t → Prop) : Prop :=
  frame_set_env : ∀ s k v,
    R s (BuildState.set_environment (<[k := v]> (BuildState.environment s)) s).

Class FrameBuildPath (R : BuildState.t → BuildState.t → Prop) : Prop :=
  frame_set_build_path : ∀ s v, R s (BuildState.set_build_path v s).

Definition same_environment (s s' : BuildState.t) : Prop :=
  BuildState.environment s' = BuildState.environment s.

Definition same_build_path (s s' : BuildState.t) : Prop :=
  BuildState.build_path s' = BuildState.build_path s.

Definition same_surroundings (s s' : BuildState.t) : Prop :=
  BuildState.install_path s' = BuildState.install_path s
  ∧ BuildState.architecture s' = BuildState.architecture s
  ∧ BuildState.has_source_file s' = BuildState.has_source_file s.

Definition keeps_option_keys (s s' : BuildState.t) : Prop :=
  dom (BuildState.options s) ⊆ dom (BuildState.options s').

(** *** What a hook calls *)

(** A computation all of whose calls satisfy [P]. *)
Definition emits (P : Call → bool) {A} (m : M A) : Prop :=
  ∀ h w, ∃ t, trace (snd (m h w)) = trace w ++ t ∧ Forall (λ ev, P ev.1 = true) t.

Definition is_download (c : Call) : bool :=
  match c with download_source _ _ _ => true | _ => false end.

(** Calls of [os], [shutil] and [subprocess], as opposed to calls into
    the host framework. *)
Definition leaves_host (c : Call) : bool :=
  match c with
  | os_unlink _ | os_rename _ _ | os_makedirs _ _ | shutil_copy _ _
  | subprocess_run _ _ _ => true
  | _ => false
  end.

Definition not_download (c : Call) : bool := negb (is_download c).
Definition in_host (c : Call) : bool := negb (leaves_host c).

(** The hooks that call [os], [shutil] or [subprocess]. *)
Definition reaches_os : list (Cls.t * Method.t) :=
  [ (Cls.BrotliTarget, Method.post_build);
    (Cls.Bzip2Target, Method.post_build);
    (Cls.FreeImageTarget, Method.post_build);
    (Cls.Radare2Target, Method.post_build);
    (Cls.XdeltaTarget, Method.configure) ].

(** *** Paths *)

(** [old] does not occur in [p]. *)
Definition lacks (p old : string) : Prop := ∀ a b, p ≠ a +:+ old +:+ b.

(** A path cut at every [-static.a]: the pieces between them, none of
    which holds one, the last piece ending where the final [-static.a]
    begins. *)
Definition cut_at_suffix (archive : string) (pieces : list string) : Prop :=
  pieces ≠ []
  ∧ Forall (λ p, lacks p BrotliTarget.archive_suffix) pieces
  ∧ archive
    = String.concat BrotliTarget.archive_suffix pieces
      +:+ BrotliTarget.archive_suffix.

(** The keys [TiffTarget._process_pkg_config] tests for, and the
    prefixes [patch_wx_config] tests for, in the order of the tests. *)
Definition tiff_keys : list string := ["Version:"; "Cflags:"; "Libs:"].

Definition wx_config_prefixes : list string :=
  [ "prefix=${input_option_prefix-${this_prefix:-";
    "is_cross() ";
    "is_cross && target=";
    "[ -z " +:+ Str.dq +:+ "$output_option_cc" +:+ Str.dq +:+ " ";
    "[ -z " +:+ Str.dq +:+ "$output_option_cxx" +:+ Str.dq +:+ " ";
    "[ -z " +:+ Str.dq +:+ "$output_option_ld" +:+ Str.dq +:+ " ";
    "ldlibs_gl=" ].

(** * Properties *)

(** ** Strings *)

Module StrFacts.
Import Str.
#[local] Arguments String.append !_ _ / : simpl nomatch.

Example replace_leftmost : replace "aaa" "aa" "b" = "ba".
Proof. reflexivity. Qed.

Example replace_empty_old : replace "abc" "" "-" = "-a-b-c-".
Proof. reflexivity. Qed.

Example replace_joins : replace "xabab" "ab" "" = "x" ∧ replace "aabb" "ab" "" = "ab".
Proof. split; reflexivity. Qed.

Example count_leftmost : count "aaaa" "aa" = 2 ∧ count "abc" "" = 4.
Proof. split; reflexivity. Qed.

Example endswith_cases :
  endswith "lib/x-static.a" "-static.a" = true
  ∧ endswith "static.a" "-static.a" = false
  ∧ removesuffix "lib/x-static.a" "-static.a" = "lib/x".
Proof. split_and!; reflexivity. Qed.

Lemma append_nil_r s : s +:+ "" = s.
Proof. induction s as [|c s IH]; cbn; [done | by rewrite IH]. Qed.

Lemma append_assoc s t u : (s +:+ t) +:+ u = s +:+ t +:+ u.
Proof. induction s as [|c s IH]; cbn; [done | by rewrite IH]. Qed.

Lemma length_append s t :
  String.length (s +:+ t) = String.length s + String.length t.
Proof. induction s as [|c s IH]; cbn; [done | by rewrite IH]. Qed.

Lemma append_inv_tail s1 s2 t : s1 +:+ t = s2 +:+ t → s1 = s2.
Proof.
  intros E.
  assert (L : String.length s1 = String.length s2).
  { apply (f_equal String.length) in E. rewrite !length_append in E. lia. }
  revert s2 E L.
  induction s1 as [|c s1 IH]; intros [|d s2] E L; cbn in *; try done.
  injection E as -> E. f_equal. apply IH; [done | lia].
Qed.

Lemma take_drop n s : take n s +:+ drop n s = s.
Proof.
  revert s. induction n as [|n IH]; intros [|c s]; cbn; try done.
  by rewrite IH.
Qed.

Lemma drop_nil n : drop n "" = "".
Proof. by destruct n. Qed.

Lemma drop_append_length s t : drop (String.length s) (s +:+ t) = t.
Proof. induction s as [|c s IH]; cbn; done. Qed.

Lemma take_append_length s t : take (String.length s) (s +:+ t) = s.
Proof. induction s as [|c s IH]; cbn; [by destruct t | by rewrite IH]. Qed.

Lemma startswith_append p s : startswith (p +:+ s) p = true.
Proof.
  induction p as [|a p IH]; cbn; [done |].
  by rewrite Ascii.eqb_refl, IH.
Qed.

Lemma startswith_inv s p :
  startswith s p = true → s = p +:+ drop (String.length p) s.
Proof.
  revert s. induction p as [|a p IH]; intros [|b s]; cbn; try done.
  intros [E H]%andb_prop. apply Ascii.eqb_eq in E as ->.
  f_equal. by apply IH.
Qed.

Lemma startswith_length s p :
  startswith s p = true → (String.length p ≤ String.length s)%nat.
Proof.
  intros H%startswith_inv. apply (f_equal String.length) in H.
  rewrite length_append in H. lia.
Qed.

Lemma endswith_inv s p :
  endswith s p = true →
  s = take (String.length s - String.length p) s +:+ p.
Proof.
  unfold endswith. intros [E _]%andb_prop.
  apply String.eqb_eq in E.
  set (n := String.length s - String.length p) in *.
  transitivity (take n s +:+ drop n s); [symmetry; apply take_drop |].
  by rewrite E.
Qed.

Lemma endswith_append q p : endswith (q +:+ p) p = true.
Proof.
  unfold endswith. rewrite length_append.
  replace (String.length q + String.length p - String.length p)
    with (String.length q) by lia.
  rewrite drop_append_length, String.eqb_refl. cbn.
  apply Nat.leb_le. lia.
Qed.

Lemma removesuffix_append q p : removesuffix (q +:+ p) p = q.
Proof.
  unfold removesuffix. rewrite endswith_append, length_append.
  replace (String.length q + String.length p - String.length p)
    with (String.length q) by lia.
  apply take_append_length.
Qed.

(** Passing over [k] characters is dropping them. *)
Lemma replace_scan_skip old new k s :
  replace_scan old new k s = replace_scan old new 0 (drop k s).
Proof.
  revert k. induction s as [|c s IH]; intros [|k]; cbn; auto.
Qed.

Lemma count_scan_skip p k s :
  count_scan p k s = count_scan p 0 (drop k s).
Proof.
  revert k. induction s as [|c s IH]; intros [|k]; cbn; auto.
Qed.

(** Where nothing matches, nothing is replaced. *)
Lemma replace_scan_absent old new s :
  occurs s old = false → replace_scan old new 0 s = s.
Proof.
  induction s as [|c s IH]; [done |].
  cbn [occurs replace_scan]. intros [H1 H2]%orb_false_elim.
  rewrite H1. f_equal. by apply IH.
Qed.

Lemma count_scan_absent p s :
  p ≠ "" → (count_scan p 0 s = 0 ↔ occurs s p = false).
Proof.
  intros Hp. induction s as [|c s IH].
  - cbn. by destruct p.
  - cbn [occurs count_scan].
    destruct (startswith (String c s) p); cbn; [split; done | apply IH].
Qed.

(** Each match taken trades [old] for [new]. *)
Lemma length_replace_scan old new k s :
  old ≠ "" →
  String.length (replace_scan old new k s) + count_scan old k s * String.length old
  = String.length s - k + count_scan old k s * String.length new.
Proof.
  intros Hold.
  assert (0 < String.length old)%nat as Hlen
    by (destruct old; cbn; [done | lia]).
  revert k. induction s as [|c s IH]; intros k; [cbn; lia |].
  destruct k as [|k]; cbn [replace_scan count_scan String.length].
  - destruct (startswith (String c s) old) eqn:Hsw.
    + apply startswith_length in Hsw. cbn [String.length] in Hsw.
      rewrite length_append.
      specialize (IH (String.length old - 1)). nia.
    + cbn [String.length]. specialize (IH 0). lia.
  - specialize (IH k). lia.
Qed.

(** A scan changes the string exactly when it takes a match, provided
    [new] is shorter than [old]. *)
Lemma replace_scan_fixed old new s :
  (String.length new < String.length old)%nat →
  (replace_scan old new 0 s = s ↔ count_scan old 0 s = 0).
Proof.
  intros Hlt.
  assert (old ≠ "") as Hold by (destruct old; cbn in *; [lia | done]).
  split.
  - intros E. pose proof (length_replace_scan old new 0 s Hold) as L.
    rewrite E in L. nia.
  - intros C. apply replace_scan_absent. by apply count_scan_absent.
Qed.

End StrFacts.

(** ** The line-rewrite functions *)

Module RewriteFacts.
Import Str StrFacts.
#[local] Arguments String.append !_ _ / : simpl nomatch.

Example brotli_pc_libs :
  BrotliTarget._process_pkg_config "libbrotlidec.pc"
    "Libs: -L${libdir} -R${libdir} -lbrotlidec"
  = "Libs: -L${libdir} -lbrotlidec".
Proof. reflexivity. Qed.

Example brotli_pc_other :
  BrotliTarget._process_pkg_config "libbrotlidec.pc" "Cflags: -R${libdir} -I."
  = "Cflags: -R${libdir} -I.".
Proof. reflexivity. Qed.

Example bzip2_pc_bindir :
  Bzip2Target._process_pkg_config "bzip2.pc" "bindir=${exec_prefix}/bin" = "".
Proof. reflexivity. Qed.

Example tiff_pc_version :
  TiffTarget._process_pkg_config "libtiff-4.pc" "Version: 4.2.0"
  = "Version: 4.3.0" +:+ nl.
Proof. reflexivity. Qed.

Example wx_config_cxx :
  WxWidgetsTarget.patch_wx_config
    ("[ -z " +:+ dq +:+ "$output_option_cxx" +:+ dq +:+ " ] || echo clang")
  = "[ -z " +:+ dq +:+ "$output_option_cxx" +:+ dq +:+ " ] || echo "
    +:+ dq +:+ "g++" +:+ dq +:+ nl.
Proof. reflexivity. Qed.

Example brotli_name_once :
  BrotliTarget.no_suffix_name "/p/lib/libbrotlidec-static.a"
  = "/p/lib/libbrotlidec.a".
Proof. reflexivity. Qed.

Example brotli_name_twice :
  BrotliTarget.no_suffix_name "/p-static.a/lib/libbrotlidec-static.a"
  = "/p.a/lib/libbrotlidec.a".
Proof. reflexivity. Qed.

(** Splits on the tests of a rewrite function, first to last.  A taken
    branch leaves a closed line, which is run; when no branch is taken
    the line is unchanged and fails the same tests again. *)
Ltac split_tests :=
  repeat match goal with
  | |- context [startswith ?l ?p] =>
      is_var l;
      destruct (startswith l p) eqn:?; cbv iota;
      [vm_compute; reflexivity |]
  end;
  repeat match goal with
  | H : startswith _ _ = false |- _ => rewrite H; clear H
  end;
  reflexivity.

Lemma bzip2_idempotent p s :
  Bzip2Target._process_pkg_config p (Bzip2Target._process_pkg_config p s)
  = Bzip2Target._process_pkg_config p s.
Proof.
  unfold Bzip2Target._process_pkg_config. split_tests.
Qed.

Lemma bzip3_idempotent p s :
  Bzip3Target._process_pkg_config p (Bzip3Target._process_pkg_config p s)
  = Bzip3Target._process_pkg_config p s.
Proof.
  unfold Bzip3Target._process_pkg_config. split_tests.
Qed.

Lemma tiff_idempotent p s :
  TiffTarget._process_pkg_config p (TiffTarget._process_pkg_config p s)
  = TiffTarget._process_pkg_config p s.
Proof.
  unfold TiffTarget._process_pkg_config. cbv zeta. split_tests.
Qed.

Lemma patch_setup_h_idempotent s :
  WxWidgetsTarget.patch_setup_h (WxWidgetsTarget.patch_setup_h s)
  = WxWidgetsTarget.patch_setup_h s.
Proof.
  unfold WxWidgetsTarget.patch_setup_h. cbv zeta. split_tests.
Qed.

Lemma patch_wx_config_idempotent s :
  WxWidgetsTarget.patch_wx_config (WxWidgetsTarget.patch_wx_config s)
  = WxWidgetsTarget.patch_wx_config s.
Proof.
  unfold WxWidgetsTarget.patch_wx_config. cbv zeta. split_tests.
Qed.

(** brotli's function leaves a line alone exactly when the line is not
    a [Libs:] line or holds no [-R${libdir} ]. *)
Lemma brotli_fixed p x :
  BrotliTarget._process_pkg_config p x = x
  ↔ startswith x "Libs:" && occurs x "-R${libdir} " = false.
Proof.
  unfold BrotliTarget._process_pkg_config.
  destruct (startswith x "Libs:"); cbn [andb]; [| done].
  unfold replace.
  rewrite replace_scan_fixed by (cbn; lia).
  by apply count_scan_absent.
Qed.

(** No proper suffix of [-static.a] starts it again: a match cannot
    begin inside the text before a final [-static.a] and run into it. *)
Lemma archive_suffix_no_border q :
  q ≠ "" →
  startswith (q +:+ BrotliTarget.archive_suffix) BrotliTarget.archive_suffix
  = startswith q BrotliTarget.archive_suffix.
Proof.
  unfold BrotliTarget.archive_suffix.
  destruct q as [|c1 [|c2 [|c3 [|c4 [|c5 [|c6 [|c7 [|c8 [|c9 q]]]]]]]]];
    intros Hq; [done | ..]; cbn; rewrite ?andb_false_r; reflexivity.
Qed.

(** The scan of the text before a final [-static.a] is not disturbed by
    it, and the final [-static.a] is then taken. *)
Lemma scan_before_archive_suffix new k q :
  (k ≤ String.length q)%nat →
  replace_scan BrotliTarget.archive_suffix new k (q +:+ BrotliTarget.archive_suffix)
  = replace_scan BrotliTarget.archive_suffix new k q +:+ new
  ∧ count_scan BrotliTarget.archive_suffix k (q +:+ BrotliTarget.archive_suffix)
    = S (count_scan BrotliTarget.archive_suffix k q).
Proof.
  revert k. induction q as [|c q IH]; intros k Hk.
  - cbn in Hk. assert (k = 0) as -> by lia.
    split; [| reflexivity].
    cbn. by rewrite append_nil_r.
  - destruct k as [|k].
    + change (String c q +:+ BrotliTarget.archive_suffix)
        with (String c (q +:+ BrotliTarget.archive_suffix)).
      cbn [replace_scan count_scan].
      change (String c (q +:+ BrotliTarget.archive_suffix))
        with (String c q +:+ BrotliTarget.archive_suffix).
      rewrite archive_suffix_no_border by done.
      destruct (startswith (String c q) BrotliTarget.archive_suffix) eqn:Hsw.
      * apply startswith_length in Hsw. cbn [String.length] in Hsw.
        destruct (IH (String.length BrotliTarget.archive_suffix - 1)) as [-> ->];
          [cbn in *; lia |].
        split; [by rewrite append_assoc | done].
      * destruct (IH 0) as [-> ->]; [lia |]. done.
    + change (String c q +:+ BrotliTarget.archive_suffix)
        with (String c (q +:+ BrotliTarget.archive_suffix)).
      cbn [replace_scan count_scan]. apply IH. cbn in Hk. lia.
Qed.

End RewriteFacts.

(** The path of the pkg-config file is not looked at. *)
Lemma rewrite_line_ignores_pcfile r p1 p2 line :
  rewrite_line r p1 line = rewrite_line r p2 line.
Proof. by destruct r. Qed.

(** C8, as stated, fails: brotli's function removes each
    [-R${libdir} ] it finds, and the text around a removed one can
    join into another, which a second application removes. *)
Lemma brotli_not_idempotent :
  let p := "libbrotlidec.pc" in
  let s := "Libs: -L${libdir} -R${lib-R${libdir} dir} -lbrotlidec" in
  rewrite_line RwBrotli p s = "Libs: -L${libdir} -R${libdir} -lbrotlidec"
  ∧ rewrite_line RwBrotli p (rewrite_line RwBrotli p s)
    = "Libs: -L${libdir} -lbrotlidec"
  ∧ rewrite_line RwBrotli p (rewrite_line RwBrotli p s)
    ≠ rewrite_line RwBrotli p s.
Proof. cbv zeta. split; [reflexivity | split; [reflexivity | by vm_compute]]. Qed.

(** C8, amended: a line-rewrite function applied to its own output
    returns it unchanged, except when the output is a [Libs:] line of
    brotli that still holds a [-R${libdir} ]; in particular the
    functions of bzip2, bzip3, tiff and wxWidgets are idempotent. *)
Theorem rewriters_idempotent (r : LineRewriter) (p : Path) (s : string) :
  rewrite_line r p (rewrite_line r p s) = rewrite_line r p s
  ↔ rewritten_again r (rewrite_line r p s) = false.
Proof.
  destruct r; cbn [rewrite_line rewritten_again].
  - apply RewriteFacts.brotli_fixed.
  - split; [done | intros _; apply RewriteFacts.bzip2_idempotent].
  - split; [done | intros _; apply RewriteFacts.tiff_idempotent].
  - split; [done | intros _; apply RewriteFacts.bzip3_idempotent].
  - split; [done | intros _; apply RewriteFacts.patch_setup_h_idempotent].
  - split; [done | intros _; apply RewriteFacts.patch_wx_config_idempotent].
Qed.

(** ** Paths that end with [-static.a] *)

Module ArchiveFacts.
Import Str StrFacts.
#[local] Arguments String.append !_ _ / : simpl nomatch.

Lemma occurs_lacks p old : occurs p old = false → lacks p old.
Proof.
  intros H a b ->. induction a as [|c a IH].
  - cbn [String.append] in H.
    pose proof (startswith_append old b) as Hs.
    destruct (old +:+ b); cbn [occurs] in H; [congruence |].
    apply orb_false_elim in H as [H _]. congruence.
  - change (String c a +:+ old +:+ b) with (String c (a +:+ old +:+ b)) in H.
    cbn [occurs] in H. apply orb_false_elim in H as [_ H]. by apply IH.
Qed.

Lemma occurs_split q old : occurs q old = true → ∃ a b, q = a +:+ old +:+ b.
Proof.
  induction q as [|c q IH]; cbn [occurs].
  - intros H%startswith_inv. by exists "", (drop (String.length old) "").
  - intros [H|H]%orb_prop.
    + apply startswith_inv in H. by exists "", (drop (String.length old) (String c q)).
    + destruct (IH H) as (a & b & ->). by exists (String c a), b.
Qed.

Lemma lacks_tail c p old : lacks (String c p) old → lacks p old.
Proof. intros H a b ->. by apply (H (String c a) b). Qed.

Lemma lacks_startswith p old : lacks p old → startswith p old = false.
Proof.
  intros H. destruct (startswith p old) eqn:E; [| done].
  apply startswith_inv in E. by destruct (H "" (drop (String.length old) p)).
Qed.

(** No proper end of [-static.a] is a beginning of it. *)
Lemma archive_suffix_apart q rest :
  q ≠ "" →
  startswith (q +:+ BrotliTarget.archive_suffix +:+ rest) BrotliTarget.archive_suffix
  = startswith q BrotliTarget.archive_suffix.
Proof.
  unfold BrotliTarget.archive_suffix.
  destruct q as [|c1 [|c2 [|c3 [|c4 [|c5 [|c6 [|c7 [|c8 [|c9 q]]]]]]]]];
    intros Hq; [done | ..]; cbn; rewrite ?andb_false_r; reflexivity.
Qed.

(** The scan passes over a piece without [-static.a] and takes the
    [-static.a] after it. *)
Lemma scan_piece new p rest :
  lacks p BrotliTarget.archive_suffix →
  replace_scan BrotliTarget.archive_suffix new 0
    (p +:+ BrotliTarget.archive_suffix +:+ rest)
  = p +:+ new +:+ replace_scan BrotliTarget.archive_suffix new 0 rest
  ∧ count_scan BrotliTarget.archive_suffix 0
      (p +:+ BrotliTarget.archive_suffix +:+ rest)
    = S (count_scan BrotliTarget.archive_suffix 0 rest).
Proof.
  induction p as [|c p IH]; intros Hp.
  - cbn [String.append].
    change (BrotliTarget.archive_suffix +:+ rest)
      with (String "-" ("static.a" +:+ rest)).
    cbn [replace_scan count_scan].
    change (String "-" ("static.a" +:+ rest))
      with (BrotliTarget.archive_suffix +:+ rest).
    rewrite startswith_append.
    rewrite replace_scan_skip, count_scan_skip. done.
  - change (String c p +:+ BrotliTarget.archive_suffix +:+ rest)
      with (String c (p +:+ BrotliTarget.archive_suffix +:+ rest)).
    cbn [replace_scan count_scan].
    change (String c (p +:+ BrotliTarget.archive_suffix +:+ rest))
      with (String c p +:+ BrotliTarget.archive_suffix +:+ rest).
    rewrite archive_suffix_apart by done.
    rewrite (lacks_startswith _ _ Hp).
    destruct (IH (lacks_tail _ _ _ Hp)) as [-> ->]. done.
Qed.

Lemma concat_cons sep p q ps :
  String.concat sep (p :: q :: ps) = p +:+ sep +:+ String.concat sep (q :: ps).
Proof. reflexivity. Qed.

Lemma concat_app sep ps qs :
  ps ≠ [] → qs ≠ [] →
  String.concat sep (ps ++ qs)
  = String.concat sep ps +:+ sep +:+ String.concat sep qs.
Proof.
  intros Hp Hq. induction ps as [|p ps IH]; [done |].
  destruct ps as [|p' ps].
  - destruct qs as [|q qs]; [done |]. reflexivity.
  - change ((p :: p' :: ps) ++ qs) with (p :: p' :: (ps ++ qs)).
    rewrite !concat_cons. change (p' :: ps ++ qs) with ((p' :: ps) ++ qs).
    rewrite IH by done. by rewrite !append_assoc.
Qed.

Lemma length_concat_suffix ps :
  ps ≠ [] →
  String.length (String.concat BrotliTarget.archive_suffix ps) + 7
  = String.length (String.concat ".a" ps) + 7 * length ps.
Proof.
  intros Hp. induction ps as [|p ps IH]; [done |].
  destruct ps as [|p' ps].
  - cbn [String.concat length]. lia.
  - rewrite !concat_cons, !length_append.
    specialize (IH ltac:(done)).
    cbn [String.length BrotliTarget.archive_suffix length] in *. lia.
Qed.

(** The scan of a path cut at every [-static.a]. *)
Lemma scan_pieces new pieces :
  pieces ≠ [] →
  Forall (λ p, lacks p BrotliTarget.archive_suffix) pieces →
  replace_scan BrotliTarget.archive_suffix new 0
    (String.concat BrotliTarget.archive_suffix pieces
     +:+ BrotliTarget.archive_suffix)
  = String.concat new pieces +:+ new
  ∧ count_scan BrotliTarget.archive_suffix 0
      (String.concat BrotliTarget.archive_suffix pieces
       +:+ BrotliTarget.archive_suffix)
    = length pieces.
Proof.
  intros Hne Hl. induction Hl as [|p ps Hp Hps IH]; [done |].
  destruct ps as [|q ps].
  - cbn [String.concat].
    destruct (scan_piece new p "" Hp) as [E1 E2].
    rewrite append_nil_r in E1, E2. rewrite E1, E2. cbn.
    by rewrite append_nil_r.
  - rewrite !concat_cons, !append_assoc.
    destruct (scan_piece new p
                (String.concat BrotliTarget.archive_suffix (q :: ps)
                 +:+ BrotliTarget.archive_suffix) Hp) as [-> ->].
    destruct (IH ltac:(done)) as [-> ->]. done.
Qed.

(** Every path that ends with [-static.a] can be cut so. *)
Lemma cut_exists q :
  ∃ pieces, cut_at_suffix (q +:+ BrotliTarget.archive_suffix) pieces.
Proof.
  remember (String.length q) as n eqn:L.
  revert q L. induction (lt_wf n) as [n _ IH]. intros q ->.
  destruct (occurs q BrotliTarget.archive_suffix) eqn:O.
  - apply occurs_split in O as (a & b & ->).
    destruct (IH (String.length a)) with (q := a) as (pa & Na & Fa & Ea);
      [rewrite !length_append; cbn; lia | done |].
    destruct (IH (String.length b)) with (q := b) as (pb & Nb & Fb & Eb);
      [rewrite !length_append; cbn; lia | done |].
    exists (pa ++ pb). split_and!.
    + by destruct pa.
    + by apply Forall_app.
    + rewrite concat_app by done.
      rewrite !append_assoc. rewrite <- Eb.
      rewrite <- (append_assoc (String.concat _ pa)), <- Ea.
      by rewrite !append_assoc.
  - exists [q]. split_and!; [done | | done].
    constructor; [by apply occurs_lacks | constructor].
Qed.

Lemma concat_same pieces :
  pieces ≠ [] →
  String.concat ".a" pieces = String.concat BrotliTarget.archive_suffix pieces
  ↔ length pieces = 1.
Proof.
  intros Hne. split.
  - intros E. apply (f_equal String.length) in E.
    pose proof (length_concat_suffix pieces Hne) as L. lia.
  - destruct pieces as [|p [|q ps]]; cbn [length]; [done | done | lia].
Qed.

End ArchiveFacts.

(** C10: a matched archive (a path that ends with [-static.a]) can be
    cut at every [-static.a] it holds; its new name is the pieces put
    together again with [.a] in the place of each [-static.a], as many
    as [str.count] counts; and that is the path with only its final
    [-static.a] replaced by [.a] exactly when there is one piece, that
    is, when [-static.a] occurs in the path once, at its end. *)
Theorem brotli_archive_rename (archive : string) :
  Str.endswith archive BrotliTarget.archive_suffix = true →
  (∃ pieces, cut_at_suffix archive pieces)
  ∧ ∀ pieces, cut_at_suffix archive pieces →
      BrotliTarget.no_suffix_name archive = String.concat ".a" pieces +:+ ".a"
      ∧ Str.count archive BrotliTarget.archive_suffix = length pieces
      ∧ (BrotliTarget.no_suffix_name archive
           = Str.removesuffix archive BrotliTarget.archive_suffix +:+ ".a"
         ↔ length pieces = 1).
Proof.
  intros He. apply StrFacts.endswith_inv in He.
  set (q := Str.take _ archive) in He. clearbody q. subst archive.
  split; [apply ArchiveFacts.cut_exists |].
  intros pieces (Hne & Hl & E). rewrite E.
  destruct (ArchiveFacts.scan_pieces ".a" pieces Hne Hl) as [E1 E2].
  change (BrotliTarget.no_suffix_name ?a)
    with (Str.replace_scan BrotliTarget.archive_suffix ".a" 0 a).
  change (Str.count ?a BrotliTarget.archive_suffix)
    with (Str.count_scan BrotliTarget.archive_suffix 0 a).
  rewrite E1, E2, StrFacts.removesuffix_append.
  split_and!; [done | done |].
  rewrite <- (ArchiveFacts.concat_same pieces Hne).
  split; [apply StrFacts.append_inv_tail | by intros ->].
Qed.

Lemma brotli_archive_rename_witness :
  (∃ pieces, cut_at_suffix "/p/lib/libbrotlidec-static.a" pieces)
  ∧ ∀ pieces, cut_at_suffix "/p/lib/libbrotlidec-static.a" pieces →
      BrotliTarget.no_suffix_name "/p/lib/libbrotlidec-static.a"
      = String.concat ".a" pieces +:+ ".a"
      ∧ Str.count "/p/lib/libbrotlidec-static.a" BrotliTarget.archive_suffix
        = length pieces
      ∧ (BrotliTarget.no_suffix_name "/p/lib/libbrotlidec-static.a"
           = Str.removesuffix "/p/lib/libbrotlidec-static.a"
               BrotliTarget.archive_suffix +:+ ".a"
         ↔ length pieces = 1).
Proof. apply (brotli_archive_rename "/p/lib/libbrotlidec-static.a"). reflexivity. Defined.

(** A matched archive under a directory whose name holds [-static.a]
    is cut in two, and is not renamed by its suffix alone. *)
Lemma brotli_archive_rename_inner :
  let archive := "/p-static.a/lib/libbrotlidec-static.a" in
  Str.endswith archive BrotliTarget.archive_suffix = true
  ∧ cut_at_suffix archive ["/p"; "/lib/libbrotlidec"]
  ∧ Str.count archive BrotliTarget.archive_suffix = 2
  ∧ BrotliTarget.no_suffix_name archive = "/p.a/lib/libbrotlidec.a"
  ∧ Str.removesuffix archive BrotliTarget.archive_suffix +:+ ".a"
    = "/p-static.a/lib/libbrotlidec.a".
Proof.
  cbv zeta. split_and!; try reflexivity.
  split_and!; [done | | reflexivity].
  repeat constructor; by apply ArchiveFacts.occurs_lacks.
Qed.

(** ** The monad *)

Module MonadFacts.

Lemma bind_ok {A B} (m : M A) (f : A → M B) h w a w' :
  m h w = (Ok a, w') → (m ≫= f) h w = f a h w'.
Proof. intros E. unfold mbind, M_bind. by rewrite E. Qed.

Lemma bind_raise {A B} (m : M A) (f : A → M B) h w e w' :
  m h w = (Raise e, w') → (m ≫= f) h w = (Raise e, w').
Proof. intros E. unfold mbind, M_bind. by rewrite E. Qed.

(** *** The target object is kept *)

Lemma keeps_ret {X} (view : Target.t → X) {A} (a : A) : keeps_self view (mret a).
Proof. by intros h w _. Qed.

Lemma keeps_bind {X} (view : Target.t → X) {A B} (m : M A) (f : A → M B) :
  keeps_self view m → (∀ a, keeps_self view (f a)) → keeps_self view (m ≫= f).
Proof.
  intros Hm Hf h w Hh. specialize (Hm h w Hh).
  unfold mbind, M_bind. destruct (m h w) as [[a|e] w1]; cbn in *; [| done].
  by rewrite Hf.
Qed.

Lemma keeps_raise {X} (view : Target.t → X) {A} e : keeps_self view (raise (A := A) e).
Proof. by intros h w _. Qed.

Lemma keeps_get_self {X} (view : Target.t → X) : keeps_self view get_self.
Proof. by intros h w _. Qed.

Lemma keeps_get_state {X} (view : Target.t → X) : keeps_self view get_state.
Proof. by intros h w _. Qed.

Lemma keeps_put_state {X} (view : Target.t → X) s : keeps_self view (put_state s).
Proof. by intros h w _. Qed.

(** The one place where the host is relied on. *)
Lemma keeps_call {X} (view : Target.t → X) c : keeps_self view (call c).
Proof.
  intros h w Hh. unfold call. destruct (reply h c _ _). cbn [snd self].
  destruct (receives_self c); [apply Hh | done].
Qed.

Lemma keeps_syscall {X} (view : Target.t → X) c : keeps_self view (syscall c).
Proof. by intros h w _. Qed.

Lemma keeps_subprocess_run_check {X} (view : Target.t → X) args cwd env :
  keeps_self view (subprocess_run_check args cwd env).
Proof. intros h w _. unfold subprocess_run_check. by repeat case_match. Qed.

Lemma keeps_glob_iglob {X} (view : Target.t → X) p : keeps_self view (glob_iglob p).
Proof. by intros h w _. Qed.

Lemma keeps_for_ {X} (view : Target.t → X) {A} (l : list A) (body : A → M unit) :
  (∀ x, keeps_self view (body x)) → keeps_self view (for_ l body).
Proof.
  intros Hb. induction l as [|x l IH]; cbn [for_].
  - apply keeps_ret.
  - apply keeps_bind; [apply Hb | by intros _].
Qed.

Create HintDb keeps discriminated.
#[export] Hint Resolve keeps_ret keeps_raise keeps_get_self keeps_get_state
  keeps_put_state keeps_call keeps_syscall keeps_subprocess_run_check
  keeps_glob_iglob : keeps.

(** Walks through a hook body, statement by statement. *)
Ltac keeps :=
  repeat first
    [ progress intros
    | progress cbv zeta
    | apply keeps_bind
    | apply keeps_for_
    | solve [auto with keeps]
    | match goal with
      | |- keeps_self _ (match ?x with _ => _ end) => destruct x
      end ].

Lemma keeps_set_option {X} (view : Target.t → X) k v : keeps_self view (set_option k v).
Proof. unfold set_option. keeps. Qed.

Lemma keeps_get_option {X} (view : Target.t → X) k : keeps_self view (get_option k).
Proof. unfold get_option. keeps. Qed.

Lemma keeps_add_str {X} (view : Target.t → X) x v : keeps_self view (add_str x v).
Proof. unfold add_str. keeps. Qed.

#[export] Hint Resolve keeps_set_option keeps_get_option keeps_add_str : keeps.

Lemma keeps_iadd_option {X} (view : Target.t → X) k v : keeps_self view (iadd_option k v).
Proof. unfold iadd_option. keeps. Qed.

Lemma keeps_get_env {X} (view : Target.t → X) k : keeps_self view (get_env k).
Proof. unfold get_env. keeps. Qed.

Lemma keeps_set_env {X} (view : Target.t → X) k v : keeps_self view (set_env k v).
Proof. unfold set_env. keeps. Qed.

#[export] Hint Resolve keeps_iadd_option keeps_get_env keeps_set_env : keeps.

Lemma keeps_iadd_env {X} (view : Target.t → X) k v : keeps_self view (iadd_env k v).
Proof. unfold iadd_env. keeps. Qed.

Lemma keeps_state_has_source_file {X} (view : Target.t → X) f : keeps_self view (state_has_source_file f).
Proof. unfold state_has_source_file. keeps. Qed.

Lemma keeps_and_ {X} (view : Target.t → X) e1 e2 :
  keeps_self view e1 → keeps_self view e2 → keeps_self view (and_ e1 e2).
Proof. intros H1 H2. unfold and_. keeps. Qed.

Lemma keeps_returns_none {X} (view : Target.t → X) m : keeps_self view m → keeps_self view (returns_none m).
Proof. intros H. unfold returns_none. keeps. Qed.

Lemma keeps_returns_bool {X} (view : Target.t → X) m : keeps_self view m → keeps_self view (returns_bool m).
Proof. intros H. unfold returns_bool. keeps. Qed.

Lemma keeps_super_ {X} (view : Target.t → X) b m : keeps_self view (super_ b m).
Proof. unfold super_. keeps. Qed.

Lemma keeps_state_download_source {X} (view : Target.t → X) u c p :
  keeps_self view (state_download_source u c p).
Proof. unfold state_download_source. keeps. Qed.

#[export] Hint Resolve keeps_iadd_env keeps_state_has_source_file keeps_and_
  keeps_returns_none keeps_returns_bool keeps_super_
  keeps_state_download_source : keeps.

(** *** Failures are handed on *)

(** A computation that calls nothing and returns. *)
Lemma propagates_silent own {A} (m : M A) :
  (∀ h w, ∃ a, m h w = (Ok a, w)) → propagates own m.
Proof.
  intros H h w. destruct (H h w) as [a ->]. exists []. rewrite app_nil_r.
  split; [done |]. left. split; [constructor | by exists a].
Qed.

Lemma propagates_bind own {A B} (m : M A) (f : A → M B) :
  propagates own m → (∀ a, propagates own (f a)) → propagates own (m ≫= f).
Proof.
  intros Hm Hf h w. destruct (Hm h w) as (t1 & E1 & U1).
  unfold mbind, M_bind. destruct (m h w) as [[a|e] w1]; cbn in *.
  - destruct (Hf a h w1) as (t2 & E2 & U2).
    exists (t1 ++ t2). rewrite E2, E1, app_assoc. split; [done |].
    assert (quiet t1) as Q1.
    { destruct U1 as [[Q _] | [(t0 & c & e & _ & _ & R) | (_ & _ & e & R & _)]];
        [done | discriminate R | discriminate R]. }
    destruct U2 as [[Q R] | [(t0 & c & e & -> & Q & R) | (O & Q & R)]].
    + left. split; [by apply Forall_app | done].
    + right. left. exists (t1 ++ t0), c, e.
      rewrite app_assoc. split_and!; [done | by apply Forall_app | done].
    + right. right. split_and!; [done | by apply Forall_app | done].
  - exists t1. split; [done |].
    destruct U1 as [[_ [a R]] | [(t0 & c & e' & -> & Q & R) | (O & Q & e' & R & S)]].
    + discriminate R.
    + right. left. exists t0, c, e'. split_and!; [done | done |].
      by injection R as ->.
    + right. right. split_and!; [done | done |]. exists e'.
      split; [| done]. by injection R as ->.
Qed.

Lemma propagates_ret own {A} (a : A) : propagates own (mret a).
Proof. apply propagates_silent. intros h w. by exists a. Qed.

(** A statement that raises, where that is allowed for. *)
Lemma propagates_raise {A} e :
  raised_by_statement e = true → propagates true (raise (A := A) e).
Proof.
  intros H h w. exists []. rewrite app_nil_r. split; [done |].
  right. right. split_and!; [done | constructor |]. by exists e.
Qed.

Lemma propagates_get_self own : propagates own get_self.
Proof. apply propagates_silent. intros h w. by eexists. Qed.

Lemma propagates_get_state own : propagates own get_state.
Proof. apply propagates_silent. intros h w. by eexists. Qed.

Lemma propagates_put_self own o : propagates own (put_self o).
Proof.
  intros h w. exists []. rewrite app_nil_r. split; [done |].
  left. split; [constructor | by eexists].
Qed.

Lemma propagates_put_state own s : propagates own (put_state s).
Proof.
  intros h w. exists []. rewrite app_nil_r. split; [done |].
  left. split; [constructor | by eexists].
Qed.

Lemma propagates_glob_iglob own p : propagates own (glob_iglob p).
Proof. apply propagates_silent. intros h w. by eexists. Qed.

(** One call: its outcome is the result. *)
Lemma unhandled_single own {A} (r : Res A) c o :
  match o with Some e => r = Raise e | None => ∃ a, r = Ok a end →
  unhandled own r [(c, o)].
Proof.
  intros H. destruct o as [e|].
  - right. left. exists [], c, e. split_and!; [done | constructor | done].
  - left. split; [by repeat constructor | done].
Qed.

Lemma propagates_call own c : propagates own (call c).
Proof.
  intros h w. unfold call. destruct (reply h c _ _) as [[v|e] s]; cbn.
  - eexists. split; [done |]. apply unhandled_single. by eexists.
  - eexists. split; [done |]. by apply unhandled_single.
Qed.

Lemma propagates_syscall own c : propagates own (syscall c).
Proof.
  intros h w. unfold syscall. cbn. eexists. split; [done |].
  apply unhandled_single. destruct (os_error h c); [done | by eexists].
Qed.

Lemma propagates_subprocess_run_check own args cwd env :
  propagates own (subprocess_run_check args cwd env).
Proof.
  intros h w. unfold subprocess_run_check.
  destruct (run_process h args cwd env) as [code|e]; [case_match |]; cbn.
  - eexists. split; [done |]. apply unhandled_single. by eexists.
  - eexists. split; [done |]. by apply unhandled_single.
  - eexists. split; [done |]. by apply unhandled_single.
Qed.

Lemma propagates_for_ own {A} (l : list A) (body : A → M unit) :
  (∀ x, propagates own (body x)) → propagates own (for_ l body).
Proof.
  intros Hb. induction l as [|x l IH]; cbn [for_].
  - apply propagates_ret.
  - apply propagates_bind; [apply Hb | by intros _].
Qed.

Create HintDb propagates discriminated.
#[export] Hint Resolve propagates_ret propagates_get_self
  propagates_get_state propagates_put_self propagates_put_state
  propagates_glob_iglob propagates_call propagates_syscall
  propagates_subprocess_run_check : propagates.

Ltac propagates :=
  repeat first
    [ progress intros
    | progress cbv zeta
    | apply propagates_bind
    | apply propagates_for_
    | solve [auto with propagates]
    | solve [apply propagates_raise; reflexivity]
    | match goal with
      | |- propagates _ (match ?x with _ => _ end) => destruct x
      end ].

Lemma propagates_set_option own k v : propagates own (set_option k v).
Proof. unfold set_option. propagates. Qed.

Lemma propagates_get_option k : propagates true (get_option k).
Proof. unfold get_option. propagates. Qed.

Lemma propagates_add_str x v : propagates true (add_str x v).
Proof. unfold add_str. propagates. Qed.

#[export] Hint Resolve propagates_set_option propagates_get_option
  propagates_add_str : propagates.

Lemma propagates_iadd_option k v : propagates true (iadd_option k v).
Proof. unfold iadd_option. propagates. Qed.

Lemma propagates_get_env k : propagates true (get_env k).
Proof. unfold get_env. propagates. Qed.

Lemma propagates_set_env own k v : propagates own (set_env k v).
Proof. unfold set_env. propagates. Qed.

#[export] Hint Resolve propagates_iadd_option propagates_get_env
  propagates_set_env : propagates.

Lemma propagates_iadd_env k v : propagates true (iadd_env k v).
Proof. unfold iadd_env. propagates. Qed.

Lemma propagates_state_has_source_file own f :
  propagates own (state_has_source_file f).
Proof. unfold state_has_source_file. propagates. Qed.

Lemma propagates_and_ own e1 e2 :
  propagates own e1 → propagates own e2 → propagates own (and_ e1 e2).
Proof. intros H1 H2. unfold and_. propagates. Qed.

Lemma propagates_returns_none own m :
  propagates own m → propagates own (returns_none m).
Proof. intros H. unfold returns_none. propagates. Qed.

Lemma propagates_returns_bool own m :
  propagates own m → propagates own (returns_bool m).
Proof. intros H. unfold returns_bool. propagates. Qed.

Lemma propagates_super_ own b m : propagates own (super_ b m).
Proof. unfold super_. propagates. Qed.

Lemma propagates_state_download_source own u c p :
  propagates own (state_download_source u c p).
Proof. unfold state_download_source. propagates. Qed.

Lemma propagates_set_src_root own v : propagates own (set_src_root v).
Proof. unfold set_src_root. propagates. Qed.

#[export] Hint Resolve propagates_iadd_env propagates_state_has_source_file
  propagates_and_ propagates_returns_none propagates_returns_bool
  propagates_super_ propagates_state_download_source
  propagates_set_src_root : propagates.

End MonadFacts.

(** ** Method resolution *)

Module ClassFacts.

(** A hook runs the body its class defines; failing that, for
    [IntlTarget], the body [GettextTarget] defines; failing that, the
    method of the host's base class. *)
Lemma hook_cases c m :
  hook c m =
  match own c m with
  | Some body => body
  | None =>
      match parent c with
      | InHost b => call (base_method b m)
      | InRepo d =>
          match own d m with
          | Some body => body
          | None => call (base_method ConfigureMakeStaticDependencyTarget m)
          end
      end
  end.
Proof. destruct c, m; reflexivity. Qed.

End ClassFacts.

(** ** The hooks *)

Module HookFacts.
Import MonadFacts.

(** Runs the statements of a hook body as far as they are determined,
    leaving the answers of the host in place. *)
Ltac run :=
  cbv beta iota zeta delta
    [returns_none returns_bool super_ state_download_source set_src_root
     set_option get_option add_str iadd_option get_env set_env iadd_env
     state_has_source_file and_ call receives_self syscall
     subprocess_run_check glob_iglob
     get_self get_state put_self put_state raise
     mbind M_bind mret M_ret fst snd];
  cbn [self state trace].

Ltac unfold_head :=
  match goal with
  | |- keeps_self _ ?b => unfold b
  | |- propagates _ ?b => unfold b
  end.

Example bzip2_configure_runs :
  let w' := snd (hook Cls.Bzip2Target Method.configure (quiet_host 0)
                   (world_of Cls.Bzip2Target empty_state)) in
  trace w' = [(base_method CMakeStaticDependencyTarget Method.configure, None)]
  ∧ BuildState.options (state w') !! "ENABLE_STATIC_LIB" = Some (VStr "YES").
Proof. split; reflexivity. Qed.

Example xz_configure_absent :
  fst (hook Cls.XzTarget Method.configure (quiet_host 0)
         (world_of Cls.XzTarget empty_state))
  = Raise (KeyError "BUILD_TESTING").
Proof. reflexivity. Qed.

(** A value that is not a string cannot be appended to. *)
Example xz_configure_not_a_string :
  fst (hook Cls.XzTarget Method.configure (quiet_host 0)
         (world_of Cls.XzTarget
            (BuildState.set_options {[ "BUILD_TESTING" := VNone ]} empty_state)))
  = Raise TypeError.
Proof. reflexivity. Qed.

Example intl_build_after_configure :
  let h := quiet_host 0 in
  let w1 := snd (hook Cls.IntlTarget Method.configure h
                   (world_of Cls.IntlTarget empty_state)) in
  let w2 := snd (hook Cls.IntlTarget Method.build h w1) in
  let w3 := snd (hook Cls.IntlTarget Method.post_build h w2) in
  Target.src_root (self w2) = "gettext-runtime/intl"
  ∧ BuildState.build_path (state w3) = "/build/gettext-runtime/intl".
Proof. split; reflexivity. Qed.

Example xdelta_configure_ok :
  trace (snd (hook Cls.XdeltaTarget Method.configure (quiet_host 0)
                (world_of Cls.XdeltaTarget empty_state)))
  = [(base_method MakeTarget Method.configure, None);
     (subprocess_run XdeltaTarget.autoreconf "/build/xdelta3" ∅, None);
     (base_method ConfigureMakeDependencyTarget Method.configure, None)].
Proof. reflexivity. Qed.

Lemma own_keeps_self {X} (view : Target.t → X) c m body :
  own c m = Some body →
  ∀ h w, host_keeps view h →
    view (self (snd (body h w))) = view (self_after c m (self w)).
Proof.
  intros E h w Hh.
  destruct c, m; cbn in E; try discriminate E;
    injection E as <-; cbn [self_after];
    try (revert h w Hh;
         match goal with
         | |- ∀ h w, _ → view (self (snd (?b h w))) = view (self w) =>
             change (keeps_self view b); unfold b
         end; solve [keeps]).
  - (* IntlTarget.configure *)
    destruct w as [o s t].
    unfold IntlTarget.configure, GettextTarget.configure. run.
    destruct (reply h _ _ _) as [[v|e] s']; cbn [snd self]; by rewrite Hh.
  - (* IntlTarget.build *)
    destruct w as [o s t].
    unfold IntlTarget.build. run.
    destruct (reply h _ _ _) as [[v|e] s']; cbn [snd self]; by rewrite Hh.
Qed.

Lemma own_propagates c m body :
  own c m = Some body → propagates (raises_itself c m) body.
Proof.
  intros E.
  destruct c, m; cbn in E; try discriminate E;
    injection E as <-; cbn [raises_itself]; unfold_head; try solve [propagates].
  all: try (unfold GettextTarget.configure; solve [propagates]).
  all: try (unfold SevenZipTarget._arch_suffix; solve [propagates]).
Qed.

End HookFacts.

(** ** The classes and their hooks *)



(** C3, as stated, fails: [IntlTarget.configure] assigns
    [self.src_root]. *)
Lemma intl_configure_assigns_self :
  let w := world_of Cls.IntlTarget empty_state in
  let w' := snd (hook Cls.IntlTarget Method.configure (quiet_host 0) w) in
  Target.src_root (self w) = ""
  ∧ Target.src_root (self w') = "gettext-runtime"
  ∧ self w' ≠ self w.
Proof. cbv zeta. split_and!; [reflexivity | reflexivity | by vm_compute]. Qed.

(** C3, amended: whatever of the target object the methods of the
    host leave alone (an attribute, or with [id] the whole object),
    every hook of every class leaves alone too, on success and on
    failure, except that [IntlTarget.configure] sets [src_root] to
    [gettext-runtime] and [IntlTarget.build] appends [/intl] to
    [src_root]. *)
Theorem hooks_keep_self {X} (view : Target.t → X) (c : Cls.t) (m : Method.t)
    (h : Host) (w : World) :
  host_keeps view h →
  view (self (snd (hook c m h w))) = view (self_after c m (self w)).
Proof.
  intros Hh. rewrite ClassFacts.hook_cases.
  destruct (own c m) as [body|] eqn:E.
  - by apply HookFacts.own_keeps_self.
  - assert (self_after c m (self w) = self w) as ->
      by (destruct c, m; try reflexivity; discriminate E).
    destruct (parent c) as [b|d] eqn:P; [by apply MonadFacts.keeps_call |].
    destruct (own d m) as [body|] eqn:E'; [| by apply MonadFacts.keeps_call].
    rewrite (HookFacts.own_keeps_self view d m body E' h w Hh).
    destruct c; try discriminate P. injection P as <-. by destruct m.
Qed.

Lemma hooks_keep_self_witness :
  host_keeps id (quiet_host 0)
  ∧ self (snd (hook Cls.IntlTarget Method.build (quiet_host 0)
                 (world_of Cls.IntlTarget empty_state)))
    = Target.set_src_root "/intl" (self (world_of Cls.IntlTarget empty_state)).
Proof.
  assert (host_keeps id (quiet_host 0)) as Hh by (intros c o s; reflexivity).
  split; [exact Hh |].
  exact (hooks_keep_self id Cls.IntlTarget Method.build (quiet_host 0)
           (world_of Cls.IntlTarget empty_state) Hh).
Defined.

(** The one call of a [prepare_source] body. *)
Lemma run_download_source url checksum patches h w :
  ∃ o s',
    returns_none (state_download_source url checksum patches) h w
    = (match o with None => Ok RNone | Some e => Raise e end,
       mkWorld (self w) s'
         (trace w ++ [(download_source url checksum patches, o)])).
Proof.
  HookFacts.run.
  destruct (reply h _ _ _) as [[v|e] s']; [by exists None, s' | by exists (Some e), s'].
Qed.

(** C4: the [prepare_source] hook of every class makes exactly one
    call, to the host's [download_source], with one URL, one checksum
    of 64 hexadecimal digits and at most one patch set; it returns
    [None] when the call succeeds and raises what the call raises. *)
Theorem prepare_source_single_download (c : Cls.t) :
  ∃ url checksum (patches : option string),
    is_sha256_hex checksum = true
    ∧ ∀ h w, ∃ o s',
        hook c Method.prepare_source h w
        = (match o with None => Ok RNone | Some e => Raise e end,
           mkWorld (self w) s'
             (trace w ++ [(download_source url checksum patches, o)])).
Proof.
  destruct c;
    (do 3 eexists; split;
     [| intros h w; rewrite ClassFacts.hook_cases; cbn [own parent];
        apply run_download_source]);
    vm_compute; reflexivity.
Qed.

(** C5 (the code departs from the claim): the body of [targets()]
    names 13 classes under [# Libraries] and 18 under [# Tools], all
    different, but four of them ([OpusFileTarget], [BisonTarget],
    [GraphvizTarget], [TimemoryTarget]) are bound by neither module, so
    the call raises [NameError] at the first of them and returns no
    tuple. *)
Theorem targets_raises_NameError (h : Host) :
  targets h = Raise (NameError "OpusFileTarget")
  ∧ filter (λ n, lookup_global n = None) (targets_libraries ++ targets_tools)
    = ["OpusFileTarget"; "BisonTarget"; "GraphvizTarget"; "TimemoryTarget"]
  ∧ length targets_libraries = 13
  ∧ length targets_tools = 18.
Proof. split_and!; reflexivity. Qed.

(** What does hold of the tuple display: its 31 names are pairwise
    different, every class of the repository is named once, and the
    default package names of the classes are pairwise different. *)
Lemma targets_names_distinct :
  NoDup (targets_libraries ++ targets_tools)
  ∧ omap lookup_global (targets_libraries ++ targets_tools) = Cls.all
  ∧ NoDup (default_name <$> Cls.all).
Proof.
  split_and!; [compute_done | reflexivity | compute_done].
Qed.

(** C6: [P7ZipTarget.detect] returns true exactly when the state has
    both marker files and [Bzip2Target.detect] exactly when it has
    [bzlib.h]; every [detect] a class defines returns whether the state
    has all of one or more named files; none changes the world. *)
Theorem detect_reads_markers (h : Host) (w : World) :
  let has := BuildState.has_source_file (state w) in
  hook Cls.P7ZipTarget Method.detect h w
    = (Ok (RBool (has "CPP/7zip/CMAKE/CMakeLists.txt"
                  && has "C/fast-lzma2/fast-lzma2.h")), w)
  ∧ (fst (hook Cls.P7ZipTarget Method.detect h w) = Ok (RBool true)
     ↔ has "CPP/7zip/CMAKE/CMakeLists.txt" = true
       ∧ has "C/fast-lzma2/fast-lzma2.h" = true)
  ∧ hook Cls.Bzip2Target Method.detect h w = (Ok (RBool (has "bzlib.h")), w)
  ∧ (fst (hook Cls.Bzip2Target Method.detect h w) = Ok (RBool true)
     ↔ has "bzlib.h" = true)
  ∧ ∀ c, match own c Method.detect with
         | Some body =>
             ∃ files, files ≠ []
               ∧ body h w = (Ok (RBool (forallb has files)), w)
         | None => True
         end.
Proof.
  intros has.
  assert (P7 : hook Cls.P7ZipTarget Method.detect h w
    = (Ok (RBool (has "CPP/7zip/CMAKE/CMakeLists.txt"
                  && has "C/fast-lzma2/fast-lzma2.h")), w)).
  { rewrite ClassFacts.hook_cases. cbn [own]. unfold P7ZipTarget.detect.
    HookFacts.run. fold has. by destruct (has "CPP/7zip/CMAKE/CMakeLists.txt"). }
  assert (B2 : hook Cls.Bzip2Target Method.detect h w
    = (Ok (RBool (has "bzlib.h")), w)).
  { rewrite ClassFacts.hook_cases. cbn [own]. reflexivity. }
  split_and!.
  - exact P7.
  - rewrite P7. cbn [fst]. split.
    + intros [= E]. by apply andb_prop.
    + intros [-> ->]. reflexivity.
  - exact B2.
  - rewrite B2. cbn [fst]. split; [by intros [= ->] | by intros ->].
  - intros c. destruct c; cbn [own]; try exact I.
    all: try (eexists [_]; split; [done |]; cbn [forallb];
              rewrite andb_true_r; reflexivity).
    exists ["CPP/7zip/CMAKE/CMakeLists.txt"; "C/fast-lzma2/fast-lzma2.h"].
    split; [done |]. cbn [forallb]. rewrite andb_true_r.
    unfold P7ZipTarget.detect. HookFacts.run. fold has.
    by destruct (has "CPP/7zip/CMAKE/CMakeLists.txt").
Qed.

(** C7, as stated, fails: where [autoreconf] cannot be started,
    [XdeltaTarget.configure] raises what [subprocess.run] raises and
    performs none of the later steps, though no child has exited with
    any status. *)
Lemma xdelta_configure_cannot_start :
  let w := world_of Cls.XdeltaTarget empty_state in
  let ran := subprocess_run XdeltaTarget.autoreconf "/build/xdelta3" ∅ in
  let failed := OSError "autoreconf" in
  (∀ code, run_process no_program_host XdeltaTarget.autoreconf "/build/xdelta3" ∅
           ≠ Ok code)
  ∧ hook Cls.XdeltaTarget Method.configure no_program_host w
    = (Raise failed,
       mkWorld (self w) empty_state
         [(base_method MakeTarget Method.configure, None); (ran, Some failed)]).
Proof. cbv zeta. split; [by intros code | reflexivity]. Qed.

(** C7, amended: no hook continues after a call that raised, and none
    turns an exception into another result.  A hook ends in one of
    three ways: none of its calls raised and it returned; or its last
    call raised and that exception is its result; or, for the three
    hooks that read [state.options] or [state.environment], no call
    raised and one of their statements raised [KeyError] or
    [TypeError].  Those statements do raise: [XzTarget.configure] on a
    missing or non-string [BUILD_TESTING], before any call;
    [SevenZipTarget.build] on a missing [CFLAGS] or [LDFLAGS], before
    any call; [FreeImageTarget.configure] on a missing [CFLAGS] or
    [CXXFLAGS], after the call of the base class.
    [XdeltaTarget.configure], once [MakeTarget.configure] has returned,
    runs [autoreconf --install]; when the child cannot be started it
    raises the error of [subprocess.run], when the child ends with a
    status other than zero it raises [CalledProcessError], in both
    cases without calling the generated [configure] step; on status
    zero it goes on to that step. *)
Theorem hooks_propagate_failures (h : Host) (w : World) :
  (∀ c m, ∃ t,
     trace (snd (hook c m h w)) = trace w ++ t
     ∧ unhandled (raises_itself c m) (fst (hook c m h w)) t)
  ∧ (let opts := BuildState.options (state w) in
     let run := hook Cls.XzTarget Method.configure h w in
     (opts !! "BUILD_TESTING" = None → run = (Raise (KeyError "BUILD_TESTING"), w))
     ∧ (∀ v, opts !! "BUILD_TESTING" = Some v → (∀ a, v ≠ VStr a) →
          run = (Raise TypeError, w)))
  ∧ (let env := BuildState.environment (state w) in
     let run := hook Cls.SevenZipTarget Method.build h w in
     (env !! "CFLAGS" = None →
        fst run = Raise (KeyError "CFLAGS") ∧ trace (snd run) = trace w)
     ∧ (∀ a, env !! "CFLAGS" = Some a → env !! "LDFLAGS" = None →
          fst run = Raise (KeyError "LDFLAGS") ∧ trace (snd run) = trace w))
  ∧ (∀ v s0,
       reply h (base_method MakeTarget Method.configure) (self w) (state w)
         = (Ok v, s0) →
       let env := BuildState.environment s0 in
       let run := hook Cls.FreeImageTarget Method.configure h w in
       let made := (base_method MakeTarget Method.configure, None) in
       (env !! "CFLAGS" = None →
          fst run = Raise (KeyError "CFLAGS")
          ∧ trace (snd run) = trace w ++ [made])
       ∧ (∀ a, env !! "CFLAGS" = Some a → env !! "CXXFLAGS" = None →
            fst run = Raise (KeyError "CXXFLAGS")
            ∧ trace (snd run) = trace w ++ [made]))
  ∧ ∀ v s0,
      reply h (base_method MakeTarget Method.configure) (self w) (state w)
        = (Ok v, s0) →
      let o1 :=
        touch h (base_method MakeTarget Method.configure) (self w) (state w) in
      let work_path := joinpath (BuildState.build_path s0) (Target.src_root o1) in
      let env := BuildState.environment s0 in
      let made := (base_method MakeTarget Method.configure, None) in
      let ran := subprocess_run XdeltaTarget.autoreconf work_path env in
      let generated := base_method ConfigureMakeDependencyTarget Method.configure in
      let run := hook Cls.XdeltaTarget Method.configure h w in
      let stops e :=
        run = (Raise e, mkWorld o1 s0 (trace w ++ [made; (ran, Some e)])) in
      let child := run_process h XdeltaTarget.autoreconf work_path env in
      (∀ e, child = Raise e → stops e)
      ∧ (∀ code, child = Ok code → code ≠ 0%Z →
           stops (CalledProcessError code XdeltaTarget.autoreconf))
      ∧ (child = Ok 0%Z →
         ∃ o s1,
           run
           = (match o with None => Ok RNone | Some e => Raise e end,
              mkWorld (touch h generated o1 s0) s1
                (trace w ++ [made; (ran, None); (generated, o)]))).
Proof.
  split_and!.
  - intros c m. rewrite ClassFacts.hook_cases.
    assert (propagates (raises_itself c m)
      (match own c m with
       | Some body => body
       | None =>
           match parent c with
           | InHost b => call (base_method b m)
           | InRepo d =>
               match own d m with
               | Some body => body
               | None => call (base_method ConfigureMakeStaticDependencyTarget m)
               end
           end
       end)) as P.
    { destruct (own c m) eqn:E; [by eapply HookFacts.own_propagates |].
      destruct (parent c) as [b|d] eqn:P; [apply MonadFacts.propagates_call |].
      destruct c; try discriminate P. injection P as <-.
      destruct m; try discriminate E.
      - exact (HookFacts.own_propagates Cls.GettextTarget Method.prepare_source
                 _ eq_refl).
      - exact (HookFacts.own_propagates Cls.GettextTarget Method.detect
                 _ eq_refl). }
    apply P.
  - intros opts run. subst opts run.
    rewrite ClassFacts.hook_cases. cbn [own]. unfold XzTarget.configure.
    destruct w as [o s t]. cbn [self state trace].
    split.
    + intros E. HookFacts.run. by rewrite E.
    + intros v E Hv. HookFacts.run. rewrite E.
      destruct v as [a| |p]; [by destruct (Hv a) | done | done].
  - intros env run. subst env run.
    rewrite ClassFacts.hook_cases. cbn [own].
    unfold SevenZipTarget.build, SevenZipTarget._arch_suffix.
    destruct w as [o [opts env bp ip hs ar] t]. cbn [self state trace].
    cbn [BuildState.environment]. split.
    + intros E. HookFacts.run.
      cbn [BuildState.environment BuildState.set_options]. by rewrite E.
    + intros a E1 E2. HookFacts.run.
      cbn [BuildState.environment BuildState.set_options]. rewrite E1.
      HookFacts.run. cbn [BuildState.environment BuildState.set_options].
      by rewrite E2.
  - intros v s0 Hb env run made. subst env run made.
    rewrite ClassFacts.hook_cases. cbn [own]. unfold FreeImageTarget.configure.
    destruct w as [o s t]. cbn [self state trace] in *. split.
    + intros E. HookFacts.run. rewrite Hb. HookFacts.run. by rewrite E.
    + intros a E1 E2. HookFacts.run. rewrite Hb. HookFacts.run. rewrite E1.
      HookFacts.run. cbn [BuildState.environment BuildState.set_environment].
      rewrite lookup_insert_ne by done. by rewrite E2.
  - intros v s0 Hmk o1 work_path env made ran generated run stops child.
    subst run stops child.
    rewrite ClassFacts.hook_cases. cbn [own].
    unfold XdeltaTarget.configure. HookFacts.run. rewrite Hmk.
    cbn [self state trace]. fold o1 work_path env.
    subst made ran generated. split_and!.
    + intros e ->. by rewrite <- app_assoc.
    + intros code -> Hc. apply Z.eqb_neq in Hc. rewrite Hc.
      by rewrite <- app_assoc.
    + intros ->. clear Hmk.
      cbn [Z.eqb]. cbv beta iota. cbn [self state trace].
      destruct (reply h _ _ _) as [[v'|e] s1].
      * exists None, s1. by rewrite <- !app_assoc.
      * exists (Some e), s1. by rewrite <- !app_assoc.
Qed.

Lemma hooks_propagate_failures_witness :
  hook Cls.XdeltaTarget Method.configure (quiet_host 1)
    (world_of Cls.XdeltaTarget empty_state)
  = (Raise (CalledProcessError 1 XdeltaTarget.autoreconf),
     mkWorld (self (world_of Cls.XdeltaTarget empty_state)) empty_state
       [(base_method MakeTarget Method.configure, None);
        (subprocess_run XdeltaTarget.autoreconf "/build/xdelta3" ∅,
         Some (CalledProcessError 1 XdeltaTarget.autoreconf))]).
Proof.
  destruct (hooks_propagate_failures (quiet_host 1)
              (world_of Cls.XdeltaTarget empty_state)) as (_ & _ & _ & _ & H).
  destruct (H RNone empty_state eq_refl) as (_ & H1 & _).
  apply (H1 1%Z); [reflexivity | discriminate].
Defined.

(** C9: [XzTarget.configure] appends to the values [state.options]
    already holds.  It raises [KeyError] when [BUILD_TESTING] is
    absent, and when [BUILD_TESTING] holds a string and
    [CMAKE_EXE_LINKER_FLAGS] is absent; when both hold strings it goes
    on to the base class with [NO] and
    [-framework CoreFoundation -liconv] appended, each earlier value a
    prefix of the new one. *)
Theorem xz_configure_appends (h : Host) (w : World) :
  let opts := BuildState.options (state w) in
  let bt := "BUILD_TESTING" in
  let lf := "CMAKE_EXE_LINKER_FLAGS" in
  let flags := "-framework CoreFoundation -liconv" in
  (opts !! bt = None →
     hook Cls.XzTarget Method.configure h w = (Raise (KeyError bt), w))
  ∧ (∀ a, opts !! bt = Some (VStr a) → opts !! lf = None →
       hook Cls.XzTarget Method.configure h w
       = (Raise (KeyError lf),
          mkWorld (self w)
            (BuildState.set_options (<[bt := VStr (a +:+ "NO")]> opts) (state w))
            (trace w)))
  ∧ (∀ a b, opts !! bt = Some (VStr a) → opts !! lf = Some (VStr b) →
       let opts' :=
         <[lf := VStr (b +:+ flags)]> (<[bt := VStr (a +:+ "NO")]> opts) in
       hook Cls.XzTarget Method.configure h w
       = returns_none (super_ CMakeStaticDependencyTarget Method.configure) h
           (mkWorld (self w) (BuildState.set_options opts' (state w)) (trace w))
       ∧ opts' !! bt = Some (VStr (a +:+ "NO"))
       ∧ opts' !! lf = Some (VStr (b +:+ flags))
       ∧ Str.startswith (a +:+ "NO") a = true
       ∧ Str.startswith (b +:+ flags) b = true).
Proof.
  intros opts bt lf flags. subst opts bt lf flags.
  rewrite ClassFacts.hook_cases. cbn [own]. unfold XzTarget.configure.
  destruct w as [o s t]. cbn [self state trace].
  split_and!.
  - intros E. HookFacts.run. by rewrite E.
  - intros a E1 E2. HookFacts.run. rewrite E1. HookFacts.run.
    cbn [BuildState.options BuildState.set_options].
    rewrite lookup_insert_ne by done. by rewrite E2.
  - intros a b E1 E2. split_and!.
    + HookFacts.run. rewrite E1. HookFacts.run.
      cbn [BuildState.options BuildState.set_options].
      rewrite lookup_insert_ne by done. rewrite E2. HookFacts.run.
      reflexivity.
    + rewrite lookup_insert_ne by done. apply lookup_insert_eq.
    + apply lookup_insert_eq.
    + apply StrFacts.startswith_append.
    + apply StrFacts.startswith_append.
Qed.

Lemma xz_configure_appends_witness :
  let s := BuildState.set_options
             {[ "BUILD_TESTING" := VStr ""; "CMAKE_EXE_LINKER_FLAGS" := VStr "-L/usr/lib " ]}
             empty_state in
  fst (hook Cls.XzTarget Method.configure (quiet_host 0) (world_of Cls.XzTarget s))
    = Ok RNone
  ∧ BuildState.options
      (state (snd (hook Cls.XzTarget Method.configure (quiet_host 0)
                     (world_of Cls.XzTarget s))))
    = <[ "CMAKE_EXE_LINKER_FLAGS" :=
           VStr "-L/usr/lib -framework CoreFoundation -liconv" ]>
        (<[ "BUILD_TESTING" := VStr "NO" ]>
           {[ "BUILD_TESTING" := VStr ""; "CMAKE_EXE_LINKER_FLAGS" := VStr "-L/usr/lib " ]}).
Proof.
  intros s.
  destruct (xz_configure_appends (quiet_host 0) (world_of Cls.XzTarget s))
    as (_ & _ & H).
  destruct (H "" "-L/usr/lib " eq_refl eq_refl) as (-> & _).
  split; reflexivity.
Defined.


(** * Further properties of the recipes *)

(** ** The line-rewrite functions *)

Module RewriteMore.
Import Str StrFacts.
#[local] Arguments String.append !_ _ / : simpl nomatch.

(** A [Libs:] line keeps its key: [-R${libdir} ] starts with a
    character the key does not hold. *)
Lemma brotli_scan_keeps_key t :
  replace_scan "-R${libdir} " "" 0 ("Libs:" +:+ t)
  = "Libs:" +:+ replace_scan "-R${libdir} " "" 0 t.
Proof. reflexivity. Qed.

Lemma brotli_count_skips_key t :
  count_scan "-R${libdir} " 0 ("Libs:" +:+ t) = count_scan "-R${libdir} " 0 t.
Proof. reflexivity. Qed.

End RewriteMore.

(** X1: [BrotliTarget._process_pkg_config] never changes whether a line
    is a [Libs:] line, and shortens a [Libs:] line by twelve characters
    for each [-R${libdir} ] it removes; other lines keep their
    length. *)
Theorem brotli_pkg_config_shrinks (pcfile : Path) (line : string) :
  let out := BrotliTarget._process_pkg_config pcfile line in
  Str.startswith out "Libs:" = Str.startswith line "Libs:"
  ∧ String.length out
    + (if Str.startswith line "Libs:"
       then 12 * Str.count line "-R${libdir} " else 0)
    = String.length line.
Proof.
  cbv zeta. unfold BrotliTarget._process_pkg_config.
  destruct (Str.startswith line "Libs:") eqn:E; [| split; [done | lia]].
  apply StrFacts.startswith_inv in E.
  set (t := Str.drop _ line) in E. clearbody t. subst line.
  unfold Str.replace, Str.count.
  rewrite RewriteMore.brotli_scan_keeps_key, RewriteMore.brotli_count_skips_key.
  split; [reflexivity |].
  pose proof (StrFacts.length_replace_scan "-R${libdir} " "" 0 t ltac:(done)) as L.
  rewrite !StrFacts.length_append. cbn [String.length] in *. lia.
Qed.

(** X2: after [_process_pkg_config] of bzip2 or bzip3 no line starts
    with [bindir=]: the line is dropped (made empty) or is returned as
    it was; the two classes rewrite alike. *)
Theorem bzip_pkg_config_drops_bindir (pcfile : Path) (line : string) :
  let out := Bzip2Target._process_pkg_config pcfile line in
  Str.startswith out "bindir=" = false
  ∧ (out = "" ∨ out = line)
  ∧ (out = "" ↔ Str.startswith line "bindir=" = true ∨ line = "")
  ∧ Bzip3Target._process_pkg_config pcfile line = out.
Proof.
  cbv zeta. unfold Bzip2Target._process_pkg_config, Bzip3Target._process_pkg_config.
  destruct (Str.startswith line "bindir=") eqn:E.
  - split_and!; [reflexivity | by left | | reflexivity]. split; [by left | done].
  - split_and!; [done | by right | | reflexivity].
    split; [by right | by intros [|]].
Qed.

(** X3: [TiffTarget._process_pkg_config] looks at the key of a line
    only: two lines that start with the same one of [Version:],
    [Cflags:], [Libs:] are rewritten to the same text, whatever follows
    the key and whatever the file, and that text starts with the key
    and ends with a newline. *)
Theorem tiff_pkg_config_by_key (p1 p2 : Path) (l1 l2 key : string) :
  key ∈ tiff_keys →
  Str.startswith l1 key = true →
  Str.startswith l2 key = true →
  TiffTarget._process_pkg_config p1 l1 = TiffTarget._process_pkg_config p2 l2
  ∧ Str.startswith (TiffTarget._process_pkg_config p1 l1) key = true
  ∧ Str.endswith (TiffTarget._process_pkg_config p1 l1) Str.nl = true.
Proof.
  intros Hk H1 H2.
  apply StrFacts.startswith_inv in H1, H2.
  set (t1 := Str.drop _ l1) in H1. set (t2 := Str.drop _ l2) in H2.
  clearbody t1 t2. subst l1 l2.
  unfold tiff_keys in Hk.
  repeat (apply elem_of_cons in Hk as [-> | Hk]);
    [| | | by apply elem_of_nil in Hk];
    split_and!; vm_compute; reflexivity.
Qed.

Lemma tiff_pkg_config_by_key_witness :
  TiffTarget._process_pkg_config "a.pc" "Version: 4.2.0"
    = TiffTarget._process_pkg_config "b.pc" "Version: 1"
  ∧ Str.startswith (TiffTarget._process_pkg_config "a.pc" "Version: 4.2.0")
      "Version:" = true
  ∧ Str.endswith (TiffTarget._process_pkg_config "a.pc" "Version: 4.2.0")
      Str.nl = true.
Proof.
  apply (tiff_pkg_config_by_key "a.pc" "b.pc" "Version: 4.2.0" "Version: 1" "Version:");
    [compute_done | reflexivity | reflexivity].
Defined.

(** X4: the seven prefixes [patch_wx_config] tests for exclude one
    another, so the order of its tests does not matter; a line that
    starts with one of them is rewritten to a text that depends on the
    prefix only and starts with it again. *)
Theorem patch_wx_config_by_prefix (line prefix : string) :
  prefix ∈ wx_config_prefixes →
  Str.startswith line prefix = true →
  (∀ other, other ∈ wx_config_prefixes →
     Str.startswith line other = true → other = prefix)
  ∧ WxWidgetsTarget.patch_wx_config line = WxWidgetsTarget.patch_wx_config prefix
  ∧ Str.startswith (WxWidgetsTarget.patch_wx_config line) prefix = true.
Proof.
  intros Hk H1.
  apply StrFacts.startswith_inv in H1.
  set (t := Str.drop _ line) in H1. clearbody t. subst line.
  unfold wx_config_prefixes in *.
  repeat (apply elem_of_cons in Hk as [-> | Hk]);
    try (by apply elem_of_nil in Hk);
    (split_and!; [| vm_compute; reflexivity | vm_compute; reflexivity]);
    intros other Ho;
    repeat (apply elem_of_cons in Ho as [-> | Ho]);
    try (by apply elem_of_nil in Ho);
    vm_compute; congruence.
Qed.

Lemma patch_wx_config_by_prefix_witness :
  (∀ other, other ∈ wx_config_prefixes →
     Str.startswith "ldlibs_gl=-lGL" other = true → other = "ldlibs_gl=")
  ∧ WxWidgetsTarget.patch_wx_config "ldlibs_gl=-lGL"
    = WxWidgetsTarget.patch_wx_config "ldlibs_gl="
  ∧ Str.startswith (WxWidgetsTarget.patch_wx_config "ldlibs_gl=-lGL")
      "ldlibs_gl=" = true.
Proof.
  apply (patch_wx_config_by_prefix "ldlibs_gl=-lGL" "ldlibs_gl=");
    [compute_done | reflexivity].
Defined.

(** ** [BrotliTarget.post_build] *)

Module BrotliMore.
Import Str StrFacts.

(** A path that ends with [-static.a], split at its last one. *)
Lemma no_suffix_name_split q :
  BrotliTarget.no_suffix_name (q +:+ BrotliTarget.archive_suffix)
  = replace_scan BrotliTarget.archive_suffix ".a" 0 q +:+ ".a"
  ∧ count (q +:+ BrotliTarget.archive_suffix) BrotliTarget.archive_suffix
    = S (count_scan BrotliTarget.archive_suffix 0 q).
Proof.
  destruct (RewriteFacts.scan_before_archive_suffix ".a" 0 q) as [E1 E2]; [lia |].
  split; [exact E1 | exact E2].
Qed.

(** A loop of [os] calls none of which fails makes them all, in
    order. *)
Lemma for_syscalls {A} (l : list A) (g : A → Call) h w :
  (∀ c, os_error h c = None) →
  for_ l (λ x, syscall (g x)) h w
  = (Ok (), mkWorld (self w) (state w) (trace w ++ ((λ x, (g x, None)) <$> l))).
Proof.
  intros Hos. revert w. induction l as [|x l IH]; intros [o s t].
  - cbn. by rewrite app_nil_r.
  - cbn [for_]. unfold mbind, M_bind, syscall at 1. rewrite Hos.
    rewrite IH. cbn [self state trace fmap list_fmap].
    by rewrite <- app_assoc.
Qed.

End BrotliMore.

(** X5: the name [BrotliTarget.post_build] gives a matched archive ends
    with [.a] and is shorter than the old one by seven characters for
    each [-static.a] in it, of which there is at least one. *)
Theorem brotli_new_name_shape (archive : string) :
  Str.endswith archive BrotliTarget.archive_suffix = true →
  Str.endswith (BrotliTarget.no_suffix_name archive) ".a" = true
  ∧ 1 ≤ Str.count archive BrotliTarget.archive_suffix
  ∧ String.length (BrotliTarget.no_suffix_name archive)
    + 7 * Str.count archive BrotliTarget.archive_suffix
    = String.length archive.
Proof.
  intros He. apply StrFacts.endswith_inv in He.
  set (q := Str.take _ archive) in He. clearbody q. subst archive.
  destruct (BrotliMore.no_suffix_name_split q) as [-> ->].
  split_and!; [apply StrFacts.endswith_append | lia |].
  pose proof (StrFacts.length_replace_scan BrotliTarget.archive_suffix ".a" 0 q
                ltac:(done)) as L.
  rewrite !StrFacts.length_append. cbn [String.length BrotliTarget.archive_suffix] in *.
  lia.
Qed.

Lemma brotli_new_name_shape_witness :
  Str.endswith (BrotliTarget.no_suffix_name "/p/lib/libbrotlienc-static.a") ".a" = true
  ∧ 1 ≤ Str.count "/p/lib/libbrotlienc-static.a" BrotliTarget.archive_suffix
  ∧ String.length (BrotliTarget.no_suffix_name "/p/lib/libbrotlienc-static.a")
    + 7 * Str.count "/p/lib/libbrotlienc-static.a" BrotliTarget.archive_suffix
    = String.length "/p/lib/libbrotlienc-static.a".
Proof. apply (brotli_new_name_shape "/p/lib/libbrotlienc-static.a"). reflexivity. Defined.

(** Two archives of one directory can be given one name. *)
Example brotli_new_name_collision :
  BrotliTarget.no_suffix_name "/p/lib/a-static.a-static.a"
  = BrotliTarget.no_suffix_name "/p/lib/a.a-static.a".
Proof. vm_compute. reflexivity. Qed.

(** X6: two matched archives in each of which [-static.a] occurs once
    are given different names, so neither rename overwrites the result
    of the other. *)
Theorem brotli_new_name_injective (a1 a2 : string) :
  Str.endswith a1 BrotliTarget.archive_suffix = true →
  Str.endswith a2 BrotliTarget.archive_suffix = true →
  Str.count a1 BrotliTarget.archive_suffix = 1 →
  Str.count a2 BrotliTarget.archive_suffix = 1 →
  BrotliTarget.no_suffix_name a1 = BrotliTarget.no_suffix_name a2 →
  a1 = a2.
Proof.
  intros E1 E2 C1 C2 E.
  apply StrFacts.endswith_inv in E1, E2.
  set (q1 := Str.take _ a1) in E1. set (q2 := Str.take _ a2) in E2.
  clearbody q1 q2. subst a1 a2.
  destruct (BrotliMore.no_suffix_name_split q1) as [N1 K1].
  destruct (BrotliMore.no_suffix_name_split q2) as [N2 K2].
  rewrite N1, N2 in E. rewrite K1 in C1. rewrite K2 in C2.
  apply StrFacts.append_inv_tail in E.
  assert (F : ∀ q, Str.count_scan BrotliTarget.archive_suffix 0 q = 0 →
                   Str.replace_scan BrotliTarget.archive_suffix ".a" 0 q = q).
  { intros q Hq. apply StrFacts.replace_scan_fixed; [cbn; lia | done]. }
  rewrite !F in E by lia. by rewrite E.
Qed.

Lemma brotli_new_name_injective_witness :
  "/p/lib/libbrotlidec-static.a" = "/p/lib/libbrotlidec-static.a".
Proof.
  apply (brotli_new_name_injective
           "/p/lib/libbrotlidec-static.a" "/p/lib/libbrotlidec-static.a");
    reflexivity.
Defined.

(** X7: when the base class's [post_build] returns and no [os] call
    fails, [BrotliTarget.post_build] removes every file the first
    pattern yields, then renames every file the second pattern yields
    to its new name, in the order the patterns yield them, and returns
    [None]; it makes no other call and leaves the build state and the
    target object as the base class left them. *)
Theorem brotli_post_build_calls (h : Host) (w : World) (v : retval)
    (s0 : BuildState.t) :
  reply h (base_method CMakeStaticDependencyTarget Method.post_build)
    (self w) (state w) = (Ok v, s0) →
  (∀ c, os_error h c = None) →
  let lib := BuildState.install_path s0 in
  hook Cls.BrotliTarget Method.post_build h w
  = (Ok RNone,
     mkWorld
       (touch h (base_method CMakeStaticDependencyTarget Method.post_build)
          (self w) (state w))
       s0
       (trace w
        ++ [(base_method CMakeStaticDependencyTarget Method.post_build, None)]
        ++ ((λ d, (os_unlink d, None)) <$> iglob h (joinpath lib "lib/*.dylib"))
        ++ ((λ a, (os_rename a (BrotliTarget.no_suffix_name a), None))
              <$> iglob h (joinpath lib "lib/*-static.a")))).
Proof.
  intros Hb Hos lib. subst lib.
  rewrite ClassFacts.hook_cases. cbn [own].
  unfold BrotliTarget.post_build.
  cbv beta iota zeta delta
    [returns_none super_ call receives_self glob_iglob get_state
     mbind M_bind mret M_ret].
  rewrite Hb. cbv beta iota. cbn [self state trace].
  rewrite (BrotliMore.for_syscalls _ os_unlink) by done.
  cbv beta iota. cbn [self state trace].
  rewrite (BrotliMore.for_syscalls _
             (λ a, os_rename a (BrotliTarget.no_suffix_name a))) by done.
  cbn [self state trace].
  rewrite <- !app_assoc. reflexivity.
Qed.

Lemma brotli_post_build_calls_witness :
  hook Cls.BrotliTarget Method.post_build (listing_host brotli_listing)
    (world_of Cls.BrotliTarget empty_state)
  = (Ok RNone,
     mkWorld (self (world_of Cls.BrotliTarget empty_state)) empty_state
       [ (base_method CMakeStaticDependencyTarget Method.post_build, None);
         (os_unlink "/install/lib/libbrotlidec.dylib", None);
         (os_unlink "/install/lib/libbrotlidec.1.dylib", None);
         (os_rename "/install/lib/libbrotlicommon-static.a"
                    "/install/lib/libbrotlicommon.a", None);
         (os_rename "/install/lib/libbrotlidec-static.a"
                    "/install/lib/libbrotlidec.a", None) ]).
Proof.
  apply (brotli_post_build_calls (listing_host brotli_listing)
           (world_of Cls.BrotliTarget empty_state) RNone empty_state);
    reflexivity.
Defined.

(** ** Sources *)

(** X8: the names in the body of [targets()] are pairwise different;
    those that are bound resolve, in order, to the classes the two
    modules define, each class once and none left out; and no two
    classes share a default package name. *)
Theorem targets_names_complete :
  NoDup (targets_libraries ++ targets_tools)
  ∧ omap lookup_global (targets_libraries ++ targets_tools) = Cls.all
  ∧ NoDup Cls.all
  ∧ (∀ c, c ∈ Cls.all)
  ∧ NoDup (default_name <$> Cls.all).
Proof.
  split_and!; [compute_done | reflexivity | compute_done | | compute_done].
  intros c. destruct c; compute_done.
Qed.

(** X9: every class downloads over [https], and two classes ask for
    the same URL or the same checksum only when they share one
    [prepare_source], as [IntlTarget] and [GettextTarget] do. *)
Theorem sources_https_distinct :
  (∀ c, ∃ url checksum patches,
     source_of c = Some (url, checksum, patches)
     ∧ Str.startswith url "https://" = true
     ∧ ∀ h w, ∃ o s',
         hook c Method.prepare_source h w
         = (match o with None => Ok RNone | Some e => Raise e end,
            mkWorld (self w) s'
              (trace w ++ [(download_source url checksum patches, o)])))
  ∧ (∀ c1 c2 u1 k1 p1 u2 k2 p2,
       source_of c1 = Some (u1, k1, p1) →
       source_of c2 = Some (u2, k2, p2) →
       u1 = u2 ∨ k1 = k2 →
       hook c1 Method.prepare_source = hook c2 Method.prepare_source).
Proof.
  split.
  - intros c.
    destruct c;
      (do 3 eexists; split_and!;
       [vm_compute; reflexivity
       | vm_compute; reflexivity
       | intros h w; rewrite ClassFacts.hook_cases; cbn [own parent];
         apply run_download_source]).
  - intros c1 c2 u1 k1 p1 u2 k2 p2 E1 E2 H.
    destruct c1; vm_compute in E1; injection E1 as <- <- <-;
      destruct c2; vm_compute in E2; injection E2 as <- <- <-;
      first [reflexivity | by destruct H as [H|H]; discriminate H].
Qed.

(** ** Hooks that read what may be missing *)

(** X10: [FreeImageTarget.configure] calls the base class first and
    then appends to [CFLAGS] and [CXXFLAGS] of the environment.  It
    raises [KeyError] when [CFLAGS] is missing, leaving the state and
    the target object as the base class left them, and when [CXXFLAGS] is missing, by which
    time [CFLAGS] has been extended; otherwise it extends both, each
    old value a prefix of the new one, adds the three valueless options
    and returns [None]. *)
Theorem freeimage_configure_env (h : Host) (w : World) (v : retval)
    (s0 : BuildState.t) :
  reply h (base_method MakeTarget Method.configure) (self w) (state w)
    = (Ok v, s0) →
  let env := BuildState.environment s0 in
  let o1 :=
    touch h (base_method MakeTarget Method.configure) (self w) (state w) in
  let t1 := trace w ++ [(base_method MakeTarget Method.configure, None)] in
  let common := " -O3 -fPIC -fexceptions -fvisibility=hidden" in
  let cflags a :=
    a +:+ common +:+ " -std=gnu89 -Wno-implicit-function-declaration" in
  let cxxflags b := b +:+ common +:+ " -Wno-ctor-dtor-privacy" in
  (env !! "CFLAGS" = None →
     hook Cls.FreeImageTarget Method.configure h w
     = (Raise (KeyError "CFLAGS"), mkWorld o1 s0 t1))
  ∧ (∀ a, env !! "CFLAGS" = Some a → env !! "CXXFLAGS" = None →
       hook Cls.FreeImageTarget Method.configure h w
       = (Raise (KeyError "CXXFLAGS"),
          mkWorld o1
            (BuildState.set_environment (<["CFLAGS" := cflags a]> env) s0) t1))
  ∧ (∀ a b, env !! "CFLAGS" = Some a → env !! "CXXFLAGS" = Some b →
       hook Cls.FreeImageTarget Method.configure h w
       = (Ok RNone,
          mkWorld o1
            (BuildState.set_options
               (<["libfreeimage.a" := VNone]>
                  (<["Makefile.gnu" := VNone]>
                     (<["-f" := VNone]> (BuildState.options s0))))
               (BuildState.set_environment
                  (<["CXXFLAGS" := cxxflags b]> (<["CFLAGS" := cflags a]> env))
                  s0))
            t1)
       ∧ Str.startswith (cflags a) a = true
       ∧ Str.startswith (cxxflags b) b = true).
Proof.
  intros Hb env o1 t1 common cflags cxxflags.
  subst env o1 t1 common cflags cxxflags.
  rewrite ClassFacts.hook_cases. cbn [own].
  unfold FreeImageTarget.configure.
  destruct w as [o s t]. cbn [self state trace] in *.
  split_and!.
  - intros E. HookFacts.run. rewrite Hb. HookFacts.run. by rewrite E.
  - intros a E1 E2. HookFacts.run. rewrite Hb. HookFacts.run. rewrite E1.
    HookFacts.run. cbn [BuildState.environment BuildState.set_environment].
    rewrite lookup_insert_ne by done. by rewrite E2.
  - intros a b E1 E2. split_and!.
    + HookFacts.run. rewrite Hb. HookFacts.run. rewrite E1.
      HookFacts.run. cbn [BuildState.environment BuildState.set_environment].
      rewrite lookup_insert_ne by done. rewrite E2.
      cbn [for_]. HookFacts.run.
      cbn [BuildState.environment BuildState.set_environment
           BuildState.options BuildState.set_options
           BuildState.build_path BuildState.install_path
           BuildState.has_source_file BuildState.architecture].
      reflexivity.
    + apply StrFacts.startswith_append.
    + apply StrFacts.startswith_append.
Qed.

Lemma freeimage_configure_env_witness :
  hook Cls.FreeImageTarget Method.configure (quiet_host 0)
    (world_of Cls.FreeImageTarget empty_state)
  = (Raise (KeyError "CFLAGS"),
     mkWorld (self (world_of Cls.FreeImageTarget empty_state)) empty_state
       [(base_method MakeTarget Method.configure, None)]).
Proof.
  destruct (freeimage_configure_env (quiet_host 0)
              (world_of Cls.FreeImageTarget empty_state) RNone empty_state eq_refl)
    as (H & _).
  apply H. reflexivity.
Defined.

(** X11: [SevenZipTarget.build] names the makefile after the
    architecture, with [x64] for [x86_64], so never [x86_64] itself.
    It raises [KeyError] when the environment lacks [CFLAGS] or
    [LDFLAGS], after it has already stored the options that come
    before; otherwise it hands the four options to the base class.
    [post_build] takes the binary from the directory of the same
    suffix. *)
Theorem sevenzip_build_options (h : Host) (w : World) :
  let arch := BuildState.architecture (state w) in
  let suffix := if String.eqb arch "x86_64" then "x64" else arch in
  let env := BuildState.environment (state w) in
  let opts1 :=
    <["../../cmpl_mac_" +:+ suffix +:+ ".mak" := VNone]>
      (<["-f" := VNone]> (BuildState.options (state w))) in
  let opts2 a :=
    <["CFLAGS_BASE_LIST" := VStr (a +:+ " -Wno-switch-default -c")]> opts1 in
  let with_options o :=
    mkWorld (self w) (BuildState.set_options o (state w)) (trace w) in
  suffix ≠ "x86_64"
  ∧ (env !! "CFLAGS" = None →
       hook Cls.SevenZipTarget Method.build h w
       = (Raise (KeyError "CFLAGS"), with_options opts1))
  ∧ (∀ a, env !! "CFLAGS" = Some a → env !! "LDFLAGS" = None →
       hook Cls.SevenZipTarget Method.build h w
       = (Raise (KeyError "LDFLAGS"), with_options (opts2 a)))
  ∧ (∀ a b, env !! "CFLAGS" = Some a → env !! "LDFLAGS" = Some b →
       hook Cls.SevenZipTarget Method.build h w
       = returns_none (super_ MakeTarget Method.build) h
           (with_options (<["LDFLAGS_STATIC_2" := VStr b]> (opts2 a))))
  ∧ hook Cls.SevenZipTarget Method.post_build h w
    = returns_none
        (call (copy_to_bin
                 [Target.src_root (self w) +:+ "/b/m_" +:+ suffix +:+ "/7zz";
                  "7zz"]) ;; mret ()) h w.
Proof.
  intros arch suffix env opts1 opts2 with_options.
  subst env opts1 opts2 with_options.
  rewrite !ClassFacts.hook_cases. cbn [own].
  unfold SevenZipTarget.build, SevenZipTarget.post_build,
    SevenZipTarget._arch_suffix.
  destruct w as [o s t]. cbn [self state trace] in *.
  fold arch. fold suffix.
  split_and!.
  - subst suffix. destruct (String.eqb_spec arch "x86_64"); done.
  - intros E. HookFacts.run.
    cbn [BuildState.environment BuildState.set_options]. fold arch suffix.
    by rewrite E.
  - intros a E1 E2. HookFacts.run.
    cbn [BuildState.environment BuildState.set_options]. fold arch suffix.
    rewrite E1. HookFacts.run.
    cbn [BuildState.environment BuildState.set_options]. by rewrite E2.
  - intros a b E1 E2. HookFacts.run.
    cbn [BuildState.environment BuildState.set_options]. fold arch suffix.
    rewrite E1. HookFacts.run.
    cbn [BuildState.environment BuildState.set_options]. rewrite E2.
    HookFacts.run. reflexivity.
  - HookFacts.run. reflexivity.
Qed.

Lemma sevenzip_build_options_witness :
  hook Cls.SevenZipTarget Method.build (quiet_host 0)
    (world_of Cls.SevenZipTarget empty_state)
  = (Raise (KeyError "CFLAGS"),
     mkWorld (self (world_of Cls.SevenZipTarget empty_state))
       (BuildState.set_options
          (<["../../cmpl_mac_arm64.mak" := VNone]> (<["-f" := VNone]> ∅))
          empty_state)
       []).
Proof.
  destruct (sevenzip_build_options (quiet_host 0)
              (world_of Cls.SevenZipTarget empty_state)) as (_ & H & _).
  apply H. reflexivity.
Defined.

(** X12: [IntlTarget.configure] sets [src_root] afresh and
    [IntlTarget.build] appends to it, so after the two, in this order,
    [src_root] is [gettext-runtime/intl] whatever it was and whether or
    not the base class raised; [post_build] then moves
    [state.build_path] into that directory, when the host's calls leave
    [build_path] and [src_root] alone. *)
Theorem intl_hooks_in_sequence (h : Host) (w : World) :
  (∀ c o s, BuildState.build_path (snd (reply h c o s)) = BuildState.build_path s) →
  (∀ c o s, Target.src_root (touch h c o s) = Target.src_root o) →
  let w1 := snd (hook Cls.IntlTarget Method.configure h w) in
  let w2 := snd (hook Cls.IntlTarget Method.build h w1) in
  let w3 := snd (hook Cls.IntlTarget Method.post_build h w2) in
  Target.src_root (self w2) = "gettext-runtime/intl"
  ∧ Target.src_root (self w3) = "gettext-runtime/intl"
  ∧ BuildState.build_path (state w3)
    = joinpath (BuildState.build_path (state w)) "gettext-runtime/intl".
Proof.
  intros Hh Ht w1 w2 w3.
  assert (S1 : Target.src_root (self w1) = "gettext-runtime").
  { subst w1. rewrite ClassFacts.hook_cases. cbn [own].
    unfold IntlTarget.configure, GettextTarget.configure.
    destruct w as [o s t]. HookFacts.run.
    destruct (reply h _ _ _) as [[v|e] s']; cbn [snd self]; by rewrite Ht. }
  assert (S2 : Target.src_root (self w2) = Target.src_root (self w1) +:+ "/intl").
  { subst w2. rewrite ClassFacts.hook_cases. cbn [own].
    unfold IntlTarget.build.
    destruct w1 as [o s t]. HookFacts.run.
    destruct (reply h _ _ _) as [[v|e] s']; cbn [snd self]; by rewrite Ht. }
  assert (S3 : Target.src_root (self w3) = Target.src_root (self w2)).
  { subst w3. rewrite ClassFacts.hook_cases. cbn [own].
    unfold IntlTarget.post_build.
    destruct w2 as [o s t]. HookFacts.run.
    destruct (reply h _ _ _) as [[v|e] s']; cbn [snd self]; by rewrite Ht. }
  assert (R2 : Target.src_root (self w2) = "gettext-runtime/intl")
    by (rewrite S2, S1; reflexivity).
  assert (B1 : BuildState.build_path (state w1) = BuildState.build_path (state w)).
  { subst w1. rewrite ClassFacts.hook_cases. cbn [own].
    unfold IntlTarget.configure, GettextTarget.configure.
    destruct w as [o s t]. HookFacts.run.
    pose proof (Hh (base_method ConfigureMakeStaticDependencyTarget Method.configure)) as Hc.
    match goal with
    | |- context [reply h ?c ?o ?s] =>
        specialize (Hc o s); destruct (reply h c o s) as [[v|e] s']
    end; cbn [snd] in Hc; cbn [state]; by rewrite Hc. }
  assert (B2 : BuildState.build_path (state w2) = BuildState.build_path (state w1)).
  { subst w2. rewrite ClassFacts.hook_cases. cbn [own].
    unfold IntlTarget.build.
    destruct w1 as [o s t]. HookFacts.run.
    pose proof (Hh (base_method ConfigureMakeStaticDependencyTarget Method.build)) as Hc.
    match goal with
    | |- context [reply h ?c ?o ?s] =>
        specialize (Hc o s); destruct (reply h c o s) as [[v|e] s']
    end; cbn [snd] in Hc; cbn [state]; by rewrite Hc. }
  split_and!; [done | by rewrite S3 |].
  rewrite <- B1, <- B2, <- R2. clear S1 S2 S3 R2 B1 B2.
  subst w3. rewrite ClassFacts.hook_cases. cbn [own].
  unfold IntlTarget.post_build.
  destruct w2 as [o s t]. HookFacts.run.
  match goal with
  | |- context [reply h ?c ?o ?s] =>
      pose proof (Hh c o s) as Hc; destruct (reply h c o s) as [[v|e] s']
  end; cbn [snd] in Hc; cbn [state]; by rewrite Hc.
Qed.

Lemma intl_hooks_in_sequence_witness :
  let h := quiet_host 0 in
  let w := world_of Cls.IntlTarget empty_state in
  let w1 := snd (hook Cls.IntlTarget Method.configure h w) in
  let w2 := snd (hook Cls.IntlTarget Method.build h w1) in
  let w3 := snd (hook Cls.IntlTarget Method.post_build h w2) in
  Target.src_root (self w2) = "gettext-runtime/intl"
  ∧ Target.src_root (self w3) = "gettext-runtime/intl"
  ∧ BuildState.build_path (state w3)
    = joinpath (BuildState.build_path (state w)) "gettext-runtime/intl".
Proof.
  apply (intl_hooks_in_sequence (quiet_host 0) (world_of Cls.IntlTarget empty_state));
    reflexivity.
Defined.

(** ** What the hooks leave of the build state *)

Module FrameFacts.

Section Respects.
Context (R : BuildState.t → BuildState.t → Prop) `{!Frame R}.

Lemma respects_silent {A} (m : M A) :
  (∀ h w, state (snd (m h w)) = state w) → respects R m.
Proof. intros H h w _. rewrite H. apply frame_refl. Qed.

Lemma respects_bind {A B} (m : M A) (f : A → M B) :
  respects R m → (∀ a, respects R (f a)) → respects R (m ≫= f).
Proof.
  intros Hm Hf h w Hh. specialize (Hm h w Hh).
  unfold mbind, M_bind. destruct (m h w) as [[a|e] w1]; cbn in *; [| done].
  eapply frame_trans; [exact Hm | by apply Hf].
Qed.

Lemma respects_ret {A} (a : A) : respects R (mret a).
Proof. by apply respects_silent. Qed.

Lemma respects_raise {A} e : respects R (raise (A := A) e).
Proof. by apply respects_silent. Qed.

Lemma respects_get_self : respects R get_self.
Proof. by apply respects_silent. Qed.

Lemma respects_get_state : respects R get_state.
Proof. by apply respects_silent. Qed.

Lemma respects_put_self o : respects R (put_self o).
Proof. by apply respects_silent. Qed.

Lemma respects_syscall c : respects R (syscall c).
Proof. by apply respects_silent. Qed.

Lemma respects_glob_iglob p : respects R (glob_iglob p).
Proof. by apply respects_silent. Qed.

Lemma respects_subprocess_run_check args cwd env :
  respects R (subprocess_run_check args cwd env).
Proof.
  apply respects_silent. intros h w. unfold subprocess_run_check.
  by repeat case_match.
Qed.

Lemma respects_call c : respects R (call c).
Proof.
  intros h w Hh. unfold call. specialize (Hh c (self w) (state w)).
  by destruct (reply h c _ _).
Qed.

Lemma respects_for_ {A} (l : list A) (body : A → M unit) :
  (∀ x, respects R (body x)) → respects R (for_ l body).
Proof.
  intros Hb. induction l as [|x l IH]; cbn [for_].
  - apply respects_ret.
  - apply respects_bind; [apply Hb | by intros _].
Qed.

Lemma respects_set_option k v : respects R (set_option k v).
Proof. intros h w _. apply frame_set_option. Qed.

Lemma respects_get_option k : respects R (get_option k).
Proof.
  apply respects_silent. intros h w. unfold get_option, mbind, M_bind, get_state.
  by destruct (_ !! k).
Qed.

Lemma respects_add_str x v : respects R (add_str x v).
Proof. apply respects_silent. intros h w. by destruct x. Qed.

Lemma respects_iadd_option k v : respects R (iadd_option k v).
Proof.
  unfold iadd_option.
  apply respects_bind; [apply respects_get_option | intros x].
  apply respects_bind; [apply respects_add_str | intros y].
  apply respects_set_option.
Qed.

Lemma respects_get_env k : respects R (get_env k).
Proof.
  apply respects_silent. intros h w. unfold get_env, mbind, M_bind, get_state.
  by destruct (_ !! k).
Qed.

Lemma respects_set_env `{!FrameEnv R} k v : respects R (set_env k v).
Proof. intros h w _. apply frame_set_env. Qed.

Lemma respects_iadd_env `{!FrameEnv R} k v : respects R (iadd_env k v).
Proof.
  unfold iadd_env.
  apply respects_bind; [apply respects_get_env | intros x; apply respects_set_env].
Qed.

Lemma respects_state_has_source_file f : respects R (state_has_source_file f).
Proof. by apply respects_silent. Qed.

Lemma respects_and_ e1 e2 :
  respects R e1 → respects R e2 → respects R (and_ e1 e2).
Proof.
  intros H1 H2. unfold and_. apply respects_bind; [done | intros []];
    [done | apply respects_ret].
Qed.

Lemma respects_returns_none m : respects R m → respects R (returns_none m).
Proof.
  intros H. unfold returns_none.
  apply respects_bind; [done | intros _; apply respects_ret].
Qed.

Lemma respects_returns_bool m : respects R m → respects R (returns_bool m).
Proof.
  intros H. unfold returns_bool.
  apply respects_bind; [done | intros b; apply respects_ret].
Qed.

Lemma respects_super_ b m : respects R (super_ b m).
Proof.
  unfold super_.
  apply respects_bind; [apply respects_call | intros _; apply respects_ret].
Qed.

Lemma respects_state_download_source u c p :
  respects R (state_download_source u c p).
Proof.
  unfold state_download_source.
  apply respects_bind; [apply respects_call | intros _; apply respects_ret].
Qed.

Lemma respects_set_src_root v : respects R (set_src_root v).
Proof. by apply respects_silent. Qed.

Lemma respects_arch_suffix : respects R SevenZipTarget._arch_suffix.
Proof. by apply respects_silent. Qed.

Lemma respects_gettext_configure : respects R GettextTarget.configure.
Proof.
  unfold GettextTarget.configure. apply respects_returns_none.
  repeat (apply respects_bind; [apply respects_set_option | intros _]).
  apply respects_super_.
Qed.

(** The assignment to [state.build_path] in [IntlTarget.post_build]. *)
Lemma respects_intl_post_build `{!FrameBuildPath R} :
  respects R IntlTarget.post_build.
Proof.
  unfold IntlTarget.post_build. apply respects_returns_none.
  repeat (apply respects_bind; [apply respects_set_option | intros _]).
  intros h [o s t] Hh.
  set (s1 := BuildState.set_build_path
               (joinpath (BuildState.build_path s) (Target.src_root o)) s).
  change (R s (state (snd
    ((call (install (BuildState.options s1)) ;; mret ()) h (mkWorld o s1 t))))).
  eapply frame_trans; [apply frame_set_build_path |].
  assert (K : respects R (call (install (BuildState.options s1)) ;; mret ())).
  { apply respects_bind; [apply respects_call | intros _; apply respects_ret]. }
  apply (K h (mkWorld o s1 t) Hh).
Qed.

End Respects.

(** Walks through a hook body, statement by statement. *)
Ltac respects :=
  repeat match goal with
  | |- ∀ _, _ => intros
  | |- Frame _ => typeclasses eauto
  | |- FrameEnv _ => typeclasses eauto
  | |- FrameBuildPath _ => typeclasses eauto
  | |- respects _ (let _ := _ in _) => cbv zeta
  | |- respects _ (_ ≫= _) => apply respects_bind
  | |- respects _ (mret _) => apply respects_ret
  | |- respects _ (raise _) => apply respects_raise
  | |- respects _ get_self => apply respects_get_self
  | |- respects _ get_state => apply respects_get_state
  | |- respects _ (syscall _) => apply respects_syscall
  | |- respects _ (glob_iglob _) => apply respects_glob_iglob
  | |- respects _ (subprocess_run_check _ _ _) =>
      apply respects_subprocess_run_check
  | |- respects _ (call _) => apply respects_call
  | |- respects _ (set_option _ _) => apply respects_set_option
  | |- respects _ (iadd_option _ _) => apply respects_iadd_option
  | |- respects _ (get_env _) => apply respects_get_env
  | |- respects _ (iadd_env _ _) => apply respects_iadd_env
  | |- respects _ (state_has_source_file _) =>
      apply respects_state_has_source_file
  | |- respects _ (super_ _ _) => apply respects_super_
  | |- respects _ (state_download_source _ _ _) =>
      apply respects_state_download_source
  | |- respects _ (set_src_root _) => apply respects_set_src_root
  | |- respects _ SevenZipTarget._arch_suffix => apply respects_arch_suffix
  | |- respects _ GettextTarget.configure => apply respects_gettext_configure
  | |- respects _ IntlTarget.post_build => apply respects_intl_post_build
  | |- respects _ (returns_none _) => apply respects_returns_none
  | |- respects _ (returns_bool _) => apply respects_returns_bool
  | |- respects _ (and_ _ _) => apply respects_and_
  | |- respects _ (for_ _ _) => apply respects_for_
  end.

#[global] Instance same_environment_frame : Frame same_environment.
Proof. split; unfold same_environment; [done | congruence | done]. Qed.

#[global] Instance same_environment_build_path : FrameBuildPath same_environment.
Proof. by intros s v. Qed.

#[global] Instance same_build_path_frame : Frame same_build_path.
Proof. split; unfold same_build_path; [done | congruence | done]. Qed.

#[global] Instance same_build_path_env : FrameEnv same_build_path.
Proof. by intros s k v. Qed.

#[global] Instance same_surroundings_frame : Frame same_surroundings.
Proof.
  split; unfold same_surroundings; [done | | done].
  intros s1 s2 s3 (? & ? & ?) (? & ? & ?). split_and!; congruence.
Qed.

#[global] Instance same_surroundings_env : FrameEnv same_surroundings.
Proof. by intros s k v. Qed.

#[global] Instance same_surroundings_build_path : FrameBuildPath same_surroundings.
Proof. by intros s v. Qed.

#[global] Instance keeps_option_keys_frame : Frame keeps_option_keys.
Proof.
  split; unfold keeps_option_keys.
  - done.
  - intros s1 s2 s3 H1 H2. set_solver.
  - intros s k v. cbn. rewrite dom_insert_L. set_solver.
Qed.

#[global] Instance keeps_option_keys_env : FrameEnv keeps_option_keys.
Proof. intros s k v. unfold keeps_option_keys. by cbn. Qed.

#[global] Instance keeps_option_keys_build_path : FrameBuildPath keeps_option_keys.
Proof. intros s v. unfold keeps_option_keys. by cbn. Qed.

(** Every body of the class table, for one relation; the hooks that
    break the relation are left over. *)
Ltac each_body E :=
  match type of E with
  | own ?c ?m = Some _ =>
      destruct c, m; cbn [own] in E; try discriminate E; injection E as <-;
      try solve
        [ respects
        | match goal with |- respects _ ?b => unfold b end; respects ]
  end.

Lemma own_respects_environment c m body :
  own c m = Some body →
  (c, m) ≠ (Cls.FreeImageTarget, Method.configure) →
  respects same_environment body.
Proof. intros E N. each_body E. by destruct N. Qed.

Lemma own_respects_build_path c m body :
  own c m = Some body →
  (c, m) ≠ (Cls.IntlTarget, Method.post_build) →
  respects same_build_path body.
Proof. intros E N. each_body E. by destruct N. Qed.

Lemma own_respects_surroundings c m body :
  own c m = Some body → respects same_surroundings body.
Proof. intros E. each_body E. Qed.

Lemma own_respects_option_keys c m body :
  own c m = Some body → respects keeps_option_keys body.
Proof. intros E. each_body E. Qed.

(** From the bodies to the hooks, through method resolution. *)
Lemma hook_respects R `{!Frame R} c m :
  (∀ d body, d ∈ mro c → own d m = Some body → respects R body) →
  respects R (hook c m).
Proof.
  intros H. rewrite ClassFacts.hook_cases.
  destruct (own c m) as [body|] eqn:E.
  - apply (H c); [by left | done].
  - destruct (parent c) as [b|d] eqn:P; [by apply respects_call |].
    destruct (own d m) as [body|] eqn:E'; [| by apply respects_call].
    apply (H d); [| done].
    destruct c; try discriminate P. injection P as <-. compute_done.
Qed.

End FrameFacts.

Lemma mro_cases c d :
  d ∈ mro c → d = c ∨ (c = Cls.IntlTarget ∧ d = Cls.GettextTarget).
Proof.
  destruct c; vm_compute; intros H;
    repeat (apply elem_of_cons in H as [-> | H]); auto;
    by apply elem_of_nil in H.
Qed.

(** X13: only [FreeImageTarget.configure] assigns to
    [state.environment]: after any other hook of any class the
    environment is what it was, provided the host's own calls leave it
    alone. *)
Theorem environment_kept (c : Cls.t) (m : Method.t) (h : Host) (w : World) :
  (c, m) ≠ (Cls.FreeImageTarget, Method.configure) →
  host_respects same_environment h →
  BuildState.environment (state (snd (hook c m h w)))
  = BuildState.environment (state w).
Proof.
  intros N Hh. apply (λ H, FrameFacts.hook_respects same_environment c m H h w Hh).
  intros d body Hd E. apply (FrameFacts.own_respects_environment d m); [done |].
  destruct (mro_cases c d Hd) as [-> | [-> ->]]; [done | congruence].
Qed.

Lemma environment_kept_witness :
  BuildState.environment
    (state (snd (hook Cls.SevenZipTarget Method.build (quiet_host 0)
                   (world_of Cls.SevenZipTarget empty_state))))
  = BuildState.environment (state (world_of Cls.SevenZipTarget empty_state)).
Proof.
  apply (environment_kept Cls.SevenZipTarget Method.build (quiet_host 0)).
  - discriminate.
  - intros c o s. reflexivity.
Defined.

(** X14: only [IntlTarget.post_build] assigns to [state.build_path]:
    after any other hook of any class the build path is what it was,
    provided the host's own calls leave it alone. *)
Theorem build_path_kept (c : Cls.t) (m : Method.t) (h : Host) (w : World) :
  (c, m) ≠ (Cls.IntlTarget, Method.post_build) →
  host_respects same_build_path h →
  BuildState.build_path (state (snd (hook c m h w)))
  = BuildState.build_path (state w).
Proof.
  intros N Hh. apply (λ H, FrameFacts.hook_respects same_build_path c m H h w Hh).
  intros d body Hd E. apply (FrameFacts.own_respects_build_path d m); [done |].
  destruct (mro_cases c d Hd) as [-> | [-> ->]]; [done | congruence].
Qed.

Lemma build_path_kept_witness :
  BuildState.build_path
    (state (snd (hook Cls.XdeltaTarget Method.configure (quiet_host 0)
                   (world_of Cls.XdeltaTarget empty_state))))
  = BuildState.build_path (state (world_of Cls.XdeltaTarget empty_state)).
Proof.
  apply (build_path_kept Cls.XdeltaTarget Method.configure (quiet_host 0)).
  - discriminate.
  - intros c o s. reflexivity.
Defined.

(** X15: no hook assigns to [state.install_path], nor changes what
    [state.architecture()] and [state.has_source_file] answer: they are
    after every hook of every class what they were, provided the host's
    own calls leave them alone. *)
Theorem surroundings_kept (c : Cls.t) (m : Method.t) (h : Host) (w : World) :
  host_respects same_surroundings h →
  BuildState.install_path (state (snd (hook c m h w)))
    = BuildState.install_path (state w)
  ∧ BuildState.architecture (state (snd (hook c m h w)))
    = BuildState.architecture (state w)
  ∧ BuildState.has_source_file (state (snd (hook c m h w)))
    = BuildState.has_source_file (state w).
Proof.
  intros Hh. apply (λ H, FrameFacts.hook_respects same_surroundings c m H h w Hh).
  intros d body _ E. by apply (FrameFacts.own_respects_surroundings d m).
Qed.

Lemma surroundings_kept_witness :
  let w := world_of Cls.IntlTarget empty_state in
  let w' := snd (hook Cls.IntlTarget Method.post_build (quiet_host 0) w) in
  BuildState.install_path (state w') = BuildState.install_path (state w)
  ∧ BuildState.architecture (state w') = BuildState.architecture (state w)
  ∧ BuildState.has_source_file (state w') = BuildState.has_source_file (state w).
Proof.
  apply (surroundings_kept Cls.IntlTarget Method.post_build (quiet_host 0)).
  intros c o s. repeat split.
Defined.

(** X16: no hook deletes a key of [state.options]: a key that is set
    before a hook of any class is set after it, on success and on
    failure, provided the host's own calls delete none. *)
Theorem option_keys_kept (c : Cls.t) (m : Method.t) (h : Host) (w : World)
    (k : string) :
  host_respects keeps_option_keys h →
  is_Some (BuildState.options (state w) !! k) →
  is_Some (BuildState.options (state (snd (hook c m h w))) !! k).
Proof.
  intros Hh Hk.
  assert (H : keeps_option_keys (state w) (state (snd (hook c m h w)))).
  { apply (λ H, FrameFacts.hook_respects keeps_option_keys c m H h w Hh).
    intros d body _ E. by apply (FrameFacts.own_respects_option_keys d m). }
  unfold keeps_option_keys in H.
  apply elem_of_dom. apply H. by apply elem_of_dom.
Qed.

Lemma option_keys_kept_witness :
  is_Some
    (BuildState.options
       (state (snd (hook Cls.Bzip2Target Method.configure (quiet_host 0)
                      (world_of Cls.Bzip2Target
                         (BuildState.set_options {[ "ENABLE_APP" := VStr "YES" ]}
                            empty_state)))))
     !! "ENABLE_APP").
Proof.
  apply (option_keys_kept Cls.Bzip2Target Method.configure (quiet_host 0)).
  - intros c o s. unfold keeps_option_keys. reflexivity.
  - eexists. reflexivity.
Defined.

(** ** What the hooks call *)

Module EmitFacts.

Section Emits.
Context (P : Call → bool).

Lemma emits_silent {A} (m : M A) :
  (∀ h w, trace (snd (m h w)) = trace w) → emits P m.
Proof. intros H h w. exists []. rewrite app_nil_r. split; [apply H | constructor]. Qed.

Lemma emits_bind {A B} (m : M A) (f : A → M B) :
  emits P m → (∀ a, emits P (f a)) → emits P (m ≫= f).
Proof.
  intros Hm Hf h w. destruct (Hm h w) as (t1 & E1 & F1).
  unfold mbind, M_bind. destruct (m h w) as [[a|e] w1]; cbn in *.
  - destruct (Hf a h w1) as (t2 & E2 & F2).
    exists (t1 ++ t2). rewrite E2, E1, app_assoc. split; [done |].
    by apply Forall_app.
  - by exists t1.
Qed.

Lemma emits_ret {A} (a : A) : emits P (mret a).
Proof. by apply emits_silent. Qed.

Lemma emits_raise {A} e : emits P (raise (A := A) e).
Proof. by apply emits_silent. Qed.

Lemma emits_get_self : emits P get_self.
Proof. by apply emits_silent. Qed.

Lemma emits_get_state : emits P get_state.
Proof. by apply emits_silent. Qed.

Lemma emits_put_state s : emits P (put_state s).
Proof. by apply emits_silent. Qed.

Lemma emits_glob_iglob p : emits P (glob_iglob p).
Proof. by apply emits_silent. Qed.

Lemma emits_call c : P c = true → emits P (call c).
Proof.
  intros Hc h w. unfold call. destruct (reply h c _ _) as [r s]. cbn.
  eexists. split; [done |]. by repeat constructor.
Qed.

Lemma emits_syscall c : P c = true → emits P (syscall c).
Proof.
  intros Hc h w. unfold syscall. cbn.
  eexists. split; [done |]. by repeat constructor.
Qed.

Lemma emits_subprocess_run_check args cwd env :
  P (subprocess_run args cwd env) = true →
  emits P (subprocess_run_check args cwd env).
Proof.
  intros Hc h w. unfold subprocess_run_check. repeat case_match; cbn;
    (eexists; split; [done |]; by repeat constructor).
Qed.

Lemma emits_for_ {A} (l : list A) (body : A → M unit) :
  (∀ x, emits P (body x)) → emits P (for_ l body).
Proof.
  intros Hb. induction l as [|x l IH]; cbn [for_].
  - apply emits_ret.
  - apply emits_bind; [apply Hb | by intros _].
Qed.

Lemma emits_set_option k v : emits P (set_option k v).
Proof. by apply emits_silent. Qed.

Lemma emits_get_option k : emits P (get_option k).
Proof.
  apply emits_silent. intros h w. unfold get_option, mbind, M_bind, get_state.
  by destruct (_ !! k).
Qed.

Lemma emits_iadd_option k v : emits P (iadd_option k v).
Proof.
  unfold iadd_option.
  apply emits_bind; [apply emits_get_option | intros x].
  apply emits_bind; [| intros y; apply emits_set_option].
  apply emits_silent. intros h w. by destruct x.
Qed.

Lemma emits_get_env k : emits P (get_env k).
Proof.
  apply emits_silent. intros h w. unfold get_env, mbind, M_bind, get_state.
  by destruct (_ !! k).
Qed.

Lemma emits_iadd_env k v : emits P (iadd_env k v).
Proof.
  unfold iadd_env.
  apply emits_bind; [apply emits_get_env | intros x]. by apply emits_silent.
Qed.

Lemma emits_state_has_source_file f : emits P (state_has_source_file f).
Proof. by apply emits_silent. Qed.

Lemma emits_and_ e1 e2 : emits P e1 → emits P e2 → emits P (and_ e1 e2).
Proof.
  intros H1 H2. unfold and_. apply emits_bind; [done | intros []];
    [done | apply emits_ret].
Qed.

Lemma emits_returns_none m : emits P m → emits P (returns_none m).
Proof.
  intros H. unfold returns_none.
  apply emits_bind; [done | intros _; apply emits_ret].
Qed.

Lemma emits_returns_bool m : emits P m → emits P (returns_bool m).
Proof.
  intros H. unfold returns_bool.
  apply emits_bind; [done | intros b; apply emits_ret].
Qed.

Lemma emits_super_ b m : P (base_method b m) = true → emits P (super_ b m).
Proof.
  intros H. unfold super_.
  apply emits_bind; [by apply emits_call | intros _; apply emits_ret].
Qed.

Lemma emits_state_download_source u c p :
  P (download_source u c p) = true → emits P (state_download_source u c p).
Proof.
  intros H. unfold state_download_source.
  apply emits_bind; [by apply emits_call | intros _; apply emits_ret].
Qed.

Lemma emits_set_src_root v : emits P (set_src_root v).
Proof. by apply emits_silent. Qed.

Lemma emits_arch_suffix : emits P SevenZipTarget._arch_suffix.
Proof. by apply emits_silent. Qed.

End Emits.

(** Walks through a hook body; a call that fails [P] stops it. *)
Ltac emits :=
  repeat match goal with
  | |- ∀ _, _ => intros
  | |- _ = true => reflexivity
  | |- emits _ (let _ := _ in _) => cbv zeta
  | |- emits _ (_ ≫= _) => apply emits_bind
  | |- emits _ (mret _) => apply emits_ret
  | |- emits _ (raise _) => apply emits_raise
  | |- emits _ get_self => apply emits_get_self
  | |- emits _ get_state => apply emits_get_state
  | |- emits _ (put_state _) => apply emits_put_state
  | |- emits _ (syscall _) => apply emits_syscall
  | |- emits _ (glob_iglob _) => apply emits_glob_iglob
  | |- emits _ (subprocess_run_check _ _ _) => apply emits_subprocess_run_check
  | |- emits _ (call _) => apply emits_call
  | |- emits _ (set_option _ _) => apply emits_set_option
  | |- emits _ (iadd_option _ _) => apply emits_iadd_option
  | |- emits _ (get_env _) => apply emits_get_env
  | |- emits _ (iadd_env _ _) => apply emits_iadd_env
  | |- emits _ (state_has_source_file _) => apply emits_state_has_source_file
  | |- emits _ (super_ _ _) => apply emits_super_
  | |- emits _ (state_download_source _ _ _) => apply emits_state_download_source
  | |- emits _ (set_src_root _) => apply emits_set_src_root
  | |- emits _ SevenZipTarget._arch_suffix => apply emits_arch_suffix
  | |- emits _ GettextTarget.configure => unfold GettextTarget.configure
  | |- emits _ (returns_none _) => apply emits_returns_none
  | |- emits _ (returns_bool _) => apply emits_returns_bool
  | |- emits _ (and_ _ _) => apply emits_and_
  | |- emits _ (for_ _ _) => apply emits_for_
  end.

Ltac each_body E :=
  match type of E with
  | own ?c ?m = Some _ =>
      destruct c, m; cbn [own] in E; try discriminate E; injection E as <-;
      try solve [match goal with |- emits _ ?b => unfold b end; emits]
  end.

Lemma own_emits_not_download c m body :
  own c m = Some body → m ≠ Method.prepare_source → emits not_download body.
Proof. intros E N. each_body E. all: by destruct N. Qed.

Lemma own_emits_in_host c m body :
  own c m = Some body → (c, m) ∉ reaches_os → emits in_host body.
Proof.
  intros E N. each_body E.
  all: exfalso; apply N; compute_done.
Qed.

Lemma hook_emits P c m :
  (∀ b, P (base_method b m) = true) →
  (∀ d body, d ∈ mro c → own d m = Some body → emits P body) →
  emits P (hook c m).
Proof.
  intros Hb H. rewrite ClassFacts.hook_cases.
  destruct (own c m) as [body|] eqn:E.
  - apply (H c); [by left | done].
  - destruct (parent c) as [b|d] eqn:Pc; [by apply emits_call |].
    destruct (own d m) as [body|] eqn:E'; [| by apply emits_call].
    apply (H d); [| done].
    destruct c; try discriminate Pc. injection Pc as <-. compute_done.
Qed.

End EmitFacts.

(** X17: a hook other than [prepare_source] never downloads: none of
    the calls it makes is a call of [state.download_source]. *)
Theorem downloads_in_prepare_source_only (c : Cls.t) (m : Method.t)
    (h : Host) (w : World) :
  m ≠ Method.prepare_source →
  ∃ t, trace (snd (hook c m h w)) = trace w ++ t
       ∧ Forall (λ ev, is_download ev.1 = false) t.
Proof.
  intros N.
  destruct (EmitFacts.hook_emits not_download c m) with (h := h) (w := w)
    as (t & E & F).
  - reflexivity.
  - intros d body _ Hd. by apply (EmitFacts.own_emits_not_download d m).
  - exists t. split; [done |].
    eapply Forall_impl; [exact F |]. intros ev. unfold not_download.
    by destruct (is_download ev.1).
Qed.

Lemma downloads_in_prepare_source_only_witness :
  ∃ t, trace (snd (hook Cls.ZipTarget Method.configure (quiet_host 0)
                     (world_of Cls.ZipTarget empty_state)))
       = trace (world_of Cls.ZipTarget empty_state) ++ t
       ∧ Forall (λ ev, is_download ev.1 = false) t.
Proof.
  apply (downloads_in_prepare_source_only Cls.ZipTarget Method.configure).
  discriminate.
Defined.

(** X18: the hooks keep to the host framework, but for five: only the
    [post_build] of brotli, bzip2, freeimage and radare2 call [os] or
    [shutil], and only [XdeltaTarget.configure] starts a process; every
    call any other hook makes is a call into the host. *)
Theorem os_reached_by_five_hooks (c : Cls.t) (m : Method.t)
    (h : Host) (w : World) :
  (c, m) ∉ reaches_os →
  ∃ t, trace (snd (hook c m h w)) = trace w ++ t
       ∧ Forall (λ ev, leaves_host ev.1 = false) t.
Proof.
  intros N.
  destruct (EmitFacts.hook_emits in_host c m) with (h := h) (w := w)
    as (t & E & F).
  - reflexivity.
  - intros d body Hd Ho. apply (EmitFacts.own_emits_in_host d m); [done |].
    destruct (mro_cases c d Hd) as [-> | [-> ->]]; [done |].
    destruct m; compute_done.
  - exists t. split; [done |].
    eapply Forall_impl; [exact F |]. intros ev. unfold in_host.
    by destruct (leaves_host ev.1).
Qed.

Lemma os_reached_by_five_hooks_witness :
  ∃ t, trace (snd (hook Cls.LuaTarget Method.post_build (quiet_host 0)
                     (world_of Cls.LuaTarget empty_state)))
       = trace (world_of Cls.LuaTarget empty_state) ++ t
       ∧ Forall (λ ev, leaves_host ev.1 = false) t.
Proof.
  apply (os_reached_by_five_hooks Cls.LuaTarget Method.post_build).
  compute_done.
Defined.

(** The five do reach it. *)
Example os_reached :
  forallb (λ '(c, m),
             existsb (λ ev, leaves_host ev.1)
               (trace (snd (hook c m (listing_host brotli_listing)
                              (world_of c empty_state)))))
          reaches_os = true.
Proof. vm_compute. reflexivity. Qed.

(** ** [configure] *)

Module StepFacts.

(** As [HookFacts.run], and through the fields of a state that has
    been taken apart, so that a state is never carried along twice. *)
Ltac run :=
  cbv beta iota zeta delta
    [returns_none returns_bool super_ state_download_source set_src_root
     set_option get_option add_str iadd_option get_env set_env iadd_env
     state_has_source_file and_ call receives_self syscall
     subprocess_run_check glob_iglob
     get_self get_state put_self put_state raise
     mbind M_bind mret M_ret fst snd self state trace
     BuildState.options BuildState.environment BuildState.build_path
     BuildState.install_path BuildState.has_source_file
     BuildState.architecture BuildState.set_options
     BuildState.set_environment BuildState.set_build_path].

Ltac run_in H :=
  cbv beta iota zeta delta
    [returns_none returns_bool super_ state_download_source set_src_root
     set_option get_option add_str iadd_option get_env set_env iadd_env
     state_has_source_file and_ call receives_self syscall
     subprocess_run_check glob_iglob
     get_self get_state put_self put_state raise
     mbind M_bind mret M_ret fst snd self state trace
     BuildState.options BuildState.environment BuildState.build_path
     BuildState.install_path BuildState.has_source_file
     BuildState.architecture BuildState.set_options
     BuildState.set_environment BuildState.set_build_path] in H.

(** The world a [configure] leaves, made explicit. *)
Ltac first_run Hh E :=
  rewrite ClassFacts.hook_cases in E; cbn [own parent] in E;
  repeat match type of E with
         | context [?b ?h (mkWorld _ _ _)] => is_const b; unfold b in E
         end;
  try unfold GettextTarget.configure in E;
  run_in E;
  repeat match type of E with
         | context [reply ?h ?c ?o ?s] =>
             let H := fresh in
             pose proof (Hh c o s) as H;
             destruct (reply h c o s) as [[?|?] ?];
             cbn [snd] in H; match type of H with ?x = _ => subst x end;
             run_in E
         | context [run_process ?h ?a ?d ?e] =>
             destruct (run_process h a d e) as [?|?]; run_in E
         | context [if ?b then _ else _] => destruct b; run_in E
         end.

Ltac second_run Hh :=
  rewrite ClassFacts.hook_cases; cbn [own parent];
  repeat match goal with
         | |- context [?b ?h (mkWorld _ _ _)] => is_const b; unfold b
         end;
  try unfold GettextTarget.configure;
  run;
  repeat match goal with
         | |- context [reply ?h ?c ?o ?s] =>
             let H := fresh in
             pose proof (Hh c o s) as H;
             destruct (reply h c o s) as [[?|?] ?];
             cbn [snd] in H; match type of H with ?x = _ => subst x end;
             run
         | |- context [run_process ?h ?a ?d ?e] =>
             destruct (run_process h a d e) as [?|?]; run
         | |- context [if ?b then _ else _] => destruct b; run
         end.

End StepFacts.

(** X19: but for freeimage, ffmpeg, xdelta and xz, the [configure] of
    a class cannot fail by itself: whatever the state, it makes exactly
    one call, of the [configure] of its base class in the host, as its
    last step, and raises exactly when that call does. *)
Theorem configure_delegates_once (c : Cls.t) (h : Host) (w : World) :
  c ∉ configure_not_plain →
  ∃ b o,
    host_base c = Some b
    ∧ trace (snd (hook c Method.configure h w))
      = trace w ++ [(base_method b Method.configure, o)]
    ∧ match o with
      | Some e => fst (hook c Method.configure h w) = Raise e
      | None => ∃ v, fst (hook c Method.configure h w) = Ok v
      end.
Proof.
  intros N. rewrite ClassFacts.hook_cases.
  destruct w as [o0 [opts env bp ip hs ar] t].
  destruct c; cbn [own parent];
    try (exfalso; apply N; compute_done);
    try match goal with
        | |- context [trace (snd (?b h ?w))] => unfold b
        end;
    try unfold GettextTarget.configure;
    StepFacts.run;
    (eexists; match goal with
              | |- context [reply h ?c ?o ?s] =>
                  destruct (reply h c o s) as [[v|e] s']
              end;
     [exists None | exists (Some e)];
     (split_and!; [reflexivity | reflexivity | eauto])).
Qed.

Lemma configure_delegates_once_witness :
  ∃ b o,
    host_base Cls.RizinTarget = Some b
    ∧ trace (snd (hook Cls.RizinTarget Method.configure (quiet_host 0)
                    (world_of Cls.RizinTarget empty_state)))
      = trace (world_of Cls.RizinTarget empty_state)
        ++ [(base_method b Method.configure, o)]
    ∧ match o with
      | Some e => fst (hook Cls.RizinTarget Method.configure (quiet_host 0)
                         (world_of Cls.RizinTarget empty_state)) = Raise e
      | None => ∃ v, fst (hook Cls.RizinTarget Method.configure (quiet_host 0)
                            (world_of Cls.RizinTarget empty_state)) = Ok v
      end.
Proof.
  apply (configure_delegates_once Cls.RizinTarget). compute_done.
Defined.

(** X20: [configure] can be run again: but for freeimage and xz, which
    append to what is there, running the [configure] of a class a
    second time leaves the build state as the first run left it, when
    the host's own calls leave the state alone. *)
Theorem configure_twice (c : Cls.t) (h : Host) (w : World) :
  c ∉ [Cls.FreeImageTarget; Cls.XzTarget] →
  (∀ call o s, snd (reply h call o s) = s) →
  let w1 := snd (hook c Method.configure h w) in
  state (snd (hook c Method.configure h w1)) = state w1.
Proof.
  intros N Hh. cbv zeta.
  destruct w as [o0 [opts env bp ip hs ar] t].
  remember (snd (hook c Method.configure h
                   (mkWorld o0 (BuildState.mk opts env bp ip hs ar) t)))
    as w1 eqn:E.
  destruct c;
    try (exfalso; apply N; compute_done);
    StepFacts.first_run Hh E; subst w1;
    StepFacts.second_run Hh;
    try reflexivity;
    (f_equal; repeat (rewrite insert_id; [| by simplify_map_eq]); reflexivity).
Qed.

Lemma configure_twice_witness :
  let h := quiet_host 0 in
  let w1 := snd (hook Cls.Radare2Target Method.configure h
                   (world_of Cls.Radare2Target empty_state)) in
  state (snd (hook Cls.Radare2Target Method.configure h w1)) = state w1.
Proof.
  apply (configure_twice Cls.Radare2Target (quiet_host 0)).
  - compute_done.
  - intros call o s. reflexivity.
Defined.

(** [XzTarget.configure] appends again. *)
Example xz_configure_twice :
  let h := quiet_host 0 in
  let s := BuildState.set_options
             {[ "BUILD_TESTING" := VStr ""; "CMAKE_EXE_LINKER_FLAGS" := VStr "" ]}
             empty_state in
  let w1 := snd (hook Cls.XzTarget Method.configure h (world_of Cls.XzTarget s)) in
  let w2 := snd (hook Cls.XzTarget Method.configure h w1) in
  BuildState.options (state w1) !! "BUILD_TESTING" = Some (VStr "NO")
  ∧ BuildState.options (state w2) !! "BUILD_TESTING" = Some (VStr "NONO").
Proof. split; vm_compute; reflexivity. Qed.
